(** * AI-Backend: a shallow embedding of the study-aid backend

    The development follows the layout of the repository:

    - [JS]         the pieces of the JavaScript runtime the code relies on
                   (strings as sequences of UTF-16 code units, [trim],
                   [split], replacement by regular expressions, numbers
                   with [NaN], the stable [Array.prototype.sort], promises
                   and exceptions);
    - [Vision]     [services/googleVisionService.js];
    - [YouTube]    [services/youtubeService.js];
    - [Gemini]     the AI-analysis service (geminiService);
    - [Http]       [utils/responseFormatter.js];
    - [Store]      the two mongoose models (Document, ChatHistory);
    - [Documents]  the document controller;
    - [Chats]      [controllers/chatController.js];
    - [Pdf]        the PDF generator;
    - [Exporting]  [controllers/exportController.js].

    External providers (Vision, Gemini, YouTube Data API) are black boxes:
    a provider is a function from the request to the outcome of the call.
    Built-ins whose definition lies outside the repository
    ([JSON.parse], [toLowerCase], [encodeURIComponent], the casting done
    by mongoose) are parameters.  The modules of facts come after the
    modules of definitions, in the same order. *)

From Stdlib Require Import Strings.String Strings.Ascii Numbers.DecimalString.
From Stdlib Require Import List ZArith NArith QArith Qround Qminmax Bool Lia Lqa.
From Stdlib Require Import Sorting.Sorted Sorting.Permutation.
Import ListNotations.

Set Implicit Arguments.
Set Warnings "-register-all".

(* ================================================================== *)
(** * The JavaScript runtime *)
(* ================================================================== *)

Module JS.

(** A JavaScript string is a sequence of UTF-16 code units. *)
Definition jsstring := list N.

(** ASCII literals of the source text. *)
Definition lit (s : String.string) : jsstring :=
  map Ascii.N_of_ascii (String.list_ascii_of_string s).
Arguments lit s%_string.

Definition LF : N := 10%N.
Definition SPACE : N := 32%N.
Definition SLASH : N := 47%N.
Definition DQUOTE : N := 34%N.

(** The class [\s] of regular expressions, which is also the set of code
    units removed by [String.prototype.trim]: WhiteSpace and
    LineTerminator of ECMA-262. *)
Definition is_space (c : N) : bool :=
  ((9 <=? c) && (c <=? 13) || (c =? 32) || (c =? 160) || (c =? 5760)
   || (8192 <=? c) && (c <=? 8202) || (c =? 8232) || (c =? 8233)
   || (c =? 8239) || (c =? 8287) || (c =? 12288) || (c =? 65279))%N.

Definition is_LF (c : N) : bool := (c =? LF)%N.

Fixpoint dropWhile (p : N -> bool) (s : jsstring) : jsstring :=
  match s with
  | [] => []
  | c :: t => if p c then dropWhile p t else s
  end.

Definition trimStart (s : jsstring) : jsstring := dropWhile is_space s.
Definition trimEnd (s : jsstring) : jsstring := rev (dropWhile is_space (rev s)).

(** [s.trim()] *)
Definition trim (s : jsstring) : jsstring := trimEnd (trimStart s).

(** [s.replace(/C+/g, r)] for a character class [C] and a one-unit
    replacement [r]: every maximal run of code units of the class is
    replaced by [r].  A unit of the class is written out (as [r]) only
    when it closes its run. *)
Fixpoint replace_runs (p : N -> bool) (r : N) (s : jsstring) : jsstring :=
  match s with
  | [] => []
  | c :: t =>
      if p c then
        match t with
        | c' :: _ => if p c' then replace_runs p r t else r :: replace_runs p r t
        | [] => [r]
        end
      else c :: replace_runs p r t
  end.

(** [s.split(sep)] for a one-unit separator; the result is never empty. *)
Fixpoint split_on (sep : N) (s : jsstring) : list jsstring :=
  match s with
  | [] => [[]]
  | c :: t =>
      if (c =? sep)%N then [] :: split_on sep t
      else match split_on sep t with
           | h :: r => (c :: h) :: r
           | [] => [[c]]
           end
  end.

(** [a.pop()] on a non-empty array returns its last element. *)
Definition pop (a : list jsstring) : jsstring := last a [].

(** [s.length === 0], the falsy string. *)
Definition is_empty (s : jsstring) : bool :=
  match s with [] => true | _ => false end.

(** [s.startsWith(sub)] *)
Fixpoint prefixb (sub s : jsstring) : bool :=
  match sub, s with
  | [], _ => true
  | a :: sub', b :: s' => (a =? b)%N && prefixb sub' s'
  | _ :: _, [] => false
  end.

(** [s.includes(sub)] *)
Fixpoint includesb (s sub : jsstring) : bool :=
  prefixb sub s ||
  match s with
  | [] => false
  | _ :: t => includesb t sub
  end.

(** [a.join(sep)] on an array of strings *)
Fixpoint join (sep : jsstring) (a : list jsstring) : jsstring :=
  match a with
  | [] => []
  | x :: t =>
      match t with
      | [] => x
      | _ :: _ => x ++ sep ++ join sep t
      end
  end.

(** [s.substring(0, n)] for a literal [n] *)
Definition substring0 (n : nat) (s : jsstring) : jsstring := firstn n s.

(** A value of a template literal that may be [undefined]. *)
Definition tpl (o : option jsstring) : jsstring :=
  match o with Some s => s | None => lit "undefined" end.

(** [a || b] on strings that may be [undefined]: the empty string is
    falsy. *)
Definition str_or (a b : option jsstring) : option jsstring :=
  match a with
  | Some (_ :: _) => a
  | Some [] | None => b
  end.

(** Numbers.  A finite double is modelled by the rational it stands for,
    without rounding; [NaN] is kept, because [parseInt] produces it and
    every operation propagates it.  Infinities do not arise in the code
    modelled here (the only division is by the literal 10000). *)
Inductive number : Type :=
| NaN : number
| Num : Q -> number.

Definition num_add (a b : number) : number :=
  match a, b with
  | Num x, Num y => Num (x + y)
  | _, _ => NaN
  end.

Definition num_sub (a b : number) : number :=
  match a, b with
  | Num x, Num y => Num (x - y)
  | _, _ => NaN
  end.

(** [a / d] for a positive integer literal [d] *)
Definition num_over (a : number) (d : positive) : number :=
  match a with
  | Num x => Num (x / inject_Z (Zpos d))
  | NaN => NaN
  end.

(** [Math.min(a, b)] *)
Definition Math_min (a b : number) : number :=
  match a, b with
  | Num x, Num y => Num (if Qle_bool x y then x else y)
  | _, _ => NaN
  end.

(** [parseInt] of a field that holds the decimal digits of an integer, or
    is missing ([parseInt(undefined)] is [NaN]). *)
Definition parseInt (field : option Z) : number :=
  match field with
  | Some z => Num (inject_Z z)
  | None => NaN
  end.

(** [v > 0] as [Array.prototype.sort] reads the result of a comparator:
    a [NaN] result counts as [+0]. *)
Definition positive_result (v : number) : bool :=
  match v with
  | Num q => negb (Qle_bool q 0)
  | NaN => false
  end.

(** [a.sort(cmp)].  ECMA-262 requires a stable sort and fixes the result
    whenever [cmp] is a consistent comparator; the model is insertion from
    the right, which moves an element behind exactly those that [cmp]
    puts strictly before it.  (With an inconsistent comparator the
    standard leaves the order to the implementation.) *)
Section Sort.
Variable A : Type.
Variable cmp : A -> A -> number.

Fixpoint insert (x : A) (l : list A) : list A :=
  match l with
  | [] => [x]
  | y :: t => if positive_result (cmp x y) then y :: insert x t else x :: l
  end.

Definition sort (l : list A) : list A := fold_right insert [] l.
End Sort.

(** What awaiting a promise can do: throw (the promise rejected) or give
    a value. *)
Inductive Outcome (A : Type) : Type :=
| Rejected : Outcome A
| Resolved : A -> Outcome A.
Arguments Rejected {A}.
Arguments Resolved {A} _.

(** [a === b] on strings *)
Fixpoint streq (a b : jsstring) : bool :=
  match a, b with
  | [], [] => true
  | x :: a', y :: b' => (x =? y)%N && streq a' b'
  | _, _ => false
  end.

(** A [Date]: built from a string ([new Date(s)]) or read from the clock
    ([new Date()], [Date.now()]), in milliseconds. *)
Inductive Date : Type :=
| DateOf : jsstring -> Date
| DateAt : Z -> Date.

(** A literal of the source in which a back quote stands for a double
    quote. *)
Definition litq (s : String.string) : jsstring :=
  map (fun c => if (c =? 96)%N then DQUOTE else c) (lit s).
Arguments litq s%_string.

(** The decimal digits of an integer, as a template literal writes it. *)
Definition decimal (z : Z) : jsstring :=
  lit (NilZero.string_of_int (Z.to_int z)).

(** [s.split(/C+/)] for a character class [C]: the pieces between the
    maximal runs of the class. *)
Fixpoint split_runs (p : N -> bool) (s : jsstring) : list jsstring :=
  match s with
  | [] => [[]]
  | c :: t =>
      if p c then
        match t with
        | c' :: _ => if p c' then split_runs p t else [] :: split_runs p t
        | [] => [[]; []]
        end
      else match split_runs p t with
           | h :: r => (c :: h) :: r
           | [] => [[c]]
           end
  end.

(** The longest prefix of units satisfying [p], and the rest. *)
Fixpoint span (p : N -> bool) (s : jsstring) : jsstring * jsstring :=
  match s with
  | c :: t => if p c then let (a, b) := span p t in (c :: a, b) else ([], s)
  | [] => ([], [])
  end.

(** The leftmost suffix of [s] at which [f] succeeds. *)
Fixpoint find_first {A : Type} (f : jsstring -> option A) (s : jsstring) : option A :=
  match f s with
  | Some x => Some x
  | None =>
      match s with
      | [] => None
      | _ :: t => find_first f t
      end
  end.

(** The errors the controllers tell apart by [error.name]. *)
Inductive ErrorName : Type :=
| CastError | ValidationError | TypeError | URIError | MongoError.

(** A computation that returns or throws. *)
Inductive Try (A : Type) : Type :=
| Return : A -> Try A
| Throw : ErrorName -> Try A.
Arguments Return {A} _.
Arguments Throw {A} _.

(** [Math.ceil(a / b)] on integers, [b] not zero. *)
Definition ceil_div (a b : Z) : Z := Qceiling (inject_Z a / inject_Z b).

(** [parseInt(x) || d]: [NaN] ([None]) and 0 give [d]. *)
Definition int_or (x : option Z) (d : Z) : Z :=
  match x with
  | Some z => if (z =? 0)%Z then d else z
  | None => d
  end.

(** [a >= b] between numbers; it never holds of [NaN]. *)
Definition num_ge (a b : number) : Prop :=
  match a, b with
  | Num x, Num y => (y <= x)%Q
  | _, _ => False
  end.

(** [haystack] contains [needle] as a contiguous block. *)
Definition contains (haystack needle : jsstring) : Prop :=
  exists pre post, haystack = pre ++ needle ++ post.

(** No two neighbouring code units of [s] both satisfy [p]. *)
Definition no_two_adjacent (p : N -> bool) (s : jsstring) : Prop :=
  forall pre a b post, s = pre ++ a :: b :: post -> p a = true -> p b = false.

(** [s] neither starts nor ends with white space. *)
Definition trimmed (s : jsstring) : Prop :=
  (forall c t, s = c :: t -> is_space c = false) /\
  (forall t c, s = t ++ [c] -> is_space c = false).

End JS.

Import JS.

(* ================================================================== *)
(** * services/googleVisionService.js *)
(* ================================================================== *)

Module Vision.

(** [textAnnotations[i]] *)
Record Detection : Type := {
  description : jsstring;
  det_confidence : Q
}.

(** [fullTextAnnotation] and what hangs below it. *)
Record Symbol : Type := { sym_text : jsstring }.
Record Word : Type := { symbols : list Symbol }.
Record Paragraph : Type := { words : list Word }.
Record Block : Type := { paragraphs : list Paragraph }.
Record Page : Type := { blocks : list Block }.
Record FullTextAnnotation : Type := {
  pages : list Page;
  fta_text : jsstring
}.

(** [this.client]: the two calls the service makes, by image path.
    [textAnnotations] and [fullTextAnnotation] may be missing from the
    result. *)
Record Client : Type := {
  textDetection : jsstring -> Outcome (option (list Detection));
  documentTextDetection : jsstring -> Outcome (option FullTextAnnotation)
}.

(** The service after its constructor ran: [None] when the constructor
    caught a configuration error ([isConfigured = false], [client = null]). *)
Definition Service := option Client.

Definition isConfigured (svc : Service) : bool :=
  match svc with Some _ => true | None => false end.

(** The object every operation of the service returns; a field the
    object literal does not list is [None]. *)
Record Result : Type := {
  success : bool;
  extractedText : option jsstring;
  rawText : option jsstring;
  structuredText : option jsstring;
  confidence : Q
}.

Definition processExtractedText (rawText : jsstring) : jsstring :=
  if is_empty rawText then []
  else trim (replace_runs is_space SPACE (replace_runs is_LF LF rawText)).

Definition fallbackPrefix : jsstring := lit
"[OCR Service Unavailable]

This appears to be an uploaded image file. The Google Vision API is not currently configured, so automatic text extraction is not available.

To use this service properly, please:
1. Set up a Google Cloud Project
2. Enable the Vision API
3. Create a service account and download the credentials JSON file
4. Set the GOOGLE_CLOUD_PROJECT_ID and GOOGLE_APPLICATION_CREDENTIALS environment variables

For now, you can manually type the content from your image in the prompt field to get AI analysis.

Image file: ".

Definition fallbackTextExtraction (imagePath : jsstring) : Result :=
  let fallbackText := fallbackPrefix ++ pop (split_on SLASH imagePath) in
  {| success := true;
     extractedText := Some fallbackText;
     rawText := Some fallbackText;
     structuredText := None;
     confidence := 0 |}.

(** [x || 0.8] on numbers *)
Definition or_default (x d : Q) : Q := if Qeq_bool x 0 then d else x.

Definition extractTextFromImage (svc : Service) (imagePath : jsstring) : Result :=
  match svc with
  | None => fallbackTextExtraction imagePath
  | Some client =>
      match textDetection client imagePath with
      | Resolved (Some (d0 :: _)) =>
          let extracted := description d0 in
          let processedText := processExtractedText extracted in
          {| success := true;
             extractedText := Some processedText;
             rawText := Some extracted;
             structuredText := None;
             confidence := or_default (det_confidence d0) (8 # 10) |}
      | Resolved (Some []) | Resolved None | Rejected =>
          (* the catch block *)
          fallbackTextExtraction imagePath
      end
  end.

(** The body of [paragraph.words.forEach]. *)
Definition paragraphText (p : Paragraph) : jsstring :=
  fold_left
    (fun acc w =>
       fold_left (fun acc' s => acc' ++ sym_text s) (symbols w) acc ++ [SPACE])
    (words p) [].

(** The four nested [forEach] loops over pages, blocks and paragraphs. *)
Definition collectStructuredText (pgs : list Page) : jsstring :=
  fold_left
    (fun acc pg =>
       fold_left
         (fun acc' b =>
            fold_left
              (fun acc'' p => acc'' ++ trim (paragraphText p) ++ [LF; LF])
              (paragraphs b) acc')
         (blocks pg) acc)
    pgs [].

Definition detectDocumentStructure (svc : Service) (imagePath : jsstring) : Result :=
  match svc with
  | None => fallbackTextExtraction imagePath
  | Some client =>
      match documentTextDetection client imagePath with
      | Resolved (Some fta) =>
          {| success := true;
             extractedText := None;
             rawText := None;
             structuredText := Some (trim (collectStructuredText (pages fta)));
             confidence := if is_empty (fta_text fta) then 7 # 10 else 9 # 10 |}
      | Resolved None | Rejected => extractTextFromImage svc imagePath
      end
  end.

End Vision.

(* ================================================================== *)
(** * services/youtubeService.js *)
(* ================================================================== *)

Module YouTube.

(** An item of the search response ([video.id.videoId], [video.snippet]). *)
Record SearchItem : Type := {
  videoId : jsstring;
  sn_title : jsstring;
  sn_channelTitle : jsstring;
  sn_publishedAt : jsstring;
  sn_description : jsstring;
  thumb_medium : option jsstring;
  thumb_default : option jsstring
}.

(** An item of the videos response ([stat.id], [stat.statistics],
    [stat.contentDetails]).  The counts are decimal strings in the API;
    [None] stands for a count the response leaves out. *)
Record Statistics : Type := {
  st_id : jsstring;
  st_viewCount : option Z;
  st_likeCount : option Z;
  st_duration : jsstring
}.

(** The parameters of a search request that vary between the two
    operations. *)
Record SearchParams : Type := {
  q : jsstring;
  maxResults : Z;
  safeSearch : jsstring;
  videoDuration : option jsstring
}.

(** The YouTube Data API as [axios.get] sees it; [data.items] may be
    missing from a response. *)
Record Api : Type := {
  search : SearchParams -> Outcome (option (list SearchItem));
  videos : jsstring -> jsstring -> Outcome (option (list Statistics))
}.

(** The objects of the returned list.  [likeCount] and [duration] exist
    only on the objects of the educational search. *)
Record Video : Type := {
  title : jsstring;
  v_videoId : jsstring;
  channelTitle : jsstring;
  viewCount : number;
  likeCount : option number;
  publishedAt : Date;
  thumbnailUrl : option jsstring;
  description : jsstring;
  duration : option jsstring;
  url : jsstring;
  embedUrl : jsstring
}.

Record Result : Type := {
  success : bool;
  result_videos : list Video;
  error : option jsstring
}.

(** The [keywords] argument: an array, whose elements need not be
    strings, or a string. *)
Inductive Keywords (E : Type) : Type :=
| KArray : list E -> Keywords E
| KString : jsstring -> Keywords E.
Arguments KString {E} _.

(** [stat.id === video.id.videoId], first hit *)
Definition findStats (statisticsData : list Statistics) (video : SearchItem)
  : option Statistics :=
  find (fun stat => streq (st_id stat) (videoId video)) statisticsData.

(** [thumbnails.medium?.url || thumbnails.default?.url] *)
Definition thumbnailOf (video : SearchItem) : option jsstring :=
  str_or (thumb_medium video) (thumb_default video).

Definition is_digit (c : N) : bool := ((48 <=? c) && (c <=? 57))%N.

Fixpoint span_digits (s : jsstring) : jsstring * jsstring :=
  match s with
  | c :: t =>
      if is_digit c then let (d, r) := span_digits t in (c :: d, r) else ([], s)
  | [] => ([], [])
  end.

(** One optional group [(\d+U)?] of the duration pattern: the digits
    before the unit [U], when the group matches. *)
Definition duration_group (unit : N) (s : jsstring) : jsstring * jsstring :=
  let (d, r) := span_digits s in
  match d, r with
  | _ :: _, c :: r' => if (c =? unit)%N then (d, r') else ([], s)
  | _, _ => ([], s)
  end.

(** The first place where [PT] occurs, and what follows it. *)
Fixpoint after_PT (s : jsstring) : option jsstring :=
  match s with
  | [] => None
  | c :: t =>
      match t with
      | c' :: rest => if ((c =? 80) && (c' =? 84))%N then Some rest else after_PT t
      | [] => None
      end
  end.

Definition parseDuration (duration : jsstring) : jsstring :=
  if is_empty duration then lit "Unknown"
  else
    match after_PT duration with
    | None => lit "Unknown"
    | Some s0 =>
        let (hours, s1) := duration_group 72 s0 in
        let (minutes, s2) := duration_group 77 s1 in
        let (seconds, _) := duration_group 83 s2 in
        let result := [] in
        let result := if is_empty hours then result else result ++ hours ++ lit "h " in
        let result := if is_empty minutes then result else result ++ minutes ++ lit "m " in
        let result := if is_empty seconds then result else result ++ seconds ++ lit "s" in
        if is_empty (trim result) then lit "Unknown" else trim result
    end.

Section Service.

(** The elements of a keyword array, with the text [Array.prototype.join]
    writes for an element and the text a template literal writes for it
    (they differ on [null]). *)
Variable E : Type.
Variable joinText : E -> jsstring.
Variable templateText : E -> jsstring.

(** [String.prototype.toLowerCase] and [encodeURIComponent] ([None] when it
    throws a URIError), and the clock. *)
Variable toLowerCase : jsstring -> jsstring.
Variable encodeURIComponent : jsstring -> option jsstring.
Variable now : Z.

(** [Array.isArray(keywords) ? keywords.join(' ') : keywords] *)
Definition queryOf (keywords : Keywords E) : jsstring :=
  match keywords with
  | KArray l => join (lit " ") (map joinText l)
  | KString s => s
  end.

Definition getFallbackVideos (keywords : Keywords E) : option (list Video) :=
  let searchTerm :=
    match keywords with
    | KArray l => match l with k0 :: _ => Some (templateText k0) | [] => None end
    | KString s => Some s
    end in
  match encodeURIComponent (tpl searchTerm) with
  | None => None
  | Some encoded =>
      Some [ {| title := lit "Learn about " ++ tpl searchTerm;
                v_videoId := lit "fallback";
                channelTitle := lit "Educational Content";
                viewCount := Num 0;
                likeCount := None;
                publishedAt := DateAt now;
                thumbnailUrl := Some [];
                description := lit "YouTube API temporarily unavailable";
                duration := None;
                url := lit "https://www.youtube.com/results?search_query=" ++ encoded;
                embedUrl := [] |} ]
  end.

(** The [catch] block of [searchVideos]. *)
Definition searchFailed (keywords : Keywords E) : Outcome Result :=
  match getFallbackVideos keywords with
  | None => Rejected
  | Some fallback =>
      Resolved {| success := false;
                  result_videos := fallback;
                  error := Some (lit "YouTube API temporarily unavailable") |}
  end.

Definition withStats (statisticsData : list Statistics) (video : SearchItem) : Video :=
  let stats := findStats statisticsData video in
  let viewCount :=
    match stats with
    | Some st => parseInt (st_viewCount st)
    | None => Num 0
    end in
  {| title := sn_title video;
     v_videoId := videoId video;
     channelTitle := sn_channelTitle video;
     viewCount := viewCount;
     likeCount := None;
     publishedAt := DateOf (sn_publishedAt video);
     thumbnailUrl := thumbnailOf video;
     description := sn_description video;
     duration := None;
     url := lit "https://www.youtube.com/watch?v=" ++ videoId video;
     embedUrl := lit "https://www.youtube.com/embed/" ++ videoId video |}.

(** [(a, b) => b.viewCount - a.viewCount] *)
Definition byViewCount (a b : Video) : number :=
  num_sub (viewCount b) (viewCount a).

Definition searchVideos (api : Api) (keywords : Keywords E) (maxResults : Z)
  : Outcome Result :=
  let searchQuery := queryOf keywords in
  match search api {| q := searchQuery; maxResults := maxResults;
                      safeSearch := lit "moderate"; videoDuration := None |} with
  | Rejected => searchFailed keywords
  | Resolved None | Resolved (Some []) =>
      Resolved {| success := true; result_videos := []; error := None |}
  | Resolved (Some found) =>
      let videoIds := join (lit ",") (map videoId found) in
      match videos api (lit "statistics") videoIds with
      | Rejected => searchFailed keywords
      | Resolved None =>
          (* [statisticsData.find] on [undefined] throws *)
          searchFailed keywords
      | Resolved (Some statisticsData) =>
          let videosWithStats := map (withStats statisticsData) found in
          Resolved {| success := true;
                      result_videos := sort byViewCount videosWithStats;
                      error := None |}
      end
  end.

Definition educationalIndicators : list jsstring :=
  [lit "tutorial"; lit "lesson"; lit "explained"; lit "learn"; lit "education";
   lit "academy"; lit "university"; lit "school"; lit "course"; lit "guide"].

(** The predicate of [videos.filter] in [getEducationalVideos]. *)
Definition isEducational (video : SearchItem) : bool :=
  let title := toLowerCase (sn_title video) in
  let channelTitle := toLowerCase (sn_channelTitle video) in
  let description := toLowerCase (sn_description video) in
  existsb (fun indicator =>
             includesb title indicator
             || includesb channelTitle indicator
             || includesb description indicator)
          educationalIndicators.

(** [parseInt(count || '0')] *)
Definition count_or_zero (field : option Z) : number :=
  match field with
  | Some z => parseInt (Some z)
  | None => parseInt (Some 0%Z)
  end.

Definition processVideo (statisticsData : list Statistics) (video : SearchItem) : Video :=
  let stats := findStats statisticsData video in
  let viewCount := match stats with Some st => count_or_zero (st_viewCount st) | None => Num 0 end in
  let likeCount := match stats with Some st => count_or_zero (st_likeCount st) | None => Num 0 end in
  let duration := match stats with Some st => st_duration st | None => [] end in
  {| title := sn_title video;
     v_videoId := videoId video;
     channelTitle := sn_channelTitle video;
     viewCount := viewCount;
     likeCount := Some likeCount;
     publishedAt := DateOf (sn_publishedAt video);
     thumbnailUrl := thumbnailOf video;
     description := substring0 150 (sn_description video);
     duration := Some (parseDuration duration);
     url := lit "https://www.youtube.com/watch?v=" ++ videoId video;
     embedUrl := lit "https://www.youtube.com/embed/" ++ videoId video |}.

Definition educationalKeywords : list jsstring :=
  [lit "tutorial"; lit "lesson"; lit "explained"; lit "learn"; lit "how to"; lit "guide"].

Definition calculateEducationalScore (video : Video) : number :=
  let score := Num 0 in
  (* Base score from view count (normalized) *)
  let score := num_add score (Math_min (num_over (viewCount video) 10000) (Num 100)) in
  (* Bonus for educational keywords in title *)
  let titleLower := toLowerCase (title video) in
  let score :=
    fold_left
      (fun score keyword =>
         if includesb titleLower keyword then num_add score (Num 20) else score)
      educationalKeywords score in
  (* Bonus for educational channels *)
  let channelLower := toLowerCase (channelTitle video) in
  if includesb channelLower (lit "academy") || includesb channelLower (lit "education")
     || includesb channelLower (lit "university") || includesb channelLower (lit "school")
  then num_add score (Num 30)
  else score.

(** [(a, b) => scoreB - scoreA] *)
Definition byScore (a b : Video) : number :=
  num_sub (calculateEducationalScore b) (calculateEducationalScore a).

(** The [try] block of [getEducationalVideos]; [None] when it throws. *)
Definition educationalSearch (api : Api) (keywords : Keywords E) (subject : jsstring)
  : option Result :=
  let educationalKeywords := queryOf keywords in
  let searchQuery :=
    trim (educationalKeywords ++ lit " " ++ subject
          ++ lit " tutorial lesson education explained") in
  match search api {| q := searchQuery; maxResults := 15;
                      safeSearch := lit "strict";
                      videoDuration := Some (lit "medium") |} with
  | Rejected => None
  | Resolved None => None   (* [videos.filter] on [undefined] throws *)
  | Resolved (Some found) =>
      let educationalVideos := filter isEducational found in
      let videoIds := join (lit ",") (map videoId educationalVideos) in
      if is_empty videoIds then
        Some {| success := true; result_videos := []; error := None |}
      else
        match videos api (lit "statistics,contentDetails") videoIds with
        | Rejected => None
        | Resolved None => None   (* [statisticsData.find] on [undefined] throws *)
        | Resolved (Some statisticsData) =>
            let processedVideos := map (processVideo statisticsData) educationalVideos in
            Some {| success := true;
                    result_videos := firstn 8 (sort byScore processedVideos);
                    error := None |}
        end
  end.

Definition getEducationalVideos (api : Api) (keywords : Keywords E) (subject : jsstring)
  : Outcome Result :=
  match educationalSearch api keywords subject with
  | Some r => Resolved r
  | None => searchVideos api keywords 8
  end.

End Service.

End YouTube.

(* ================================================================== *)
(** * The AI-analysis service (geminiService) *)
(* ================================================================== *)

Module Gemini.

(** The values [JSON.parse] produces. *)
Inductive json : Type :=
| JNull : json
| JBool : bool -> json
| JNum : Q -> json
| JStr : jsstring -> json
| JArr : list json -> json
| JObj : list (jsstring * json) -> json.

Definition truthy (v : json) : bool :=
  match v with
  | JNull => false
  | JBool b => b
  | JNum n => negb (Qeq_bool n 0)
  | JStr s => negb (is_empty s)
  | JArr _ | JObj _ => true
  end.

Fixpoint lookup (key : jsstring) (fields : list (jsstring * json)) : option json :=
  match fields with
  | [] => None
  | (k, v) :: t => if streq k key then Some v else lookup key t
  end.

(** [v.key] for the property names read by the service.  Reading a
    property of [null] throws ([Rejected]); a value without the property
    gives [undefined] ([None]).  An object lists each key once. *)
Definition get (v : json) (key : jsstring) : Outcome (option json) :=
  match v with
  | JNull => Rejected
  | JObj fields => Resolved (lookup key fields)
  | JBool _ | JNum _ | JStr _ | JArr _ => Resolved None
  end.

(** [x || d] *)
Definition or_else (x : option json) (d : json) : json :=
  match x with
  | Some v => if truthy v then v else d
  | None => d
  end.

(** [Array.isArray(x) ? x : d] *)
Definition array_or (x : option json) (d : list json) : list json :=
  match x with
  | Some (JArr items) => items
  | _ => d
  end.

(** The string a value converts to (in a template literal, or as an
    element written by [Array.prototype.join], which writes [null] as the
    empty string). *)
Section ToString.
Variable numberToString : Q -> jsstring.

Fixpoint toText (v : json) : jsstring :=
  match v with
  | JNull => lit "null"
  | JBool true => lit "true"
  | JBool false => lit "false"
  | JNum n => numberToString n
  | JStr s => s
  | JArr items =>
      join (lit ",")
           (map (fun x => match x with JNull => [] | _ => toText x end) items)
  | JObj _ => lit "[object Object]"
  end.

Definition joinText (v : json) : jsstring :=
  match v with JNull => [] | _ => toText v end.
End ToString.

(** A message of a chat history, as [buildChatPrompt] reads it. *)
Record Message : Type := {
  role : jsstring;
  content : jsstring;
  timestamp : Date
}.

Record Analysis : Type := {
  summary : json;
  explanation : json;
  keyPoints : list json;
  concepts : list json;
  searchKeywords : list json
}.

Record AnalysisResult : Type := {
  analysis_success : bool;
  analysis : Analysis
}.

Record Question : Type := {
  q_type : json;
  question : json;
  options : option (list json);
  correctAnswer : json;
  q_explanation : json
}.

Record QuizResult : Type := {
  quiz_success : bool;
  questions : list Question
}.

Record AnswerResult : Type := {
  answer_success : bool;
  answer : jsstring
}.

(** [this.model]: the text of the response to a prompt; [Rejected] when
    [generateContent], [result.response] or [response.text()] throws. *)
Record Model : Type := {
  generateContent : jsstring -> Outcome jsstring
}.

(** The service after its constructor ran; [None] when GEMINI_API_KEY is
    not set ([isConfigured = false]). *)
Definition Service := option Model.

Definition buildAnalysisPrompt (extractedText userPrompt : jsstring) : jsstring :=
  litq "You are an expert educational AI assistant. Analyze the following text and provide a comprehensive educational response.

USER REQUEST: `"
  ++ userPrompt
  ++ litq "`

CONTENT TO ANALYZE:
`"
  ++ extractedText
  ++ litq "`

IMPORTANT: Your response must be valid JSON format exactly as shown below. Do not include any text before or after the JSON.

{
  `summary`: `Write a clear 2-3 sentence summary of the main content that directly addresses the user's request`,
  `explanation`: `Provide a detailed explanation of key concepts in simple, student-friendly language. Break down complex topics into understandable parts.`,
  `keyPoints`: [`List 4-6 of the most important facts, concepts, or takeaways from this content`, `Each point should be specific and actionable for studying`, `Focus on what students need to remember`],
  `concepts`: [`List the main academic concepts, topics, or subject areas covered`, `Use proper academic terminology`, `Include 3-5 key concepts`],
  `searchKeywords`: [`Provide 4-5 specific keywords that would help find educational videos about this topic`, `Use terms that teachers and educators would search for`, `Include both general and specific terms`]
}

Ensure your JSON is properly formatted and complete. Focus on educational value and student comprehension.".

Definition buildQuizPrompt (extractedText : option jsstring) (userPrompt : jsstring) : jsstring :=
  litq "You are an expert educational quiz creator. Generate high-quality quiz questions based on the provided content.

USER REQUEST: `"
  ++ userPrompt
  ++ litq "`

STUDY CONTENT:
`"
  ++ tpl extractedText
  ++ litq "`

Create a variety of quiz questions that test different aspects of understanding. Your response must be valid JSON format exactly as shown below:

{
  `questions`: [
    {
      `type`: `mcq`,
      `question`: `Clear, specific multiple choice question that tests understanding`,
      `options`: [`Correct answer`, `Plausible distractor`, `Another distractor`, `Final distractor`],
      `correctAnswer`: `Correct answer`,
      `explanation`: `Brief explanation of why this answer is correct and why others are wrong`
    },
    {
      `type`: `short_answer`,
      `question`: `Open-ended question that requires explanation or analysis`,
      `correctAnswer`: `Expected comprehensive answer based on the content`,
      `explanation`: `Additional context or guidance for the answer`
    },
    {
      `type`: `flashcard`,
      `question`: `Key term, concept, or question for front of flashcard`,
      `correctAnswer`: `Definition, explanation, or answer for back of flashcard`,
      `explanation`: `Why this concept is important to remember`
    }
  ]
}

REQUIREMENTS:
- Generate 6-8 questions total with a good mix of types (2-3 MCQ, 2-3 short answer, 2-3 flashcards)
- Questions should test different cognitive levels (recall, understanding, application)
- Make MCQ distractors plausible but clearly wrong
- Ensure all questions are directly answerable from the provided content
- Focus on the most important concepts for student learning

Your response must be valid JSON only, no additional text.".

(** [chatHistory.slice(-5)] *)
Definition lastN {A : Type} (n : nat) (l : list A) : list A :=
  skipn (length l - n) l.

Definition strs (l : list jsstring) : list json := map JStr l.

(** [s.replace(/PAT\n?/g, '')] for a literal [PAT]: [skip] counts the
    units of the current match still to drop. *)
Fixpoint remove_fence (pat : jsstring) (skip : nat) (s : jsstring) : jsstring :=
  match s with
  | [] => []
  | c :: t =>
      match skip with
      | S k => remove_fence pat k t
      | O =>
          if prefixb pat s then
            let extra :=
              match skipn (length pat) s with
              | c' :: _ => if (c' =? LF)%N then 1%nat else 0%nat
              | [] => 0%nat
              end in
            remove_fence pat (length pat - 1 + extra) t
          else c :: remove_fence pat 0 t
      end
  end.

(** The two replacements that remove markdown code fences. *)
Definition strip_fences (s : jsstring) : jsstring :=
  remove_fence (lit "```") 0 (remove_fence (lit "```json") 0 s).

Definition LBRACE : N := 123%N.
Definition RBRACE : N := 125%N.

(** [s.match(/\{[\s\S]*\}/)]: from the first opening brace to the last
    closing brace behind it. *)
Definition json_span (s : jsstring) : option jsstring :=
  match dropWhile (fun c => negb (c =? LBRACE)%N) s with
  | [] => None
  | _ :: rest =>
      match dropWhile (fun c => negb (c =? RBRACE)%N) (rev rest) with
      | [] => None
      | (_ :: _) as r => Some (LBRACE :: rev r)
      end
  end.

(** [/^Q|Q$/g] replaced by nothing, for a quote character [Q]. *)
Definition strip_quote (q : N) (s : jsstring) : jsstring :=
  let s1 := match s with c :: t => if (c =? q)%N then t else s | [] => [] end in
  match rev s1 with
  | c :: t => if (c =? q)%N then rev t else s1
  | [] => []
  end.

(** Consume one given unit. *)
Definition expect (c : N) (s : jsstring) : option jsstring :=
  match s with
  | x :: t => if (x =? c)%N then Some t else None
  | [] => None
  end.

Definition bind {A B : Type} (o : option A) (f : A -> option B) : option B :=
  match o with Some x => f x | None => None end.

Notation "x <- o ;; k" := (bind o (fun x => k))
  (at level 61, o at next level, right associativity).

Section Service.

(** [JSON.parse] ([None] when it throws a SyntaxError), the case folding of
    a regular expression with the [i] flag (it changes letters only), and
    [String.prototype.toUpperCase]. *)
Variable JSON_parse : jsstring -> option json.
Variable canonicalize : N -> N.
Variable toUpperCase : jsstring -> jsstring.

Definition buildChatPrompt (question documentContent : jsstring)
           (chatHistory : list Message) : jsstring :=
  let historyContext :=
    match chatHistory with
    | [] => []
    | _ :: _ =>
        fold_left
          (fun historyContext msg =>
             historyContext ++ toUpperCase (role msg) ++ lit ": " ++ content msg ++ [LF])
          (lastN 5 chatHistory)
          ([LF] ++ lit "PREVIOUS CONVERSATION:" ++ [LF])
        ++ [LF]
    end in
  litq "You are a helpful AI tutor specialized in explaining study materials. Your role is to help students understand their uploaded content better.

DOCUMENT CONTENT:
`"
  ++ documentContent
  ++ litq "`
"
  ++ historyContext
  ++ litq "
STUDENT QUESTION: `"
  ++ question
  ++ litq "`

INSTRUCTIONS:
- Answer based ONLY on the provided document content
- If the question cannot be answered from the document, politely explain this limitation
- Provide clear, educational explanations appropriate for a student
- Use examples from the document when possible
- If asked about topics not in the document, redirect to what you can help with
- Keep responses focused and helpful for learning
- Be encouraging and supportive in your teaching style

Provide your response now:".

(** A literal of the pattern under the [i] flag. *)
Fixpoint expect_ci (pat s : jsstring) : option jsstring :=
  match pat, s with
  | [], _ => Some s
  | a :: pat', b :: s' =>
      if (canonicalize a =? canonicalize b)%N then expect_ci pat' s' else None
  | _ :: _, [] => None
  end.

(** The common head of the two patterns: the quoted section name, a
    colon, white space allowed on both sides of the colon. *)
Definition section_head (sectionName : jsstring) (s : jsstring) : option jsstring :=
  s1 <- expect DQUOTE s ;;
  s2 <- expect_ci sectionName s1 ;;
  s3 <- expect DQUOTE s2 ;;
  s4 <- expect 58 (dropWhile is_space s3) ;;
  Some (dropWhile is_space s4).

(** The first place of [text] where the head is followed by a quoted
    string without a quote inside: the captured group of [text.match]. *)
Definition extractSection (text sectionName : jsstring) : option jsstring :=
  find_first
    (fun s =>
       s1 <- section_head sectionName s ;;
       s2 <- expect DQUOTE s1 ;;
       let (captured, rest) := span (fun c => negb (c =? DQUOTE)%N) s2 in
       _ <- expect DQUOTE rest ;;
       Some captured)
    text.

(** The first place of [text] where the head is followed by a bracketed,
    non-empty run without a closing bracket inside; the captured run is
    cut at commas, each item trimmed and unquoted, empty items dropped. *)
Definition extractArraySection (text sectionName : jsstring) : option (list jsstring) :=
  match
    find_first
      (fun s =>
         s1 <- section_head sectionName s ;;
         s2 <- expect 91 s1 ;;
         let (captured, rest) := span (fun c => negb (c =? 93)%N) s2 in
         _ <- expect 93 rest ;;
         if is_empty captured then None else Some captured)
      text
  with
  | Some arrayContent =>
      let items :=
        filter (fun item => negb (is_empty item))
               (map (fun item => strip_quote 39 (strip_quote DQUOTE (trim item)))
                    (split_on 44 arrayContent)) in
      Some items
  | None => None
  end.

(** [x || d] on a string that may be [null] *)
Definition text_or (x : option jsstring) (d : jsstring) : json :=
  match x with
  | Some ((_ :: _) as s) => JStr s
  | Some [] | None => JStr d
  end.

(** [x || d] on an array that may be [null]: every array is truthy *)
Definition items_or (x : option (list jsstring)) (d : list jsstring) : list json :=
  match x with
  | Some items => strs items
  | None => strs d
  end.

(** The [try] block of [parseAnalysisResponse]; [None] when it throws. *)
Definition parseAnalysisJson (text : jsstring) : option Analysis :=
  let cleanText := strip_fences (trim text) in
  jsonStr <- json_span cleanText ;;
  parsed <- JSON_parse jsonStr ;;
  match get parsed (lit "summary"), get parsed (lit "explanation"),
        get parsed (lit "keyPoints"), get parsed (lit "concepts"),
        get parsed (lit "searchKeywords") with
  | Resolved summary, Resolved explanation, Resolved keyPoints,
    Resolved concepts, Resolved searchKeywords =>
      Some {| summary := or_else summary (JStr (lit "Content analysis completed."));
              explanation := or_else explanation
                               (JStr (lit "Analysis provided based on the uploaded content."));
              keyPoints := array_or keyPoints (strs [lit "Analysis completed successfully"]);
              concepts := array_or concepts (strs [lit "Study material analysis"]);
              searchKeywords := array_or searchKeywords
                                  (strs [lit "study"; lit "education"; lit "learning"]) |}
  | _, _, _, _, _ => None
  end.

Definition parseAnalysisResponse (text : jsstring) : AnalysisResult :=
  match parseAnalysisJson text with
  | Some analysis =>
      {| analysis_success := true; analysis := analysis |}
  | None =>
      (* Enhanced fallback parsing *)
      {| analysis_success := true;
         analysis :=
           {| summary := text_or (extractSection text (lit "summary"))
                           (lit "AI analysis completed based on your uploaded content.");
              explanation := text_or (extractSection text (lit "explanation"))
                               (substring0 500 text ++ lit "...");
              keyPoints := items_or (extractArraySection text (lit "keyPoints"))
                             [lit "Content has been analyzed"; lit "Key information extracted";
                              lit "Study material processed"];
              concepts := items_or (extractArraySection text (lit "concepts"))
                            [lit "Study Material"; lit "Educational Content"];
              searchKeywords := items_or (extractArraySection text (lit "searchKeywords"))
                                  [lit "study"; lit "education"; lit "learning"; lit "tutorial"] |} |}
  end.

(** The callback of [filter] followed by the callback of [map], on one
    element of [parsed.questions]: [Rejected] when the element is [null],
    [Resolved None] when the element is dropped. *)
Definition cleanQuestion (q : json) : Outcome (option Question) :=
  match get q (lit "question"), get q (lit "correctAnswer"), get q (lit "type"),
        get q (lit "options"), get q (lit "explanation") with
  | Resolved question, Resolved correctAnswer, Resolved type,
    Resolved options, Resolved explanation =>
      match question, correctAnswer, type with
      | Some vq, Some va, Some vt =>
          if truthy vq && truthy va && truthy vt then
            Resolved (Some {| q_type := vt;
                              question := vq;
                              options := match options with
                                         | Some (JArr items) => Some items
                                         | _ => None
                                         end;
                              correctAnswer := va;
                              q_explanation :=
                                or_else explanation (JStr (lit "No explanation provided")) |})
          else Resolved None
      | _, _, _ => Resolved None
      end
  | _, _, _, _, _ => Rejected
  end.

Fixpoint cleanQuestions (l : list json) : option (list Question) :=
  match l with
  | [] => Some []
  | q :: t =>
      match cleanQuestion q with
      | Rejected => None
      | Resolved kept =>
          rest <- cleanQuestions t ;;
          Some (match kept with Some x => x :: rest | None => rest end)
      end
  end.

(** The [try] block of [parseQuizResponse]; [None] when it throws. *)
Definition parseQuizJson (text : jsstring) : option (list Question) :=
  let cleanText := strip_fences (trim text) in
  jsonStr <- json_span cleanText ;;
  parsed <- JSON_parse jsonStr ;;
  match get parsed (lit "questions") with
  | Rejected => None
  | Resolved (Some (JArr items)) => cleanQuestions items
  | Resolved _ => Some []
  end.

Definition basicQuestions : list Question :=
  [ {| q_type := JStr (lit "short_answer");
       question := JStr (lit "What are the main topics covered in this study material?");
       options := None;
       correctAnswer := JStr (lit "Based on the uploaded content, identify and explain the key topics and concepts.");
       q_explanation := JStr (lit "This question helps review the overall content and main themes.") |};
    {| q_type := JStr (lit "flashcard");
       question := JStr (lit "Key Concept Review");
       options := None;
       correctAnswer := JStr (lit "Review and memorize the most important points from your study material");
       q_explanation := JStr (lit "Use this to test your memory of crucial information.") |};
    {| q_type := JStr (lit "mcq");
       question := JStr (lit "Which of these best describes your study material?");
       options := Some (strs [lit "Educational content requiring analysis"; lit "Random text";
                              lit "Non-academic material"; lit "Empty document"]);
       correctAnswer := JStr (lit "Educational content requiring analysis");
       q_explanation := JStr (lit "Your uploaded material appears to contain educational content suitable for study.") |} ].

Definition parseQuizResponse (text : jsstring) : QuizResult :=
  match parseQuizJson text with
  | Some questions => {| quiz_success := true; questions := questions |}
  | None => {| quiz_success := true; questions := basicQuestions |}
  end.

Definition is_sentence_end (c : N) : bool :=
  ((c =? 46) || (c =? 33) || (c =? 63))%N.

(** Fallback methods when Gemini AI is not available *)
Definition fallbackAnalysis (extractedText userPrompt : jsstring) : AnalysisResult :=
  let wordCount := Z.of_nat (length (split_runs is_space extractedText)) in
  let sentences :=
    filter (fun s => negb (is_empty (trim s))) (split_runs is_sentence_end extractedText) in
  let firstSentences := join (lit ". ") (firstn 3 sentences) ++ lit "." in
  {| analysis_success := true;
     analysis :=
       {| summary := JStr (lit "This document contains approximately " ++ decimal wordCount
                           ++ lit " words. " ++ firstSentences);
          explanation := JStr (lit "This appears to be study material related to: " ++ userPrompt
                               ++ lit ". The content covers various topics that would benefit from AI analysis. Please configure the GEMINI_API_KEY to get detailed AI-powered analysis.");
          keyPoints := strs [lit "Content extracted from uploaded image";
                             lit "Document contains " ++ decimal wordCount ++ lit " words";
                             lit "AI analysis requires Gemini API configuration";
                             lit "Manual review recommended for detailed understanding"];
          concepts := strs [lit "Study Material"; lit "Content Analysis"; lit "Educational Content"];
          searchKeywords := strs [lit "study"; lit "education"; lit "learning";
                                  lit "tutorial"; lit "explanation"] |} |}.

Definition fallbackQuizGeneration (extractedText : option jsstring) (userPrompt : jsstring)
  : QuizResult :=
  {| quiz_success := true;
     questions :=
       [ {| q_type := JStr (lit "short_answer");
            question := JStr (lit "What are the main topics covered in this study material?");
            options := None;
            correctAnswer := JStr (lit "Based on the uploaded content and the user request: " ++ userPrompt);
            q_explanation := JStr (lit "This question helps identify key themes and concepts from the material.") |};
         {| q_type := JStr (lit "flashcard");
            question := JStr (lit "Key Concept Review");
            options := None;
            correctAnswer := JStr (lit "Review the main points from your uploaded study material");
            q_explanation := JStr (lit "Use this flashcard to test your memory of important concepts.") |};
         {| q_type := JStr (lit "mcq");
            question := JStr (lit "What type of analysis was requested for this material?");
            options := Some (strs [userPrompt; lit "Mathematical calculation";
                                   lit "Language translation"; lit "Image editing"]);
            correctAnswer := JStr userPrompt;
            q_explanation := JStr (lit "This question relates to your specific request for content analysis.") |} ] |}.

Definition analyzeContent (svc : Service) (extractedText userPrompt : jsstring)
  : AnalysisResult :=
  match svc with
  | None => fallbackAnalysis extractedText userPrompt
  | Some model =>
      let prompt := buildAnalysisPrompt extractedText userPrompt in
      match generateContent model prompt with
      | Resolved text => parseAnalysisResponse text
      | Rejected => fallbackAnalysis extractedText userPrompt
      end
  end.

Definition generateQuizQuestions (svc : Service) (extractedText : option jsstring)
           (userPrompt : jsstring) : QuizResult :=
  match svc with
  | None => fallbackQuizGeneration extractedText userPrompt
  | Some model =>
      let prompt := buildQuizPrompt extractedText userPrompt in
      match generateContent model prompt with
      | Resolved text => parseQuizResponse text
      | Rejected => fallbackQuizGeneration extractedText userPrompt
      end
  end.

Definition answerQuestion (svc : Service) (question documentContent : jsstring)
           (chatHistory : list Message) : AnswerResult :=
  match svc with
  | None =>
      {| answer_success := true;
         answer := lit "I apologize, but the AI analysis service is not currently configured. Please set up the GEMINI_API_KEY environment variable to enable AI-powered chat functionality." |}
  | Some model =>
      let prompt := buildChatPrompt question documentContent chatHistory in
      match generateContent model prompt with
      | Resolved text => {| answer_success := true; answer := trim text |}
      | Rejected =>
          {| answer_success := true;
             answer := lit "I'm sorry, I'm having trouble processing your question right now. Please try again or rephrase your question." |}
      end
  end.

End Service.

End Gemini.

(* ================================================================== *)
(** * utils/responseFormatter.js *)
(* ================================================================== *)

Module Http.

(** The envelope of every JSON response.  [data] and [error] are [None]
    when the object has no such key; [error] stands for the message of
    the error that was caught. *)
Record Envelope (D : Type) : Type := {
  success : bool;
  message : jsstring;
  timestamp : Z;
  data : option D;
  error : option ErrorName
}.

Definition formatResponse {D : Type} (now : Z) (success : bool) (message : jsstring)
           (data : option D) (error : option ErrorName) : Envelope D :=
  {| success := success;
     message := message;
     timestamp := now;
     data := data;
     error := if success then None else error |}.

(** [res.status(code).json(envelope)]; [res.json(envelope)] has status 200. *)
Record Response (D : Type) : Type := {
  status : Z;
  body : Envelope D
}.

End Http.

(* ================================================================== *)
(** * The mongoose models: Document and ChatHistory *)
(* ================================================================== *)

Module Store.

(** The paths of [documentSchema].  A path of type String that is not
    required may be missing; an array path is always an array. *)
Record Analysis : Type := {
  summary : option jsstring;
  explanation : option jsstring;
  keyPoints : list jsstring;
  concepts : list jsstring
}.

Record Question : Type := {
  q_type : jsstring;
  question : jsstring;
  options : list jsstring;
  correctAnswer : option jsstring;
  q_explanation : option jsstring
}.

Record Video : Type := {
  title : option jsstring;
  videoId : option jsstring;
  channelTitle : option jsstring;
  viewCount : option Q;
  publishedAt : option Date;
  thumbnailUrl : option jsstring
}.

Record Document : Type := {
  _id : jsstring;
  documentId : jsstring;
  originalImagePath : jsstring;
  extractedText : option jsstring;
  userPrompt : jsstring;
  analysis : Analysis;
  quizQuestions : list Question;
  youtubeVideos : list Video;
  createdAt : Z;
  updatedAt : Z
}.

(** The paths of [chatHistorySchema]. *)
Record ChatHistory : Type := {
  chat_id : jsstring;
  chat_documentId : jsstring;
  messages : list Gemini.Message;
  chat_createdAt : Z;
  chat_updatedAt : Z
}.

(** The object handed to [new Document(...)]: the keys of the schema a
    caller may set. *)
Record AnalysisData : Type := {
  ad_summary : Gemini.json;
  ad_explanation : Gemini.json;
  ad_keyPoints : list Gemini.json;
  ad_concepts : list Gemini.json
}.

Record DocumentData : Type := {
  dd_originalImagePath : jsstring;
  dd_extractedText : option jsstring;
  dd_userPrompt : jsstring;
  dd_analysis : AnalysisData;
  dd_quizQuestions : list Gemini.Question;
  dd_youtubeVideos : list YouTube.Video
}.

(** What mongoose does with values on assignment and on [save]: whether a
    string is an ObjectId, and the casting and validation of the three
    nested paths against the schema ([Rejected] when validation fails). *)
Record Mongoose : Type := {
  isObjectId : jsstring -> bool;
  castAnalysis : AnalysisData -> Outcome Analysis;
  castQuestions : list Gemini.Question -> Outcome (list Question);
  castVideos : list YouTube.Video -> Outcome (list Video)
}.

(** [new Document(data)] followed by [save()]: casting, validation of the
    required paths, the defaults of the schema and the pre-save hook. *)
Definition createDocument (orm : Mongoose) (freshId freshDocumentId : jsstring) (now : Z)
           (data : DocumentData) : Try Document :=
  if is_empty (dd_originalImagePath data) || is_empty (dd_userPrompt data) then
    Throw ValidationError
  else
    match castAnalysis orm (dd_analysis data),
          castQuestions orm (dd_quizQuestions data),
          castVideos orm (dd_youtubeVideos data) with
    | Resolved storedAnalysis, Resolved storedQuestions, Resolved storedVideos =>
        Return {| _id := freshId;
                  documentId := freshDocumentId;
                  originalImagePath := dd_originalImagePath data;
                  extractedText := dd_extractedText data;
                  userPrompt := dd_userPrompt data;
                  analysis := storedAnalysis;
                  quizQuestions := storedQuestions;
                  youtubeVideos := storedVideos;
                  createdAt := now;
                  updatedAt := now |}
    | _, _, _ => Throw ValidationError
    end.

(** [Document.findById(id)] *)
Definition findById (orm : Mongoose) (docs : list Document) (id : jsstring)
  : Try (option Document) :=
  if isObjectId orm id then Return (find (fun d => streq (_id d) id) docs)
  else Throw CastError.

(** [ChatHistory.findOne({ documentId })] *)
Definition findChat (orm : Mongoose) (chats : list ChatHistory) (documentId : jsstring)
  : Try (option ChatHistory) :=
  if isObjectId orm documentId
  then Return (find (fun c => streq (chat_documentId c) documentId) chats)
  else Throw CastError.

(** [save()] of a document that is already stored. *)
Definition replaceDocument (docs : list Document) (d : Document) : list Document :=
  map (fun x => if streq (_id x) (_id d) then d else x) docs.

(** [find().sort({ key: -1 }).skip(skip).limit(limit)]: the store rejects a
    negative [skip] and reads a negative [limit] as its absolute value.
    Documents with equal keys keep their order. *)
Definition findPage {A : Type} (key : A -> Z) (skip limit : Z) (l : list A)
  : Try (list A) :=
  if (skip <? 0)%Z then Throw MongoError
  else
    let sorted :=
      sort (fun a b => num_sub (Num (inject_Z (key b))) (Num (inject_Z (key a)))) l in
    Return (firstn (Z.to_nat (Z.abs limit)) (skipn (Z.to_nat skip) sorted)).

End Store.

(* ================================================================== *)
(** * The document controller *)
(* ================================================================== *)

Module Documents.

Import Http Store.

(** The built-ins of the runtime the services use. *)
Record Builtins : Type := {
  JSON_parse : jsstring -> option Gemini.json;
  canonicalize : N -> N;
  toLowerCase : jsstring -> jsstring;
  toUpperCase : jsstring -> jsstring;
  encodeURIComponent : jsstring -> option jsstring;
  numberToString : Q -> jsstring
}.

(** The three service singletons. *)
Record Services : Type := {
  vision : Vision.Service;
  gemini : Gemini.Service;
  youtube : YouTube.Api
}.

(** [req.file.path] and [req.body.prompt] of an upload; [None] when the
    request has no file, or no prompt. *)
Record UploadRequest : Type := {
  file_path : option jsstring;
  prompt : option jsstring
}.

Record UploadData : Type := {
  up_documentId : jsstring;
  up_analysis : Analysis;
  up_quizQuestions : list Question;
  up_youtubeVideos : list Video;
  up_createdAt : Z
}.

(** [parseInt(req.query.page)] and [parseInt(req.query.limit)]; [None] is
    [NaN]. *)
Record ListQuery : Type := {
  page : option Z;
  limit : option Z
}.

Record DocumentSummary : Type := {
  ds_id : jsstring;
  ds_userPrompt : jsstring;
  ds_summary : jsstring;
  ds_createdAt : Z;
  ds_textPreview : jsstring
}.

Record Pagination : Type := {
  currentPage : Z;
  totalPages : Z;
  totalItems : Z;
  hasNext : bool;
  hasPrev : bool
}.

Record DocumentList : Type := {
  documents : list DocumentSummary;
  pagination : Pagination
}.

Record QuizData : Type := {
  qd_quizQuestions : list Question
}.

Fixpoint mapTry {A B : Type} (f : A -> Try B) (l : list A) : Try (list B) :=
  match l with
  | [] => Return []
  | x :: t =>
      match f x with
      | Throw e => Throw e
      | Return y =>
          match mapTry f t with
          | Throw e => Throw e
          | Return ys => Return (y :: ys)
          end
      end
  end.

Definition respond {D : Type} (code : Z) (envelope : Envelope D) : Response D :=
  {| status := code; body := envelope |}.

Record DocumentDetail : Type := {
  dt_id : jsstring;
  dt_userPrompt : jsstring;
  dt_analysis : Analysis;
  dt_quizQuestions : list Question;
  dt_youtubeVideos : list Video;
  dt_createdAt : Z;
  dt_updatedAt : Z
}.

(** [Document.findByIdAndDelete(id)]: the first document with the
    identifier goes. *)
Fixpoint deleteById (id : jsstring) (docs : list Document) : list Document :=
  match docs with
  | [] => []
  | d :: t => if streq (_id d) id then t else d :: deleteById id t
  end.

(** The files of the upload directory, by path: [fs.existsSync] and what
    is left after [fs.unlinkSync]. *)
Definition existsSync (files : list jsstring) (path : jsstring) : bool :=
  existsb (streq path) files.

Definition unlinked (files : list jsstring) (path : jsstring) : list jsstring :=
  filter (fun f => negb (streq path f)) files.

Section Controller.

Variable rt : Builtins.
Variable orm : Mongoose.
Variable svc : Services.
Variable now : Z.

Definition uploadAndAnalyze (freshId freshDocumentId : jsstring)
           (req : UploadRequest) (docs : list Document)
  : Response UploadData * list Document :=
  let internalError (e : ErrorName) :=
    (respond 500 (formatResponse now false (lit "Internal server error") None (Some e)),
     docs) in
  match file_path req with
  | None =>
      (respond 400 (formatResponse now false (lit "No image file provided") None None), docs)
  | Some imagePath =>
      match prompt req with
      | None | Some [] =>
          (respond 400 (formatResponse now false (lit "User prompt is required") None None),
           docs)
      | Some userPrompt =>
          (* Step 1: Extract text using Google Vision API *)
          let visionResult := Vision.detectDocumentStructure (vision svc) imagePath in
          if negb (Vision.success visionResult) then
            (respond 500 (formatResponse now false
                            (lit "Failed to extract text from image") None None), docs)
          else
            match str_or (Vision.structuredText visionResult)
                         (Vision.extractedText visionResult) with
            | None => internalError TypeError   (* [extractedText.length] *)
            | Some extractedText =>
                (* Step 2: Analyze content using Gemini *)
                let analysisResult :=
                  Gemini.analyzeContent (JSON_parse rt) (canonicalize rt)
                                        (gemini svc) extractedText userPrompt in
                if negb (Gemini.analysis_success analysisResult) then
                  (respond 500 (formatResponse now false
                                  (lit "Failed to analyze content") None None), docs)
                else
                  (* Step 3: Generate quiz questions *)
                  let quizResult :=
                    Gemini.generateQuizQuestions (JSON_parse rt) (gemini svc)
                                                 (Some extractedText) userPrompt in
                  (* Step 4: Get YouTube video suggestions; the keywords of an
                     analysis are always an array, which is truthy *)
                  let searchKeywords :=
                    Gemini.searchKeywords (Gemini.analysis analysisResult) in
                  match YouTube.getEducationalVideos
                          (Gemini.joinText (numberToString rt))
                          (Gemini.toText (numberToString rt))
                          (toLowerCase rt) (encodeURIComponent rt) now
                          (youtube svc) (YouTube.KArray searchKeywords) [] with
                  | Rejected => internalError URIError
                  | Resolved youtubeResult =>
                      (* Step 5: Save to database; the object has no
                         [extractedText] key *)
                      let documentData :=
                        {| dd_originalImagePath := imagePath;
                           dd_extractedText := None;
                           dd_userPrompt := userPrompt;
                           dd_analysis :=
                             {| ad_summary := Gemini.summary (Gemini.analysis analysisResult);
                                ad_explanation :=
                                  Gemini.explanation (Gemini.analysis analysisResult);
                                ad_keyPoints :=
                                  Gemini.keyPoints (Gemini.analysis analysisResult);
                                ad_concepts :=
                                  Gemini.concepts (Gemini.analysis analysisResult) |};
                           dd_quizQuestions := Gemini.questions quizResult;
                           dd_youtubeVideos := YouTube.result_videos youtubeResult |} in
                      match createDocument orm freshId freshDocumentId now documentData with
                      | Throw e => internalError e
                      | Return document =>
                          (* Step 6: Return response *)
                          let response :=
                            {| up_documentId := _id document;
                               up_analysis := analysis document;
                               up_quizQuestions := quizQuestions document;
                               up_youtubeVideos := youtubeVideos document;
                               up_createdAt := createdAt document |} in
                          (respond 200 (formatResponse now true
                                          (lit "Document processed successfully")
                                          (Some response) None),
                           docs ++ [document])
                      end
                  end
            end
      end
  end.

(** The callback of [documents.map] in [getAllDocuments]; [substring] on
    a missing [extractedText] throws. *)
Definition summarize (doc : Document) : Try DocumentSummary :=
  match extractedText doc with
  | None => Throw TypeError
  | Some text =>
      Return {| ds_id := _id doc;
                ds_userPrompt := userPrompt doc;
                ds_summary :=
                  match summary (analysis doc) with
                  | Some ((_ :: _) as s) => s
                  | Some [] | None => lit "No summary available"
                  end;
                ds_createdAt := createdAt doc;
                ds_textPreview := substring0 100 text ++ lit "..." |}
  end.

Definition paginate (page limit total : Z) : Pagination :=
  {| currentPage := page;
     totalPages := ceil_div total limit;
     totalItems := total;
     hasNext := (page <? ceil_div total limit)%Z;
     hasPrev := (1 <? page)%Z |}.

Definition getAllDocuments (query : ListQuery) (docs : list Document)
  : Response DocumentList :=
  let failed :=
    respond 500 (formatResponse now false (lit "Failed to retrieve documents") None None) in
  let page := int_or (page query) 1 in
  let limit := int_or (limit query) 10 in
  let skip := ((page - 1) * limit)%Z in
  match findPage createdAt skip limit docs with
  | Throw _ => failed
  | Return found =>
      let total := Z.of_nat (length docs) in
      match mapTry summarize found with
      | Throw _ => failed
      | Return summaries =>
          let response :=
            {| documents := summaries; pagination := paginate page limit total |} in
          respond 200 (formatResponse now true (lit "Documents retrieved successfully")
                         (Some response) None)
      end
  end.

Definition regenerateQuestions (documentId : jsstring) (docs : list Document)
  : Response QuizData * list Document :=
  let failed :=
    (respond 500 (formatResponse now false (lit "Failed to regenerate questions") None None),
     docs) in
  if is_empty documentId then
    (respond 400 (formatResponse now false (lit "Document ID is required") None None), docs)
  else
    match findById orm docs documentId with
    | Throw _ => failed
    | Return None =>
        (respond 404 (formatResponse now false (lit "Document not found") None None), docs)
    | Return (Some document) =>
        (* Regenerate quiz questions *)
        let quizResult :=
          Gemini.generateQuizQuestions (JSON_parse rt) (gemini svc)
                                       (extractedText document) (userPrompt document) in
        (* Update document with new questions *)
        match castQuestions orm (Gemini.questions quizResult) with
        | Rejected => failed
        | Resolved newQuestions =>
            let document :=
              {| _id := _id document;
                 documentId := Store.documentId document;
                 originalImagePath := originalImagePath document;
                 extractedText := extractedText document;
                 userPrompt := userPrompt document;
                 analysis := analysis document;
                 quizQuestions := newQuestions;
                 youtubeVideos := youtubeVideos document;
                 createdAt := createdAt document;
                 updatedAt := now |} in
            (respond 200 (formatResponse now true
                            (lit "Quiz questions regenerated successfully")
                            (Some {| qd_quizQuestions := quizQuestions document |}) None),
             replaceDocument docs document)
        end
    end.

Definition getDocumentById (documentId : jsstring) (docs : list Document)
  : Response DocumentDetail :=
  if is_empty documentId then
    respond 400 (formatResponse now false (lit "Document ID is required") None None)
  else
    match findById orm docs documentId with
    | Throw CastError =>
        respond 400 (formatResponse now false (lit "Invalid document ID format") None None)
    | Throw _ =>
        respond 500 (formatResponse now false (lit "Failed to retrieve document") None None)
    | Return None =>
        respond 404 (formatResponse now false (lit "Document not found") None None)
    | Return (Some document) =>
        let response :=
          {| dt_id := _id document;
             dt_userPrompt := userPrompt document;
             dt_analysis := analysis document;
             dt_quizQuestions := quizQuestions document;
             dt_youtubeVideos := youtubeVideos document;
             dt_createdAt := createdAt document;
             dt_updatedAt := updatedAt document |} in
        respond 200 (formatResponse now true (lit "Document retrieved successfully")
                       (Some response) None)
    end.

(** [unlinkable] tells whether [fs.unlinkSync] can remove a file, or
    throws. *)
Definition deleteDocument (unlinkable : jsstring -> bool) (documentId : jsstring)
           (docs : list Document) (files : list jsstring)
  : Response unit * list Document * list jsstring :=
  if is_empty documentId then
    (respond 400 (formatResponse now false (lit "Document ID is required") None None),
     docs, files)
  else
    match findById orm docs documentId with
    | Throw CastError =>
        (respond 400 (formatResponse now false (lit "Invalid document ID format") None None),
         docs, files)
    | Throw _ =>
        (respond 500 (formatResponse now false (lit "Failed to delete document") None None),
         docs, files)
    | Return None =>
        (respond 404 (formatResponse now false (lit "Document not found") None None),
         docs, files)
    | Return (Some document) =>
        (* Delete the document *)
        let docs := deleteById documentId docs in
        (* Optional: Delete the associated image file *)
        if existsSync files (originalImagePath document) then
          if unlinkable (originalImagePath document) then
            (respond 200 (formatResponse now true (lit "Document deleted successfully")
                            None None),
             docs, unlinked files (originalImagePath document))
          else
            (respond 500 (formatResponse now false (lit "Failed to delete document")
                            None None),
             docs, files)
        else
          (respond 200 (formatResponse now true (lit "Document deleted successfully")
                          None None),
           docs, files)
    end.

End Controller.

End Documents.

(* ================================================================== *)
(** * controllers/chatController.js *)
(* ================================================================== *)

Module Chats.

Import Http Store.

Record ChatSummary : Type := {
  chatId : jsstring;
  cs_documentId : option jsstring;
  documentSummary : jsstring;
  cs_userPrompt : jsstring;
  messageCount : Z;
  lastMessage : jsstring;
  lastUpdated : Z;
  cs_createdAt : Z
}.

Record ChatList : Type := {
  chats : list ChatSummary;
  pagination : Documents.Pagination
}.

(** [populate('documentId', ...)]: the referenced document, or [null]. *)
Definition populate (docs : list Document) (chat : ChatHistory) : option Document :=
  find (fun d => streq (_id d) (chat_documentId chat)) docs.

(** The callback of [chats.map]. *)
Definition summarizeChat (docs : list Document) (chat : ChatHistory) : ChatSummary :=
  let document := populate docs chat in
  {| chatId := chat_id chat;
     cs_documentId := match document with Some d => Some (_id d) | None => None end;
     documentSummary :=
       match document with
       | Some d =>
           match summary (analysis d) with
           | Some ((_ :: _) as s) => s
           | Some [] | None => lit "No summary"
           end
       | None => lit "No summary"
       end;
     cs_userPrompt :=
       match document with
       | Some d => if is_empty (userPrompt d) then lit "No prompt" else userPrompt d
       | None => lit "No prompt"
       end;
     messageCount := Z.of_nat (length (messages chat));
     lastMessage :=
       match rev (messages chat) with
       | m :: _ => substring0 100 (Gemini.content m) ++ lit "..."
       | [] => lit "No messages"
       end;
     lastUpdated := chat_updatedAt chat;
     cs_createdAt := chat_createdAt chat |}.

Definition getAllChats (now : Z) (query : Documents.ListQuery)
           (docs : list Document) (stored : list ChatHistory)
  : Response ChatList :=
  let page := int_or (Documents.page query) 1 in
  let limit := int_or (Documents.limit query) 10 in
  let skip := ((page - 1) * limit)%Z in
  match findPage chat_updatedAt skip limit stored with
  | Throw _ =>
      Documents.respond 500
        (formatResponse now false (lit "Failed to retrieve chat list") None None)
  | Return found =>
      let total := Z.of_nat (length stored) in
      let response :=
        {| chats := map (summarizeChat docs) found;
           pagination := Documents.paginate page limit total |} in
      Documents.respond 200
        (formatResponse now true (lit "Chat list retrieved successfully") (Some response) None)
  end.

(** [req.body] of a message: [None] when a key is missing. *)
Record SendRequest : Type := {
  sr_documentId : option jsstring;
  sr_message : option jsstring
}.

Record SendData : Type := {
  sd_chatId : jsstring;
  userMessage : jsstring;
  aiResponse : jsstring;
  sd_timestamp : Z;
  sd_messageCount : Z
}.

Record HistoryData : Type := {
  hd_chatId : option jsstring;
  hd_documentId : jsstring;
  hd_messages : list Gemini.Message;
  totalMessages : Z;
  hd_lastUpdated : option Z
}.

Record ContextData : Type := {
  cx_documentId : jsstring;
  cx_userPrompt : jsstring;
  cx_extractedText : jsstring;
  cx_summary : option jsstring;
  cx_keyPoints : list jsstring;
  cx_concepts : list jsstring;
  cx_createdAt : Z
}.

(** [x || ''] in a template literal *)
Definition or_blank (x : option jsstring) : jsstring :=
  match x with Some s => s | None => [] end.

(** The document content handed to the AI as context. *)
Definition documentContent (document : Document) : jsstring :=
  trim ([LF] ++ lit "Original Text: " ++ tpl (extractedText document)
        ++ [LF; LF] ++ lit "Analysis Summary: " ++ or_blank (summary (analysis document))
        ++ [LF; LF] ++ lit "Key Points: " ++ join (lit ", ") (keyPoints (analysis document))
        ++ [LF; LF] ++ lit "Concepts: " ++ join (lit ", ") (concepts (analysis document))
        ++ [LF] ++ lit "      ").

(** [save()] of a chat history: a stored one is replaced, a new one is
    added. *)
Definition saveChat (stored : list ChatHistory) (chat : ChatHistory) : list ChatHistory :=
  if existsb (fun c => streq (chat_id c) (chat_id chat)) stored
  then map (fun c => if streq (chat_id c) (chat_id chat) then chat else c) stored
  else stored ++ [chat].

(** The [catch] block of the handlers of a chat. *)
Definition chatFailed {D : Type} (now : Z) (message : jsstring) (withError : bool)
           (e : ErrorName) : Response D :=
  match e with
  | CastError =>
      Documents.respond 400
        (formatResponse now false (lit "Invalid document ID format") None None)
  | _ =>
      Documents.respond 500
        (formatResponse now false message None (if withError then Some e else None))
  end.

Definition sendMessage (rt : Documents.Builtins) (orm : Mongoose)
           (svc : Documents.Services) (now : Z) (freshChatId : jsstring)
           (req : SendRequest) (docs : list Document) (stored : list ChatHistory)
  : Response SendData * list ChatHistory :=
  match sr_documentId req with
  | None | Some [] =>
      (Documents.respond 400
         (formatResponse now false (lit "Document ID is required") None None), stored)
  | Some documentId =>
      match sr_message req with
      | None =>
          (Documents.respond 400
             (formatResponse now false (lit "Message cannot be empty") None None), stored)
      | Some message =>
          if is_empty (trim message) then
            (Documents.respond 400
               (formatResponse now false (lit "Message cannot be empty") None None), stored)
          else
            (* Get the document *)
            match findById orm docs documentId with
            | Throw e => (chatFailed now (lit "Failed to send message") true e, stored)
            | Return None =>
                (Documents.respond 404
                   (formatResponse now false (lit "Document not found") None None), stored)
            | Return (Some document) =>
                (* Get or create chat history *)
                match findChat orm stored documentId with
                | Throw e => (chatFailed now (lit "Failed to send message") true e, stored)
                | Return found =>
                    let chatHistory :=
                      match found with
                      | Some c => c
                      | None =>
                          {| chat_id := freshChatId;
                             chat_documentId := documentId;
                             messages := [];
                             chat_createdAt := now;
                             chat_updatedAt := now |}
                      end in
                    (* Get previous chat messages for context *)
                    let previousMessages := Gemini.lastN 10 (messages chatHistory) in
                    (* Get AI response *)
                    let aiResponse :=
                      Gemini.answerQuestion (Documents.toUpperCase rt)
                                            (Documents.gemini svc)
                                            message (documentContent document)
                                            previousMessages in
                    if negb (Gemini.answer_success aiResponse) then
                      (Documents.respond 500
                         (formatResponse now false (lit "Failed to generate response")
                                         None None), stored)
                    else
                      let userTurn :=
                        {| Gemini.role := lit "user";
                           Gemini.content := message;
                           Gemini.timestamp := DateAt now |} in
                      let assistantTurn :=
                        {| Gemini.role := lit "assistant";
                           Gemini.content := Gemini.answer aiResponse;
                           Gemini.timestamp := DateAt now |} in
                      (* Save chat history: [content] is a required path *)
                      if is_empty (Gemini.answer aiResponse) then
                        (chatFailed now (lit "Failed to send message") true ValidationError,
                         stored)
                      else
                        let saved :=
                          {| chat_id := chat_id chatHistory;
                             chat_documentId := chat_documentId chatHistory;
                             messages := messages chatHistory ++ [userTurn; assistantTurn];
                             chat_createdAt := chat_createdAt chatHistory;
                             chat_updatedAt := now |} in
                        let response :=
                          {| sd_chatId := chat_id saved;
                             userMessage := message;
                             aiResponse := Gemini.answer aiResponse;
                             sd_timestamp := now;
                             sd_messageCount := Z.of_nat (length (messages saved)) |} in
                        (Documents.respond 200
                           (formatResponse now true (lit "Message sent successfully")
                                           (Some response) None),
                         saveChat stored saved)
                end
            end
      end
  end.

Definition getChatHistory (orm : Mongoose) (now : Z) (documentId : jsstring)
           (docs : list Document) (stored : list ChatHistory)
  : Response HistoryData :=
  if is_empty documentId then
    Documents.respond 400
      (formatResponse now false (lit "Document ID is required") None None)
  else
    (* Verify document exists *)
    match findById orm docs documentId with
    | Throw e => chatFailed now (lit "Failed to retrieve chat history") false e
    | Return None =>
        Documents.respond 404
          (formatResponse now false (lit "Document not found") None None)
    | Return (Some _) =>
        (* Get chat history *)
        match findChat orm stored documentId with
        | Throw e => chatFailed now (lit "Failed to retrieve chat history") false e
        | Return None =>
            Documents.respond 200
              (formatResponse now true (lit "No chat history found")
                 (Some {| hd_chatId := None;
                          hd_documentId := documentId;
                          hd_messages := [];
                          totalMessages := 0;
                          hd_lastUpdated := None |}) None)
        | Return (Some chatHistory) =>
            let response :=
              {| hd_chatId := Some (chat_id chatHistory);
                 hd_documentId := documentId;
                 hd_messages :=
                   map (fun msg => {| Gemini.role := Gemini.role msg;
                                      Gemini.content := Gemini.content msg;
                                      Gemini.timestamp := Gemini.timestamp msg |})
                       (messages chatHistory);
                 totalMessages := Z.of_nat (length (messages chatHistory));
                 hd_lastUpdated := Some (chat_updatedAt chatHistory) |} in
            Documents.respond 200
              (formatResponse now true (lit "Chat history retrieved successfully")
                              (Some response) None)
        end
    end.

Definition clearChatHistory (orm : Mongoose) (now : Z) (documentId : jsstring)
           (docs : list Document) (stored : list ChatHistory)
  : Response unit * list ChatHistory :=
  if is_empty documentId then
    (Documents.respond 400
       (formatResponse now false (lit "Document ID is required") None None), stored)
  else
    (* Verify document exists *)
    match findById orm docs documentId with
    | Throw e => (chatFailed now (lit "Failed to clear chat history") false e, stored)
    | Return None =>
        (Documents.respond 404
           (formatResponse now false (lit "Document not found") None None), stored)
    | Return (Some _) =>
        (* Clear chat history *)
        match findChat orm stored documentId with
        | Throw e => (chatFailed now (lit "Failed to clear chat history") false e, stored)
        | Return found =>
            let cleared :=
              match found with
              | Some chatHistory =>
                  saveChat stored
                    {| chat_id := chat_id chatHistory;
                       chat_documentId := chat_documentId chatHistory;
                       messages := [];
                       chat_createdAt := chat_createdAt chatHistory;
                       chat_updatedAt := now |}
              | None => stored
              end in
            (Documents.respond 200
               (formatResponse now true (lit "Chat history cleared successfully") None None),
             cleared)
        end
    end.

Definition getDocumentContext (orm : Mongoose) (now : Z) (documentId : jsstring)
           (docs : list Document) : Response ContextData :=
  if is_empty documentId then
    Documents.respond 400
      (formatResponse now false (lit "Document ID is required") None None)
  else
    match findById orm docs documentId with
    | Throw e => chatFailed now (lit "Failed to retrieve document context") false e
    | Return None =>
        Documents.respond 404
          (formatResponse now false (lit "Document not found") None None)
    | Return (Some document) =>
        match extractedText document with
        | None =>
            (* [substring] on a missing [extractedText] throws *)
            chatFailed now (lit "Failed to retrieve document context") false TypeError
        | Some text =>
            let response :=
              {| cx_documentId := _id document;
                 cx_userPrompt := userPrompt document;
                 cx_extractedText := substring0 500 text ++ lit "...";
                 cx_summary := summary (analysis document);
                 cx_keyPoints := firstn 3 (keyPoints (analysis document));
                 cx_concepts := firstn 5 (concepts (analysis document));
                 cx_createdAt := createdAt document |} in
            Documents.respond 200
              (formatResponse now true (lit "Document context retrieved successfully")
                              (Some response) None)
        end
    end.

End Chats.

(* ================================================================== *)
(** * The PDF generator *)
(* ================================================================== *)

Module Pdf.

Import Store.

(** The options object of [doc.text]. *)
Inductive TextOptions : Type :=
| NoOptions : TextOptions
| AlignCenter : TextOptions
| NotContinued : TextOptions
| Indent : Z -> TextOptions.

(** The calls made on the PDFKit document, in order.  The buffer the
    generator resolves with is PDFKit's rendering of these calls. *)
Inductive Op : Type :=
| FontSize : Z -> Op
| Font : jsstring -> Op
| Text : jsstring -> TextOptions -> Op
| MoveDown : Q -> Op.

(** The argument of [generatePDF]; [chatHistory] is [None] when the key is
    missing or [null]. *)
Record ExportData : Type := {
  document : Document;
  chatHistory : option ChatHistory;
  exportType : jsstring
}.

Definition BULLET : N := 8226%N.
Definition CHECK_MARK : N := 10003%N.

Definition helvetica : Op := Font (lit "Helvetica").
Definition helveticaBold : Op := Font (lit "Helvetica-Bold").

(** [a.forEach((x, index) => ...)], collecting what each call writes *)
Fixpoint forEachIndexed {A : Type} (f : A -> nat -> list Op) (index : nat) (a : list A)
  : list Op :=
  match a with
  | [] => []
  | x :: t => f x index ++ forEachIndexed f (S index) t
  end.

(** A string that may be missing is truthy when present and not empty. *)
Definition present (o : option jsstring) : bool :=
  match o with Some (_ :: _) => true | _ => false end.

Definition nonEmpty {A : Type} (l : list A) : bool :=
  match l with [] => false | _ :: _ => true end.

Definition addHeader (title : jsstring) : list Op :=
  [FontSize 24; helveticaBold; Text title AlignCenter; MoveDown 2].

(** [String.fromCharCode(65 + optIndex)] *)
Definition optionLabel (optIndex : nat) : jsstring :=
  [((65 + N.of_nat optIndex) mod 65536)%N].

Definition addContinuousQuiz (questions : list Question) : list Op :=
  forEachIndexed
    (fun question index =>
       [FontSize 13; helveticaBold;
        Text (decimal (Z.of_nat index + 1) ++ lit ". " ++ Store.question question) NoOptions;
        FontSize 12; helvetica]
       ++ (if streq (q_type question) (lit "mcq") then
             (* [question.options] is an array, which is truthy *)
             forEachIndexed
               (fun option optIndex =>
                  let label := optionLabel optIndex in
                  let isCorrect :=
                    match correctAnswer question with
                    | Some answer => streq option answer
                    | None => false
                    end in
                  [Text (lit "   " ++ label ++ lit ". " ++ option
                         ++ (if isCorrect then [SPACE; CHECK_MARK] else []))
                        NoOptions])
               0%nat (options question)
           else
             [Text (lit "   Answer: " ++ tpl (correctAnswer question)) NoOptions])
       ++ (if present (q_explanation question) then
             [Font (lit "Helvetica-Oblique");
              Text (lit "   Explanation: " ++ tpl (q_explanation question)) NoOptions]
           else [])
       ++ [helvetica; MoveDown (8 # 10)])
    0%nat questions.

(** A stored video has no [url] path, so [video.url] is [undefined]. *)
Definition addContinuousVideos (videos : list Video) : list Op :=
  forEachIndexed
    (fun video index =>
       [FontSize 12; helveticaBold;
        Text (decimal (Z.of_nat index + 1) ++ lit ". " ++ tpl (title video)) NoOptions;
        FontSize 11; helvetica;
        Text (lit "   Channel: " ++ tpl (channelTitle video)) NoOptions;
        Text (lit "   URL: " ++ tpl None) NoOptions;
        MoveDown (5 # 10)])
    0%nat (firstn 8 videos).

Definition bulletList (heading : jsstring) (items : list jsstring) : list Op :=
  if nonEmpty items then
    [FontSize 14; helveticaBold; Text heading NotContinued; FontSize 12; helvetica]
    ++ map (fun item => Text ([BULLET; SPACE] ++ item) (Indent 20)) items
    ++ [MoveDown 1]
  else [].

Definition addContinuousContent (document : Document) (type : jsstring) : list Op :=
  let complete := streq type (lit "complete") in
  let summaryOnly := streq type (lit "summary") in
  let quiz := streq type (lit "quiz") in
  [FontSize 12; helvetica]
  (* Add content based on type *)
  ++ (if complete || summaryOnly then
        (* Original content *)
        (if present (extractedText document) then
           [Text (tpl (extractedText document)) NoOptions; MoveDown (15 # 10)]
         else [])
        (* Analysis summary *)
        ++ (if present (summary (analysis document)) then
              [FontSize 14; helveticaBold; Text (lit "Summary:") NotContinued;
               FontSize 12; helvetica;
               Text (tpl (summary (analysis document))) NoOptions; MoveDown 1]
            else [])
        (* Key points *)
        ++ bulletList (lit "Key Points:") (keyPoints (analysis document))
        (* Concepts *)
        ++ bulletList (lit "Concepts:") (concepts (analysis document))
        (* Detailed explanation *)
        ++ (if present (explanation (analysis document)) && complete then
              [FontSize 14; helveticaBold; Text (lit "Detailed Explanation:") NotContinued;
               FontSize 12; helvetica;
               Text (tpl (explanation (analysis document))) NoOptions; MoveDown 1]
            else [])
      else [])
  (* Quiz questions for complete or quiz type *)
  ++ (if (complete || quiz) && nonEmpty (quizQuestions document) then
        (if complete then
           [FontSize 14; helveticaBold; Text (lit "Quiz Questions:") NotContinued;
            MoveDown (5 # 10)]
         else [])
        ++ addContinuousQuiz (quizQuestions document)
      else [])
  (* YouTube videos for complete type *)
  ++ (if complete && nonEmpty (youtubeVideos document) then
        [FontSize 14; helveticaBold; Text (lit "Recommended Videos:") NotContinued;
         MoveDown (5 # 10)]
        ++ addContinuousVideos (youtubeVideos document)
      else []).

Definition generateCompletePDF (data : ExportData) : list Op :=
  addHeader (lit "Study Material") ++ addContinuousContent (document data) (lit "complete").

Definition generateSummaryPDF (data : ExportData) : list Op :=
  addHeader (lit "Study Summary") ++ addContinuousContent (document data) (lit "summary").

Definition generateQuizPDF (data : ExportData) : list Op :=
  addHeader (lit "Quiz Questions") ++ addContinuousContent (document data) (lit "quiz").

Definition generateNotesPDF (data : ExportData) : list Op :=
  addHeader (lit "Study Notes") ++ addContinuousContent (document data) (lit "summary").

(** The [switch] on [data.exportType]. *)
Definition generatePDF (data : ExportData) : list Op :=
  if streq (exportType data) (lit "complete") then generateCompletePDF data
  else if streq (exportType data) (lit "summary") then generateSummaryPDF data
  else if streq (exportType data) (lit "quiz") then generateQuizPDF data
  else if streq (exportType data) (lit "notes") then generateNotesPDF data
  else generateCompletePDF data.

End Pdf.

(* ================================================================== *)
(** * controllers/exportController.js *)
(* ================================================================== *)

Module Exporting.

Import Http Store.

(** What the handler sends: a JSON envelope, or the PDF with its file
    name (the Content-Disposition header). *)
Inductive Sent : Type :=
| SentJson : Response unit -> Sent
| SentPdf : jsstring -> list Pdf.Op -> Sent.

Definition failure (now : Z) (code : Z) (message : jsstring) : Sent :=
  SentJson (Documents.respond code (formatResponse now false message None None)).

(** The [catch] block of [exportChatHistory]. *)
Definition chatExportFailed (now : Z) (e : ErrorName) : Sent :=
  match e with
  | CastError => failure now 400 (lit "Invalid document ID format")
  | _ => failure now 500 (lit "Failed to export chat history")
  end.

Definition exportChatHistory (orm : Mongoose) (now : Z)
           (docs : list Document) (chats : list ChatHistory) (documentId : jsstring)
  : Sent :=
  if is_empty documentId then failure now 400 (lit "Document ID is required")
  else
    match findById orm docs documentId with
    | Throw e => chatExportFailed now e
    | Return None => failure now 404 (lit "Document not found")
    | Return (Some document) =>
        match findChat orm chats documentId with
        | Throw e => chatExportFailed now e
        | Return None =>
            failure now 404 (lit "No chat history found for this document")
        | Return (Some chatHistory) =>
            match messages chatHistory with
            | [] => failure now 404 (lit "No chat history found for this document")
            | _ :: _ =>
                let exportData :=
                  {| Pdf.document := document;
                     Pdf.chatHistory := Some chatHistory;
                     Pdf.exportType := lit "chat" |} in
                let pdfBuffer := Pdf.generatePDF exportData in
                let filename :=
                  lit "chat-history-" ++ documentId ++ lit "-" ++ decimal now ++ lit ".pdf" in
                SentPdf filename pdfBuffer
            end
        end
    end.

(** The [catch] block of the other export handlers. *)
Definition exportFailed (now : Z) (message : jsstring) (withError : bool) (e : ErrorName)
  : Sent :=
  match e with
  | CastError => failure now 400 (lit "Invalid document ID format")
  | _ =>
      SentJson (Documents.respond 500
                  (formatResponse now false message None
                                  (if withError then Some e else None)))
  end.

Definition pdfName (prefix documentId : jsstring) (now : Z) : jsstring :=
  prefix ++ documentId ++ lit "-" ++ decimal now ++ lit ".pdf".

(** [exportType] is [req.query.type || 'complete']. *)
Definition exportDocument (orm : Mongoose) (now : Z) (docs : list Document)
           (documentId : jsstring) (type : option jsstring) : Sent :=
  let exportType :=
    match type with
    | Some ((_ :: _) as t) => t
    | Some [] | None => lit "complete"
    end in
  if is_empty documentId then failure now 400 (lit "Document ID is required")
  else
    match findById orm docs documentId with
    | Throw e => exportFailed now (lit "Failed to export document") true e
    | Return None => failure now 404 (lit "Document not found")
    | Return (Some document) =>
        (* Chat history removed from exports *)
        let exportData :=
          {| Pdf.document := document;
             Pdf.chatHistory := None;
             Pdf.exportType := exportType |} in
        SentPdf (pdfName (lit "study-material-") documentId now)
                (Pdf.generatePDF exportData)
    end.

Definition exportSummary (orm : Mongoose) (now : Z) (docs : list Document)
           (documentId : jsstring) : Sent :=
  if is_empty documentId then failure now 400 (lit "Document ID is required")
  else
    match findById orm docs documentId with
    | Throw e => exportFailed now (lit "Failed to export summary") false e
    | Return None => failure now 404 (lit "Document not found")
    | Return (Some document) =>
        let exportData :=
          {| Pdf.document := document;
             Pdf.chatHistory := None;
             Pdf.exportType := lit "summary" |} in
        SentPdf (pdfName (lit "summary-") documentId now) (Pdf.generatePDF exportData)
    end.

Definition exportQuiz (orm : Mongoose) (now : Z) (docs : list Document)
           (documentId : jsstring) : Sent :=
  if is_empty documentId then failure now 400 (lit "Document ID is required")
  else
    match findById orm docs documentId with
    | Throw e => exportFailed now (lit "Failed to export quiz") false e
    | Return None => failure now 404 (lit "Document not found")
    | Return (Some document) =>
        match quizQuestions document with
        | [] => failure now 404 (lit "No quiz questions found for this document")
        | _ :: _ =>
            let exportData :=
              {| Pdf.document := document;
                 Pdf.chatHistory := None;
                 Pdf.exportType := lit "quiz" |} in
            SentPdf (pdfName (lit "quiz-") documentId now) (Pdf.generatePDF exportData)
        end
    end.

Definition exportNotes (orm : Mongoose) (now : Z) (docs : list Document)
           (documentId : jsstring) : Sent :=
  if is_empty documentId then failure now 400 (lit "Document ID is required")
  else
    match findById orm docs documentId with
    | Throw e => exportFailed now (lit "Failed to export notes") false e
    | Return None => failure now 404 (lit "Document not found")
    | Return (Some document) =>
        let exportData :=
          {| Pdf.document := document;
             Pdf.chatHistory := None;
             Pdf.exportType := lit "notes" |} in
        SentPdf (pdfName (lit "notes-") documentId now) (Pdf.generatePDF exportData)
    end.

Record ExportOption : Type := {
  available : bool;
  eo_description : jsstring;
  includes : list jsstring
}.

Record ExportOptions : Type := {
  eo_documentId : jsstring;
  complete : ExportOption;
  summary_option : ExportOption;
  quiz : ExportOption
}.

Definition getExportOptions (orm : Mongoose) (now : Z)
           (docs : list Document) (chats : list ChatHistory) (documentId : jsstring)
  : Response ExportOptions :=
  let failed (e : ErrorName) : Response ExportOptions :=
    match e with
    | CastError =>
        Documents.respond 400
          (formatResponse now false (lit "Invalid document ID format") None None)
    | _ =>
        Documents.respond 500
          (formatResponse now false (lit "Failed to retrieve export options") None None)
    end in
  if is_empty documentId then
    Documents.respond 400
      (formatResponse now false (lit "Document ID is required") None None)
  else
    match findById orm docs documentId with
    | Throw e => failed e
    | Return None =>
        Documents.respond 404
          (formatResponse now false (lit "Document not found") None None)
    | Return (Some document) =>
        match findChat orm chats documentId with
        | Throw e => failed e
        | Return _ =>
            let options :=
              {| eo_documentId := documentId;
                 complete :=
                   {| available := true;
                      eo_description := lit "Complete study material with all content";
                      includes := [lit "extracted text"; lit "analysis";
                                   lit "quiz questions"; lit "YouTube videos"] |};
                 summary_option :=
                   {| available := Pdf.present (summary (analysis document));
                      eo_description := lit "Summary and key points only";
                      includes := [lit "summary"; lit "key points"; lit "concepts"] |};
                 quiz :=
                   {| available := Pdf.nonEmpty (quizQuestions document);
                      eo_description := lit "Quiz questions and answers";
                      includes := [lit "quiz questions"; lit "answers";
                                   lit "explanations"] |} |} in
            Documents.respond 200
              (formatResponse now true (lit "Export options retrieved successfully")
                              (Some options) None)
        end
    end.

End Exporting.

(* ================================================================== *)
(** * Facts about the runtime *)
(* ================================================================== *)

Module JSFacts.

Lemma dropWhile_split (p : N -> bool) (s : jsstring) :
  exists pre, s = pre ++ dropWhile p s /\ Forall (fun c => p c = true) pre.
Proof.
  induction s as [|c t IH]; simpl.
  - exists []. split; [reflexivity | constructor].
  - destruct (p c) eqn:E.
    + destruct IH as [pre [Heq Hall]].
      exists (c :: pre). split.
      * simpl. now rewrite <- Heq.
      * now constructor.
    + exists []. split; [reflexivity | constructor].
Qed.

Lemma dropWhile_head (p : N -> bool) (s : jsstring) c t :
  dropWhile p s = c :: t -> p c = false.
Proof.
  induction s as [|a s IH]; simpl; [discriminate|].
  destruct (p a) eqn:E; [exact IH|].
  intros H. injection H as -> _. exact E.
Qed.

Lemma dropWhile_keeps (p : N -> bool) (s : jsstring) c :
  In c s -> p c = false -> In c (dropWhile p s).
Proof.
  induction s as [|a s IH]; simpl; [tauto|].
  intros [->|Hin] Hc.
  - rewrite Hc. now left.
  - destruct (p a); [now apply IH | now right].
Qed.

Lemma trimEnd_prefix (s : jsstring) :
  exists post, s = trimEnd s ++ post.
Proof.
  unfold trimEnd.
  destruct (dropWhile_split is_space (rev s)) as [pre [Heq _]].
  exists (rev pre).
  rewrite <- rev_app_distr, <- Heq. now rewrite rev_involutive.
Qed.

Lemma trim_infix (s : jsstring) :
  exists pre post, s = pre ++ trim s ++ post.
Proof.
  unfold trim, trimStart.
  destruct (dropWhile_split is_space s) as [pre [Heq _]].
  destruct (trimEnd_prefix (dropWhile is_space s)) as [post Hpost].
  exists pre, post. now rewrite <- Hpost.
Qed.

Lemma trim_trimmed (s : jsstring) : trimmed (trim s).
Proof.
  split.
  - intros c t H.
    unfold trim in H.
    destruct (trimEnd_prefix (trimStart s)) as [post Hpost].
    rewrite H in Hpost. simpl in Hpost.
    apply (dropWhile_head is_space s Hpost).
  - intros t c H.
    unfold trim, trimEnd in H.
    apply (f_equal (@rev N)) in H.
    rewrite rev_involutive, rev_app_distr in H. simpl in H.
    apply (dropWhile_head _ _ H).
Qed.

Lemma trim_keeps (s : jsstring) c :
  In c s -> is_space c = false -> In c (trim s).
Proof.
  intros Hin Hc. unfold trim, trimEnd, trimStart.
  rewrite <- in_rev. apply dropWhile_keeps; [|exact Hc].
  rewrite <- in_rev. now apply dropWhile_keeps.
Qed.

Lemma infix_In (s inner pre post : jsstring) c :
  s = pre ++ inner ++ post -> In c inner -> In c s.
Proof.
  intros -> H. apply in_or_app. right. apply in_or_app. now left.
Qed.

Lemma no_two_adjacent_infix (p : N -> bool) (s inner pre post : jsstring) :
  s = pre ++ inner ++ post -> no_two_adjacent p s -> no_two_adjacent p inner.
Proof.
  intros Hs H pre' a b post' Hinner.
  apply (H (pre ++ pre') a b (post' ++ post)).
  rewrite Hs, Hinner. rewrite <- !app_assoc. reflexivity.
Qed.

(** The executable form of [no_two_adjacent]. *)
Fixpoint adjfreeb (p : N -> bool) (s : jsstring) : bool :=
  match s with
  | [] => true
  | a :: t =>
      match t with
      | b :: _ => negb (p a && p b)
      | [] => true
      end && adjfreeb p t
  end.

Lemma adjfreeb_sound (p : N -> bool) (s : jsstring) :
  adjfreeb p s = true -> no_two_adjacent p s.
Proof.
  induction s as [|x s IH]; intros H pre a b post Heq Ha.
  - destruct pre; discriminate.
  - simpl in H. apply andb_true_iff in H as [Hhd Htl].
    destruct pre as [|y pre]; simpl in Heq.
    + injection Heq as -> ->.
      rewrite Ha in Hhd. simpl in Hhd.
      now destruct (p b).
    + injection Heq as -> ->.
      now apply (IH Htl pre a b post).
Qed.

Lemma adjfreeb_complete (p : N -> bool) (s : jsstring) :
  no_two_adjacent p s -> adjfreeb p s = true.
Proof.
  induction s as [|x s IH]; intros H; [reflexivity|].
  simpl. apply andb_true_iff. split.
  - destruct s as [|y s]; [reflexivity|].
    destruct (p x) eqn:Ex; [|reflexivity].
    now rewrite (H [] x y s eq_refl Ex).
  - apply IH. intros pre a b post Heq.
    apply (H (x :: pre) a b post). simpl. now rewrite Heq.
Qed.

Section ReplaceRuns.

Variable p : N -> bool.
Variable r : N.

Lemma replace_runs_skip c t :
  p c = false -> replace_runs p r (c :: t) = c :: replace_runs p r t.
Proof. intros H. simpl. now rewrite H. Qed.

Lemma replace_runs_inside c c' t :
  p c = true -> p c' = true ->
  replace_runs p r (c :: c' :: t) = replace_runs p r (c' :: t).
Proof. intros H H'. simpl. now rewrite H, H'. Qed.

Lemma replace_runs_close c c' t :
  p c = true -> p c' = false ->
  replace_runs p r (c :: c' :: t) = r :: c' :: replace_runs p r t.
Proof. intros H H'. simpl. now rewrite H, H'. Qed.

Lemma replace_runs_last c :
  p c = true -> replace_runs p r [c] = [r].
Proof. intros H. simpl. now rewrite H. Qed.

(** Case analysis following the equations of [replace_runs]. *)
Lemma replace_runs_ind (P : jsstring -> jsstring -> Prop) :
  P [] [] ->
  (forall c t, p c = false ->
     P t (replace_runs p r t) -> P (c :: t) (c :: replace_runs p r t)) ->
  (forall c, p c = true -> P [c] [r]) ->
  (forall c c' t, p c = true -> p c' = true ->
     P (c' :: t) (replace_runs p r (c' :: t)) ->
     P (c :: c' :: t) (replace_runs p r (c' :: t))) ->
  (forall c c' t, p c = true -> p c' = false ->
     P (c' :: t) (c' :: replace_runs p r t) ->
     P (c :: c' :: t) (r :: c' :: replace_runs p r t)) ->
  forall s, P s (replace_runs p r s).
Proof.
  intros Hnil Hskip Hlast Hin Hclose.
  induction s as [|c t IH]; [exact Hnil|].
  destruct (p c) eqn:Ec.
  - destruct t as [|c' t'].
    + rewrite (replace_runs_last Ec). now apply Hlast.
    + destruct (p c') eqn:Ec'.
      * rewrite (replace_runs_inside _ Ec Ec'). now apply Hin.
      * rewrite (replace_runs_close _ Ec Ec'). apply Hclose; trivial.
        now rewrite (replace_runs_skip _ Ec') in IH.
  - rewrite (replace_runs_skip _ Ec). now apply Hskip.
Qed.

Lemma replace_runs_adjfree (s : jsstring) :
  p r = true -> adjfreeb p (replace_runs p r s) = true.
Proof.
  intros Hr.
  apply (replace_runs_ind (fun _ out => adjfreeb p out = true)).
  - reflexivity.
  - intros c t Ec IH. simpl. rewrite Ec. simpl.
    destruct (replace_runs p r t); exact IH.
  - reflexivity.
  - intros; assumption.
  - intros c c' t Ec Ec' IH.
    change (negb (p r && p c') && adjfreeb p (c' :: replace_runs p r t) = true).
    now rewrite Ec', andb_false_r.
Qed.

Lemma replace_runs_class (s : jsstring) c :
  In c (replace_runs p r s) -> p c = true -> c = r.
Proof.
  apply (replace_runs_ind (fun _ out => In c out -> p c = true -> c = r)).
  - intros [].
  - intros a t Ea IH [<-|Hin] Hc; [congruence | now apply IH].
  - intros a Ea [<-|[]] _. reflexivity.
  - intros; auto.
  - intros a a' t Ea Ea' IH [<-|Hin] Hc; [reflexivity | now apply IH].
Qed.

Lemma replace_runs_keeps (s : jsstring) c :
  In c s -> p c = false -> In c (replace_runs p r s).
Proof.
  intros Hin Hc. revert Hin.
  apply (replace_runs_ind (fun inp out => In c inp -> In c out)).
  - intros [].
  - intros a t Ea IH [<-|Hin]; [now left | right; now apply IH].
  - intros a Ea [<-|[]]. congruence.
  - intros a a' t Ea Ea' IH [<-|Hin]; [congruence | now apply IH].
  - intros a a' t Ea Ea' IH [<-|Hin]; [congruence | right; now apply IH].
Qed.

End ReplaceRuns.

Lemma split_on_nonempty (sep : N) (s : jsstring) : split_on sep s <> [].
Proof.
  destruct s as [|c t]; simpl; [discriminate|].
  destruct (c =? sep)%N; [discriminate|].
  destruct (split_on sep t); discriminate.
Qed.

(** [s.split(sep)] cuts [s] at every [sep]: gluing the pieces back with
    [sep] gives [s], and the last piece holds no [sep]. *)
Lemma split_on_join (sep : N) (s : jsstring) :
  exists pieces lastp,
    split_on sep s = pieces ++ [lastp] /\
    ~ In sep lastp /\
    s = concat (map (fun p => p ++ [sep]) pieces) ++ lastp.
Proof.
  induction s as [|c t (pieces & lastp & Hsplit & Hno & Hjoin)].
  - exists [], []. simpl. tauto.
  - simpl. destruct (N.eqb_spec c sep) as [->|Hne].
    + exists ([] :: pieces), lastp. rewrite Hsplit. simpl.
      repeat split; [exact Hno | now rewrite <- Hjoin].
    + rewrite Hsplit. destruct pieces as [|h r]; simpl.
      * exists [], (c :: lastp). simpl in *. repeat split.
        -- intros [Hc|Hin]; [congruence | tauto].
        -- now rewrite <- Hjoin.
      * exists ((c :: h) :: r), lastp. simpl in *.
        repeat split; [exact Hno | now rewrite <- Hjoin].
Qed.

(** The last piece of [s.split(sep)] is a suffix of [s] without [sep],
    and it is either all of [s] or what follows the last [sep]. *)
Lemma pop_split_on (sep : N) (s : jsstring) :
  ~ In sep (pop (split_on sep s)) /\
  (s = pop (split_on sep s) \/
   exists dir, s = dir ++ sep :: pop (split_on sep s)).
Proof.
  destruct (split_on_join sep s) as (pieces & lastp & Hsplit & Hno & Hjoin).
  unfold pop. rewrite Hsplit, last_last. split; [exact Hno|].
  destruct pieces as [|p0 ps].
  - left. exact Hjoin.
  - right.
    destruct (@exists_last _ (p0 :: ps)) as (init & q & Hq); [discriminate|].
    rewrite Hq in Hjoin.
    exists (concat (map (fun p => p ++ [sep]) init) ++ q).
    rewrite Hjoin at 1. rewrite map_app, concat_app. simpl.
    rewrite app_nil_r. now rewrite <- !app_assoc.
Qed.

Lemma streq_eq (a b : jsstring) : streq a b = true <-> a = b.
Proof.
  revert b. induction a as [|x a IH]; intros [|y b]; simpl; split;
    try discriminate; try reflexivity.
  - intros H. apply andb_true_iff in H as [Hx Hab].
    apply N.eqb_eq in Hx. apply IH in Hab. now subst.
  - intros [= -> ->]. rewrite N.eqb_refl. simpl. now apply IH.
Qed.

Lemma streq_refl (a : jsstring) : streq a a = true.
Proof. now apply streq_eq. Qed.

Section SortFacts.

Variable A : Type.
Variable key : A -> number.

(** The comparator [(a, b) => key(b) - key(a)]: descending by [key]. *)
Let cmp (a b : A) : number := num_sub (key b) (key a).
Let R (a b : A) : Prop := num_ge (key a) (key b).

Lemma insert_perm (c : A -> A -> number) (x : A) (l : list A) :
  Permutation (insert c x l) (x :: l).
Proof.
  induction l as [|y t IH]; simpl; [reflexivity|].
  destruct (positive_result (c x y)); [|reflexivity].
  rewrite IH. apply perm_swap.
Qed.

Lemma sort_perm (c : A -> A -> number) (l : list A) :
  Permutation (sort c l) l.
Proof.
  induction l as [|x l IH]; simpl; [reflexivity|].
  rewrite insert_perm. now constructor.
Qed.

Lemma insert_HdRel (y x : A) (l : list A) :
  R y x -> HdRel R y l -> HdRel R y (insert cmp x l).
Proof.
  intros Hyx Hl. destruct l as [|z t]; simpl.
  - now constructor.
  - destruct (positive_result (cmp x z)); constructor; trivial.
    now inversion Hl.
Qed.

Lemma insert_sorted (x : A) (l : list A) :
  key x <> NaN -> Forall (fun y => key y <> NaN) l ->
  Sorted R l -> Sorted R (insert cmp x l).
Proof.
  intros Hx Hl Hs. induction l as [|y t IH]; simpl.
  - repeat constructor.
  - inversion Hl as [|? ? Hy Ht]; subst. inversion Hs as [|? ? Hst Hhd]; subst.
    unfold cmp at 1.
    destruct (key x) as [|qx] eqn:Ex; [congruence|].
    destruct (key y) as [|qy] eqn:Ey; [congruence|].
    simpl. destruct (Qle_bool (qy - qx) 0) eqn:E; simpl.
    + apply Qle_bool_iff in E.
      constructor; [now constructor|].
      constructor. unfold R. rewrite Ex, Ey. simpl. lra.
    + assert (Hlt : ~ (qy - qx <= 0)%Q).
      { intros H. apply Qle_bool_iff in H. congruence. }
      constructor; [now apply IH|].
      apply insert_HdRel; [|exact Hhd].
      unfold R. rewrite Ex, Ey. simpl. lra.
Qed.

Lemma R_trans (a b c : A) : R a b -> R b c -> R a c.
Proof.
  unfold R, num_ge.
  destruct (key a), (key b), (key c); try tauto. intros. lra.
Qed.

(** Sorting by [key(b) - key(a)] puts the keys in descending order, when
    every key is a number. *)
Lemma sort_descending (l : list A) :
  Forall (fun y => key y <> NaN) l ->
  StronglySorted (fun a b => num_ge (key a) (key b))
                 (sort (fun a b => num_sub (key b) (key a)) l).
Proof.
  intros Hl. apply Sorted_StronglySorted.
  - intros a b c. apply R_trans.
  - induction l as [|x l IH]; simpl; [constructor|].
    inversion Hl as [|? ? Hx Hl']; subst.
    apply insert_sorted; trivial.
    + eapply Permutation_Forall; [|exact Hl'].
      symmetry. apply sort_perm.
    + now apply IH.
Qed.

Lemma firstn_In (n : nat) (l : list A) (x : A) :
  In x (firstn n l) -> In x l.
Proof.
  intros H. rewrite <- (firstn_skipn n l). apply in_or_app. now left.
Qed.

Lemma firstn_StronglySorted (Q : A -> A -> Prop) (n : nat) (l : list A) :
  StronglySorted Q l -> StronglySorted Q (firstn n l).
Proof.
  revert l. induction n as [|n IH]; intros l H; simpl; [constructor|].
  destruct l as [|x l]; [constructor|].
  inversion H as [|? ? Hs Hall]; subst.
  constructor; [now apply IH|].
  rewrite Forall_forall in *. intros y Hy. apply Hall.
  eapply firstn_In; eauto.
Qed.

End SortFacts.

End JSFacts.

(* ================================================================== *)
(** * Facts about the OCR adapter *)
(* ================================================================== *)

Module VisionFacts.

Import Vision JSFacts.

(** The file name shown in the placeholder: [imagePath.split('/').pop()]. *)
Definition fileName (imagePath : jsstring) : jsstring :=
  pop (split_on SLASH imagePath).

(** The provider is absent or misconfigured (the constructor left the
    service unconfigured), or it is unreachable (its calls reject). *)
Inductive Unavailable (svc : Service) (imagePath : jsstring) : Prop :=
| NotConfigured : svc = None -> Unavailable svc imagePath
| Unreachable : forall client,
    svc = Some client ->
    textDetection client imagePath = Rejected ->
    documentTextDetection client imagePath = Rejected ->
    Unavailable svc imagePath.

(** All paragraphs of a full-text annotation, in reading order. *)
Definition allParagraphs (pgs : list Page) : list Paragraph :=
  flat_map (fun pg => flat_map paragraphs (blocks pg)) pgs.

(** Example provider: one page, one block, the paragraphs "a" and "b". *)
Definition one_word (s : jsstring) : Paragraph :=
  {| words := [ {| symbols := [ {| sym_text := s |} ] |} ] |}.

Definition two_paragraphs : FullTextAnnotation :=
  {| pages := [ {| blocks := [ {| paragraphs := [one_word [97%N]; one_word [98%N]] |} ] |} ];
     fta_text := [97; 10; 98]%N |}.

Definition two_paragraphs_client : Client :=
  {| textDetection := fun _ => Rejected;
     documentTextDetection := fun _ => Resolved (Some two_paragraphs) |}.

(** Example provider for the plain path: one detection, "  Cell \n\n wall ". *)
Definition plain_client : Client :=
  {| textDetection := fun _ =>
       Resolved (Some [ {| description := lit "  Cell 

 wall ";
                           det_confidence := 0 |} ]);
     documentTextDetection := fun _ => Resolved None |}.

Lemma fold_left_append {A : Type} (f : A -> jsstring) (l : list A) (acc : jsstring) :
  fold_left (fun a x => a ++ f x) l acc = acc ++ concat (map f l).
Proof.
  revert acc. induction l as [|x l IH]; intros acc; simpl.
  - now rewrite app_nil_r.
  - rewrite IH. now rewrite <- app_assoc.
Qed.

Lemma fold_left_nested {A B C : Type} (g : A -> list B) (h : C -> B -> C)
      (l : list A) (acc : C) :
  fold_left (fun a x => fold_left h (g x) a) l acc = fold_left h (flat_map g l) acc.
Proof.
  revert acc. induction l as [|x l IH]; intros acc; simpl; [reflexivity|].
  now rewrite fold_left_app, IH.
Qed.

(** The nested loops of [detectDocumentStructure] write every paragraph,
    trimmed, followed by a blank line. *)
Lemma collectStructuredText_eq (pgs : list Page) :
  collectStructuredText pgs =
  concat (map (fun p => trim (paragraphText p) ++ [LF; LF]) (allParagraphs pgs)).
Proof.
  unfold collectStructuredText, allParagraphs.
  rewrite (fold_left_nested (fun pg => blocks pg)
             (fun acc' b => fold_left
                (fun acc'' p => acc'' ++ trim (paragraphText p) ++ [LF; LF])
                (paragraphs b) acc')).
  rewrite (fold_left_nested paragraphs
             (fun acc'' p => acc'' ++ trim (paragraphText p) ++ [LF; LF])).
  rewrite (fold_left_append (fun p => trim (paragraphText p) ++ [LF; LF])).
  simpl. f_equal. f_equal.
  induction pgs as [|pg pgs IH]; simpl; [reflexivity|].
  now rewrite flat_map_app, IH.
Qed.

Lemma replace_runs_origin (p : N -> bool) (r : N) (s : jsstring) c :
  In c (replace_runs p r s) -> c = r \/ In c s.
Proof.
  apply (@replace_runs_ind p r (fun inp out => In c out -> c = r \/ In c inp)).
  - intros [].
  - intros a t _ IH [<-|Hin]; [right; now left|].
    destruct (IH Hin); [now left | right; now right].
  - intros a _ [<-|[]]. now left.
  - intros a a' t _ _ IH Hin.
    destruct (IH Hin); [now left | right; now right].
  - intros a a' t _ _ IH [<-|Hin]; [now left|].
    destruct (IH Hin); [now left | right; now right].
Qed.

Lemma is_LF_is_space c : is_LF c = true -> is_space c = true.
Proof.
  unfold is_LF, LF. intros H. apply N.eqb_eq in H. now subst c.
Qed.

(** What [processExtractedText] guarantees. *)
Lemma processExtractedText_normalized (raw : jsstring) :
  let t := processExtractedText raw in
  ~ In LF t /\
  no_two_adjacent is_LF t /\
  no_two_adjacent is_space t /\
  trimmed t /\
  (t <> [] <-> exists c, In c raw /\ is_space c = false).
Proof.
  unfold processExtractedText.
  destruct (is_empty raw) eqn:Eraw.
  { destruct raw; [|discriminate].
    repeat split; try (intros pre a b post H; destruct pre; discriminate);
      try (intros ? ? H; discriminate).
    - tauto.
    - intros t c H. destruct t; discriminate.
    - congruence.
    - intros (c & [] & _). }
  clear Eraw.
  set (s1 := replace_runs is_LF LF raw).
  set (s2 := replace_runs is_space SPACE s1).
  destruct (trim_infix s2) as (pre & post & Hinfix).
  assert (Hadj : no_two_adjacent is_space (trim s2)).
  { eapply no_two_adjacent_infix; [exact Hinfix|].
    apply adjfreeb_sound. now apply replace_runs_adjfree. }
  assert (HnoLF : ~ In LF (trim s2)).
  { intros Hin. eapply infix_In in Hin; [|exact Hinfix].
    apply replace_runs_class in Hin; [discriminate | reflexivity]. }
  repeat split.
  - exact HnoLF.
  - intros pre' a b post' Heq Ha.
    exfalso. apply HnoLF. apply N.eqb_eq in Ha. subst a.
    rewrite Heq. apply in_or_app. right. now left.
  - exact Hadj.
  - apply (proj1 (trim_trimmed s2)).
  - apply (proj2 (trim_trimmed s2)).
  - intros Hne. destruct (trim s2) as [|c t] eqn:Et; [congruence|].
    assert (Hc : is_space c = false) by exact (proj1 (trim_trimmed s2) c t Et).
    assert (Hin : In c s2).
    { eapply infix_In; [exact Hinfix|]. now left. }
    exists c. split; [|exact Hc].
    apply replace_runs_origin in Hin. destruct Hin as [->|Hin1]; [discriminate|].
    apply replace_runs_origin in Hin1. destruct Hin1 as [->|Hin0]; [discriminate|].
    exact Hin0.
  - intros (c & Hin & Hc) Hnil.
    assert (Hin2 : In c (trim s2)).
    { apply trim_keeps; [|exact Hc].
      apply replace_runs_keeps; [|exact Hc].
      apply replace_runs_keeps; [exact Hin|].
      destruct (is_LF c) eqn:E; [|reflexivity].
      apply is_LF_is_space in E. congruence. }
    rewrite Hnil in Hin2. destruct Hin2.
Qed.

(** The degraded result of the adapter for [imagePath]: a success with
    confidence 0 whose text is the placeholder naming the file. *)
Definition PlaceholderFor (imagePath : jsstring) (r : Result) : Prop :=
  success r = true /\
  confidence r = 0 /\
  exists text,
    extractedText r = Some text /\
    text = fallbackPrefix ++ fileName imagePath /\
    contains text (fileName imagePath).

Lemma fallback_is_placeholder (imagePath : jsstring) :
  PlaceholderFor imagePath (fallbackTextExtraction imagePath).
Proof.
  unfold PlaceholderFor, fallbackTextExtraction, fileName. simpl.
  repeat split.
  eexists. repeat split.
  exists fallbackPrefix, []. now rewrite app_nil_r.
Qed.

(** No operation of the adapter reports a failure, whatever the provider
    does. *)
Lemma vision_always_success (svc : Service) (imagePath : jsstring) :
  success (extractTextFromImage svc imagePath) = true /\
  success (detectDocumentStructure svc imagePath) = true.
Proof.
  assert (H1 : success (extractTextFromImage svc imagePath) = true).
  { unfold extractTextFromImage. destruct svc as [client|]; [|reflexivity].
    destruct (textDetection client imagePath) as [|[[|d0 rest]|]]; reflexivity. }
  split; [exact H1|].
  unfold detectDocumentStructure. destruct svc as [client|]; [|reflexivity].
  destruct (documentTextDetection client imagePath) as [|[fta|]];
    try exact H1; reflexivity.
Qed.

(** C6: when the OCR provider is absent, misconfigured or unreachable, both
    operations of the OCR adapter (plain text extraction and document
    structure detection) return success = true, confidence = 0 and the
    placeholder text, which ends with the file name of the image: the last
    component of the image path, holding no slash. *)
Theorem ocr_unavailable_gives_placeholder
        (svc : Service) (imagePath : jsstring) (H : Unavailable svc imagePath) :
  PlaceholderFor imagePath (extractTextFromImage svc imagePath) /\
  PlaceholderFor imagePath (detectDocumentStructure svc imagePath) /\
  ~ In SLASH (fileName imagePath) /\
  (imagePath = fileName imagePath \/
   exists dir, imagePath = dir ++ SLASH :: fileName imagePath).
Proof.
  pose proof (fallback_is_placeholder imagePath) as Hfb.
  pose proof (pop_split_on SLASH imagePath) as [Hno Hlast].
  destruct H as [-> | client -> Htext Hdoc].
  - split; [exact Hfb | split; [exact Hfb | split; assumption]].
  - unfold detectDocumentStructure, extractTextFromImage.
    rewrite Hdoc, Htext.
    split; [exact Hfb | split; [exact Hfb | split; assumption]].
Qed.

Lemma ocr_unavailable_gives_placeholder_witness :
  Unavailable None (lit "uploads/image-17.png") /\
  PlaceholderFor (lit "uploads/image-17.png")
                 (detectDocumentStructure None (lit "uploads/image-17.png")) /\
  fileName (lit "uploads/image-17.png") = lit "image-17.png".
Proof.
  split; [now apply NotConfigured|].
  split; [|reflexivity].
  apply (ocr_unavailable_gives_placeholder (svc := None)).
  now apply NotConfigured.
Defined.

(** C4 (as amended): when the provider is configured and returns
    detections, the plain text-detection path returns the first detection's
    description with every run of white space (line breaks included)
    replaced by one space and trimmed: the text holds no line break, no two
    neighbouring white-space units, no leading or trailing white space, and
    it is non-empty exactly when the description holds a unit that is not
    white space.  The document-structure path returns the paragraphs, each
    trimmed and followed by a blank line, the whole trimmed: it has no
    leading or trailing white space, and keeps the blank lines between
    paragraphs.  Without a full-text annotation the document-structure
    path is the plain path. *)
Theorem ocr_text_normalization (client : Client) (imagePath : jsstring) :
  (forall d0 rest,
      textDetection client imagePath = Resolved (Some (d0 :: rest)) ->
      let r := extractTextFromImage (Some client) imagePath in
      success r = true /\
      exists t, extractedText r = Some t /\
        t = processExtractedText (description d0) /\
        ~ In LF t /\ no_two_adjacent is_LF t /\ no_two_adjacent is_space t /\
        trimmed t /\
        (t <> [] <-> exists c, In c (description d0) /\ is_space c = false)) /\
  (forall fta,
      documentTextDetection client imagePath = Resolved (Some fta) ->
      let r := detectDocumentStructure (Some client) imagePath in
      success r = true /\
      exists t, structuredText r = Some t /\
        trimmed t /\
        t = trim (concat (map (fun p => trim (paragraphText p) ++ [LF; LF])
                              (allParagraphs (pages fta))))) /\
  (documentTextDetection client imagePath = Resolved None ->
   detectDocumentStructure (Some client) imagePath =
   extractTextFromImage (Some client) imagePath).
Proof.
  split; [|split].
  - intros d0 rest Hdet. unfold extractTextFromImage. rewrite Hdet. simpl.
    split; [reflexivity|].
    exists (processExtractedText (description d0)).
    pose proof (processExtractedText_normalized (description d0)) as Hn.
    simpl in Hn. tauto.
  - intros fta Hdoc. unfold detectDocumentStructure. rewrite Hdoc. simpl.
    split; [reflexivity|].
    eexists. split; [reflexivity|]. split.
    + apply trim_trimmed.
    + now rewrite collectStructuredText_eq.
  - intros Hdoc. unfold detectDocumentStructure. now rewrite Hdoc.
Qed.

Lemma ocr_text_normalization_witness :
  extractedText (detectDocumentStructure (Some plain_client) (lit "uploads/p.png"))
  = Some (lit "Cell wall") /\
  exists t,
    extractedText (extractTextFromImage (Some plain_client) (lit "uploads/p.png")) = Some t /\
    ~ In LF t /\ no_two_adjacent is_space t /\ trimmed t /\ t <> [].
Proof.
  destruct (ocr_text_normalization plain_client (lit "uploads/p.png"))
    as (Hplain & _ & Hsame).
  split.
  - rewrite (Hsame eq_refl). reflexivity.
  - destruct (Hplain _ _ eq_refl) as (_ & t & Ht & _ & HnoLF & _ & Hadj & Htrim & Hne).
    exists t. repeat split; try assumption; try apply Htrim.
    apply Hne. exists 67%N. split; [|reflexivity].
    simpl. right. right. now left.
Defined.

(** C4, the counterexample: on the document-structure path, which the upload
    pipeline calls, a provider that returns the two paragraphs "a" and "b"
    yields the text "a", two line breaks, "b", and this is the text the
    pipeline goes on with. *)
Lemma structured_text_keeps_blank_lines :
  let r := detectDocumentStructure (Some two_paragraphs_client) (lit "uploads/p.png") in
  documentTextDetection two_paragraphs_client (lit "uploads/p.png")
    = Resolved (Some two_paragraphs) /\
  structuredText r = Some [97; 10; 10; 98]%N /\
  str_or (structuredText r) (extractedText r) = Some [97; 10; 10; 98]%N /\
  ~ no_two_adjacent is_LF [97; 10; 10; 98]%N.
Proof.
  split; [reflexivity|]. split; [reflexivity|]. split; [reflexivity|].
  intros H. specialize (H [97%N] 10%N 10%N [98%N] eq_refl eq_refl). discriminate.
Qed.

End VisionFacts.

(* ================================================================== *)
(** * Facts about the video-search adapter *)
(* ================================================================== *)

Module YouTubeFacts.

Import YouTube JSFacts.

(** The search request of the plain search. *)
Definition plainRequest {E : Type} (joinText : E -> jsstring)
           (keywords : Keywords E) (maxResults : Z) : SearchParams :=
  {| q := queryOf joinText keywords; maxResults := maxResults;
     safeSearch := lit "moderate"; videoDuration := None |}.

(** How many keywords of the fixed title list occur in the lower-cased
    title, and whether the lower-cased channel name holds a marker of an
    academic institution. *)
Definition matchedTitleKeywords (toLowerCase : jsstring -> jsstring) (v : Video) : nat :=
  length (filter (fun keyword => includesb (toLowerCase (title v)) keyword)
                 educationalKeywords).

Definition academicChannel (toLowerCase : jsstring -> jsstring) (v : Video) : bool :=
  let channelLower := toLowerCase (channelTitle v) in
  includesb channelLower (lit "academy") || includesb channelLower (lit "education")
  || includesb channelLower (lit "university") || includesb channelLower (lit "school").

(** The score the specification describes, for a view count [views]. *)
Definition relevance (views : Z) (matched : nat) (academic : bool) : Q :=
  Qmin (inject_Z views / 10000) 100
  + 20 * inject_Z (Z.of_nat matched)
  + (if academic then 30 else 0).

(** The scenario of the specification: three hits with 500, 50000 and
    5000 views. *)
Definition hit (id name : jsstring) : SearchItem :=
  {| videoId := id; sn_title := name; sn_channelTitle := lit "Geo Channel";
     sn_publishedAt := lit "2024-01-01T00:00:00Z"; sn_description := [];
     thumb_medium := None; thumb_default := None |}.

Definition views (id : jsstring) (n : Z) : Statistics :=
  {| st_id := id; st_viewCount := Some n; st_likeCount := None;
     st_duration := lit "PT4M13S" |}.

Definition volcano_api : Api :=
  {| search := fun _ =>
       Resolved (Some [hit (lit "v1") (lit "Volcano basics");
                       hit (lit "v2") (lit "Volcanoes explained");
                       hit (lit "v3") (lit "Learn how volcanoes erupt")]);
     videos := fun _ _ =>
       Resolved (Some [views (lit "v1") 500; views (lit "v2") 50000;
                       views (lit "v3") 5000]) |}.

(** ASCII lower-casing, to run the examples. *)
Definition ascii_lower (s : jsstring) : jsstring :=
  map (fun c => if ((65 <=? c) && (c <=? 90))%N then (c + 32)%N else c) s.




Lemma fold_bonus (f : jsstring -> bool) (l : list jsstring) (q0 : Q) :
  exists q1,
    fold_left (fun score keyword => if f keyword then num_add score (Num 20) else score)
              l (Num q0) = Num q1 /\
    q1 == q0 + 20 * inject_Z (Z.of_nat (length (filter f l))).
Proof.
  revert q0. induction l as [|k l IH]; intros q0; simpl.
  - exists q0. split; [reflexivity | ring].
  - destruct (f k); simpl.
    + destruct (IH (q0 + 20)) as (q1 & Hq1 & Heq).
      exists q1. split; [exact Hq1|].
      rewrite Heq. rewrite Zpos_P_of_succ_nat, <- Z.add_1_r, inject_Z_plus.
      simpl. ring.
    + apply IH.
Qed.

Lemma Math_min_Qmin (x y : Q) :
  exists m, Math_min (Num x) (Num y) = Num m /\ m == Qmin x y.
Proof.
  simpl. destruct (Qle_bool x y) eqn:E; eexists; (split; [reflexivity|]).
  - apply Qle_bool_iff in E. symmetry. now apply Q.min_l.
  - assert (H : ~ x <= y) by (intros H; apply Qle_bool_iff in H; congruence).
    symmetry. apply Q.min_r. lra.
Qed.

(** The accumulating loop of [calculateEducationalScore] computes the
    closed form. *)
Lemma score_closed_form toLowerCase (v : Video) (n : Z) :
  viewCount v = Num (inject_Z n) ->
  exists s,
    calculateEducationalScore toLowerCase v = Num s /\
    s == relevance n (matchedTitleKeywords toLowerCase v) (academicChannel toLowerCase v).
Proof.
  intros Hv. unfold calculateEducationalScore, relevance. rewrite Hv.
  unfold num_over.
  destruct (Math_min_Qmin (inject_Z n / inject_Z 10000) 100) as (m & Hm & Hmin).
  rewrite Hm.
  change (num_add (Num 0) (Num m)) with (Num (0 + m)).
  destruct (fold_bonus (fun keyword => includesb (toLowerCase (title v)) keyword)
                       educationalKeywords (0 + m)) as (q1 & Hq1 & Heq1).
  rewrite Hq1.
  fold (academicChannel toLowerCase v).
  unfold matchedTitleKeywords.
  destruct (academicChannel toLowerCase v); eexists; (split; [reflexivity|]).
  - rewrite Heq1, Hmin. change (inject_Z 10000) with 10000. ring.
  - rewrite Heq1, Hmin. change (inject_Z 10000) with 10000. ring.
Qed.


(** When the two calls of the plain search go through and every
    statistics entry carries a view count, the search does return, with
    success, and every returned view count is a number. *)
Lemma searchVideos_returns
      (E : Type) (joinText templateText : E -> jsstring)
      (encodeURIComponent : jsstring -> option jsstring) (now : Z)
      (api : Api) (keywords : Keywords E) (maxResults : Z)
      (found : list SearchItem) (statisticsData : list Statistics) :
  search api (plainRequest joinText keywords maxResults) = Resolved (Some found) ->
  videos api (lit "statistics") (join (lit ",") (map videoId found))
    = Resolved (Some statisticsData) ->
  (forall st, In st statisticsData -> st_viewCount st <> None) ->
  exists r,
    searchVideos joinText templateText encodeURIComponent now api keywords maxResults
      = Resolved r /\
    success r = true /\
    Forall (fun v => viewCount v <> NaN) (result_videos r).
Proof.
  intros Hsearch Hstats Hcounts. unfold searchVideos.
  fold (plainRequest joinText keywords maxResults). rewrite Hsearch.
  destruct found as [|v0 found]; [eexists; repeat split; constructor|].
  rewrite Hstats. eexists. split; [reflexivity|]. split; [reflexivity|].
  cbn [result_videos].
  eapply Permutation_Forall; [symmetry; apply sort_perm|].
  apply Forall_forall. intros v Hv. apply in_map_iff in Hv as (video & <- & _).
  unfold withStats. cbn [viewCount]. unfold findStats.
  destruct (find _ statisticsData) as [st|] eqn:Hfind; [|discriminate].
  apply find_some in Hfind as [Hin _]. specialize (Hcounts st Hin).
  destruct (st_viewCount st); [discriminate | congruence].
Qed.

(** The educational search runs to its end when its calls go through. *)
Lemma educationalSearch_returns
      (E : Type) (joinText : E -> jsstring) (toLowerCase : jsstring -> jsstring)
      (api : Api) (keywords : Keywords E) (subject : jsstring) :
  (forall request, exists found, search api request = Resolved (Some found)) ->
  (forall part ids, exists statisticsData,
      videos api part ids = Resolved (Some statisticsData)) ->
  exists r, educationalSearch joinText toLowerCase api keywords subject = Some r.
Proof.
  intros Hsearch Hstats. unfold educationalSearch.
  destruct (Hsearch {| q := trim (queryOf joinText keywords ++ lit " " ++ subject
                                  ++ lit " tutorial lesson education explained");
                       maxResults := 15; safeSearch := lit "strict";
                       videoDuration := Some (lit "medium") |}) as (found & ->).
  destruct (is_empty _); [eexists; reflexivity|].
  destruct (Hstats (lit "statistics,contentDetails")
                   (join (lit ",") (map videoId (filter (isEducational toLowerCase) found))))
    as (stats & ->).
  eexists. reflexivity.
Qed.





End YouTubeFacts.

(* ================================================================== *)
(** * Facts about the AI-analysis adapter *)
(* ================================================================== *)

Module GeminiFacts.

Import Gemini.

Lemma analyzeContent_success JSON_parse canonicalize svc extractedText userPrompt :
  analysis_success
    (analyzeContent JSON_parse canonicalize svc extractedText userPrompt) = true.
Proof.
  unfold analyzeContent, parseAnalysisResponse.
  destruct svc as [model|]; [|reflexivity].
  destruct (generateContent model _) as [|text]; [reflexivity|].
  destruct (parseAnalysisJson JSON_parse text); reflexivity.
Qed.

Lemma generateQuizQuestions_success JSON_parse svc extractedText userPrompt :
  quiz_success (generateQuizQuestions JSON_parse svc extractedText userPrompt) = true.
Proof.
  unfold generateQuizQuestions, parseQuizResponse.
  destruct svc as [model|]; [|reflexivity].
  destruct (generateContent model _) as [|text]; [reflexivity|].
  destruct (parseQuizJson JSON_parse text); reflexivity.
Qed.

Lemma answerQuestion_success toUpperCase svc question documentContent chatHistory :
  answer_success
    (answerQuestion toUpperCase svc question documentContent chatHistory) = true.
Proof.
  unfold answerQuestion.
  destruct svc as [model|]; [|reflexivity].
  destruct (generateContent model _); reflexivity.
Qed.

(** A provider that answers with fenced JSON, one that answers with prose,
    and one that fails. *)
Definition fenced_json_model : Model :=
  {| generateContent := fun _ =>
       Resolved (lit "```json" ++ [LF] ++ litq "{`summary`: `Cells`}" ++ [LF] ++ lit "```") |}.

Definition prose_model : Model :=
  {| generateContent := fun _ => Resolved (litq "Here you go: `summary` : `Cells have walls`") |}.

Definition failing_model : Model :=
  {| generateContent := fun _ => Rejected |}.

(** A parser for the one object of the examples. *)
Definition example_parse (s : jsstring) : option json :=
  if streq s (litq "{`summary`: `Cells`}")
  then Some (JObj [(lit "summary", JStr (lit "Cells"))])
  else None.

Example analyze_fenced_json :
  summary (analysis (analyzeContent example_parse id (Some fenced_json_model)
                                    (lit "Cell wall") (lit "explain")))
  = JStr (lit "Cells").
Proof. vm_compute. reflexivity. Qed.

Example analyze_prose :
  summary (analysis (analyzeContent example_parse id (Some prose_model)
                                    (lit "Cell wall") (lit "explain")))
  = JStr (lit "Cells have walls").
Proof. vm_compute. reflexivity. Qed.

Example analyze_unreachable :
  summary (analysis (analyzeContent example_parse id (Some failing_model)
                       (lit "Photosynthesis converts light into energy.")
                       (lit "explain photosynthesis")))
  = JStr (lit "This document contains approximately 5 words. Photosynthesis converts light into energy.").
Proof. vm_compute. reflexivity. Qed.

End GeminiFacts.

(* ================================================================== *)
(** * Facts about the document controller *)
(* ================================================================== *)

Module DocumentsFacts.

Import Http Store Documents JSFacts.

(** The text the pipeline goes on with:
    [visionResult.structuredText || visionResult.extractedText]. *)
Definition pipelineText (svc : Vision.Service) (imagePath : jsstring) : option jsstring :=
  let visionResult := Vision.detectDocumentStructure svc imagePath in
  str_or (Vision.structuredText visionResult) (Vision.extractedText visionResult).

(** ** An instance to run the controller on

    Built-ins that parse nothing, and a casting that accepts strings where
    the schema says String. *)
Definition exampleRuntime : Builtins :=
  {| JSON_parse := fun _ => None;
     canonicalize := fun c => c;
     toLowerCase := YouTubeFacts.ascii_lower;
     toUpperCase := fun s => s;
     encodeURIComponent := fun s => Some s;
     numberToString := fun _ => lit "0" |}.

Definition castToString (v : Gemini.json) : Outcome jsstring :=
  match v with
  | Gemini.JStr s => Resolved s
  | _ => Rejected
  end.

Fixpoint mapOutcome {A B : Type} (f : A -> Outcome B) (l : list A) : Outcome (list B) :=
  match l with
  | [] => Resolved []
  | x :: t =>
      match f x, mapOutcome f t with
      | Resolved y, Resolved ys => Resolved (y :: ys)
      | _, _ => Rejected
      end
  end.

Definition exampleCastAnalysis (a : AnalysisData) : Outcome Analysis :=
  match castToString (ad_summary a), castToString (ad_explanation a),
        mapOutcome castToString (ad_keyPoints a),
        mapOutcome castToString (ad_concepts a) with
  | Resolved s, Resolved e, Resolved k, Resolved c =>
      Resolved {| summary := Some s; explanation := Some e; keyPoints := k; concepts := c |}
  | _, _, _, _ => Rejected
  end.

Definition exampleCastQuestion (q : Gemini.Question) : Outcome Question :=
  match castToString (Gemini.q_type q), castToString (Gemini.question q),
        mapOutcome castToString
                   (match Gemini.options q with Some o => o | None => [] end),
        castToString (Gemini.correctAnswer q), castToString (Gemini.q_explanation q) with
  | Resolved t, Resolved qu, Resolved o, Resolved a, Resolved e =>
      if (streq t (lit "mcq") || streq t (lit "short_answer") || streq t (lit "flashcard"))
         && negb (is_empty qu)
      then Resolved {| q_type := t; question := qu; options := o;
                       correctAnswer := Some a; q_explanation := Some e |}
      else Rejected
  | _, _, _, _, _ => Rejected
  end.

Definition exampleCastVideo (v : YouTube.Video) : Outcome Video :=
  match YouTube.viewCount v with
  | NaN => Rejected
  | Num n =>
      Resolved {| title := Some (YouTube.title v);
                  videoId := Some (YouTube.v_videoId v);
                  channelTitle := Some (YouTube.channelTitle v);
                  viewCount := Some n;
                  publishedAt := Some (YouTube.publishedAt v);
                  thumbnailUrl := YouTube.thumbnailUrl v |}
  end.

Definition exampleMongoose : Mongoose :=
  {| isObjectId := fun s => Nat.eqb (length s) 24;
     castAnalysis := exampleCastAnalysis;
     castQuestions := mapOutcome exampleCastQuestion;
     castVideos := mapOutcome exampleCastVideo |}.

(** OCR that reads "Cell wall", no AI key, and the video provider of the
    scenario. *)
Definition exampleServices : Services :=
  {| vision := Some VisionFacts.plain_client;
     gemini := None;
     youtube := YouTubeFacts.volcano_api |}.

Definition exampleUpload : UploadRequest :=
  {| file_path := Some (lit "uploads/image-17.png");
     prompt := Some (lit "explain cells") |}.

Definition exampleId : jsstring := lit "65f1c0ffee65f1c0ffee0001".

Definition blankDocument : Document :=
  {| _id := []; documentId := []; originalImagePath := [];
     extractedText := None; userPrompt := [];
     analysis := {| summary := None; explanation := None;
                    keyPoints := []; concepts := [] |};
     quizQuestions := []; youtubeVideos := [];
     createdAt := 0; updatedAt := 0 |}.

(** The store after one upload into an empty store. *)
Definition storeAfterUpload : list Document :=
  snd (uploadAndAnalyze exampleRuntime exampleMongoose exampleServices 1000
                        exampleId (lit "65f1c0ffee65f1c0ffee0002") exampleUpload []).

Lemma createDocument_fields orm freshId freshDocumentId now data d :
  createDocument orm freshId freshDocumentId now data = Return d ->
  extractedText d = dd_extractedText data /\ _id d = freshId /\
  originalImagePath d = dd_originalImagePath data /\
  userPrompt d = dd_userPrompt data.
Proof.
  unfold createDocument.
  destruct (_ || _); [discriminate|].
  destruct (castAnalysis orm _); [discriminate|].
  destruct (castQuestions orm _); [discriminate|].
  destruct (castVideos orm _); [discriminate|].
  intros [= <-]. repeat split.
Qed.

(** A branch of the handler that answers with an error status and leaves
    the store as it was. *)
Ltac nothing_stored := left; split; [discriminate | reflexivity].

(** C1: whatever the request and the providers do, the upload pipeline
    either stores nothing (and answers with a status other than 200) or
    answers 200 and appends exactly one document, whose extractedText is
    absent, although the OCR step did produce a text [ocrText]. *)
Theorem upload_stores_no_extracted_text
        (rt : Builtins) (orm : Mongoose) (svc : Services) (now : Z)
        (freshId freshDocumentId : jsstring) (req : UploadRequest) (docs : list Document) :
  let result := uploadAndAnalyze rt orm svc now freshId freshDocumentId req docs in
  (status (fst result) <> 200%Z /\ snd result = docs) \/
  (status (fst result) = 200%Z /\
   exists imagePath ocrText d,
     file_path req = Some imagePath /\
     pipelineText (vision svc) imagePath = Some ocrText /\
     snd result = docs ++ [d] /\
     extractedText d = None).
Proof.
  unfold uploadAndAnalyze.
  destruct (file_path req) as [imagePath|]; [|nothing_stored].
  destruct (prompt req) as [[|c userPrompt]|]; try nothing_stored.
  destruct (negb (Vision.success _)); [nothing_stored|].
  destruct (str_or _ _) as [ocrText|] eqn:Hocr; [|nothing_stored].
  destruct (negb (Gemini.analysis_success _)); [nothing_stored|].
  destruct (YouTube.getEducationalVideos _ _ _ _ _ _ _ _) as [|youtubeResult];
    [nothing_stored|].
  destruct (createDocument _ _ _ _ _) as [d|e] eqn:Hsave; [|nothing_stored].
  right. split; [reflexivity|].
  exists imagePath, ocrText, d.
  apply createDocument_fields in Hsave. destruct Hsave as [Htext _].
  split; [reflexivity|]. split; [exact Hocr|]. split; [reflexivity | exact Htext].
Qed.

(** The pipeline at work: the OCR text is "Cell wall", the document is
    stored, and it has no extractedText. *)
Example upload_example :
  pipelineText (vision exampleServices) (lit "uploads/image-17.png") = Some (lit "Cell wall") /\
  map _id storeAfterUpload = [exampleId] /\
  map extractedText storeAfterUpload = [None] /\
  map (fun d => summary (analysis d)) storeAfterUpload
  = [Some (lit "This document contains approximately 2 words. Cell wall.")].
Proof. vm_compute. repeat split. Qed.

(** C5: whatever the input and whatever the provider does (not configured,
    failing, or answering with text that is not the JSON asked for), the
    three operations of the AI-analysis adapter return success = true; and
    the upload pipeline never answers with its "Failed to analyze content"
    response. *)
Theorem ai_adapter_always_succeeds
        (rt : Builtins) (ai : Gemini.Service)
        (extractedText userPrompt question documentContent : jsstring)
        (storedText : option jsstring) (chatHistory : list Gemini.Message) :
  Gemini.analysis_success
    (Gemini.analyzeContent (JSON_parse rt) (canonicalize rt) ai extractedText userPrompt)
  = true /\
  Gemini.quiz_success
    (Gemini.generateQuizQuestions (JSON_parse rt) ai storedText userPrompt) = true /\
  Gemini.answer_success
    (Gemini.answerQuestion (toUpperCase rt) ai question documentContent chatHistory)
  = true /\
  forall orm svc now freshId freshDocumentId req docs,
    message (body (fst (uploadAndAnalyze rt orm svc now freshId freshDocumentId req docs)))
    <> lit "Failed to analyze content".
Proof.
  split; [apply GeminiFacts.analyzeContent_success|].
  split; [apply GeminiFacts.generateQuizQuestions_success|].
  split; [apply GeminiFacts.answerQuestion_success|].
  intros orm svc now freshId freshDocumentId req docs.
  unfold uploadAndAnalyze.
  destruct (file_path req) as [imagePath|]; [|discriminate].
  destruct (prompt req) as [[|c prompt']|]; try discriminate.
  destruct (negb (Vision.success _)); [discriminate|].
  destruct (str_or _ _) as [ocrText|]; [|discriminate].
  rewrite GeminiFacts.analyzeContent_success. cbn [negb].
  destruct (YouTube.getEducationalVideos _ _ _ _ _ _ _ _); [discriminate|].
  destruct (createDocument _ _ _ _ _); discriminate.
Qed.

(** ** Listing *)

Lemma mapTry_length {A B : Type} (f : A -> Try B) (l : list A) (ys : list B) :
  mapTry f l = Return ys -> length ys = length l.
Proof.
  revert ys. induction l as [|x l IH]; simpl; intros ys.
  - now intros [= <-].
  - destruct (f x); [|discriminate].
    destruct (mapTry f l); [|discriminate].
    intros [= <-]. simpl. f_equal. now apply IH.
Qed.

Lemma summarize_throws (l : list Document) :
  (exists d, In d l /\ extractedText d = None) ->
  exists e, mapTry summarize l = Throw e.
Proof.
  induction l as [|x l IH]; intros (d & Hin & Hd); [destruct Hin|].
  simpl. unfold summarize at 1.
  destruct (extractedText x) as [text|] eqn:Ex; [|now exists TypeError].
  destruct Hin as [->|Hin]; [congruence|].
  destruct IH as (e & He); [now exists d|].
  rewrite He. now exists e.
Qed.

Lemma summarize_returns (l : list Document) :
  Forall (fun d => extractedText d <> None) l ->
  exists summaries, mapTry summarize l = Return summaries.
Proof.
  induction 1 as [|x l Hx _ (ys & Hys)]; simpl; [now exists []|].
  unfold summarize at 1. destruct (extractedText x); [|congruence].
  rewrite Hys. eexists. reflexivity.
Qed.

Lemma findPage_bound {A : Type} (key : A -> Z) (skip limit : Z) (l found : list A) :
  findPage key skip limit l = Return found ->
  (Z.of_nat (length found) <= Z.abs limit)%Z /\ forall x, In x found -> In x l.
Proof.
  unfold findPage. destruct (skip <? 0)%Z; [discriminate|].
  intros [= <-]. split.
  - rewrite length_firstn. lia.
  - intros x Hx. apply firstn_In in Hx.
    assert (Hs : In x (sort (fun a b => num_sub (Num (inject_Z (key b)))
                                                (Num (inject_Z (key a)))) l)).
    { rewrite <- (firstn_skipn (Z.to_nat skip)). apply in_or_app. now right. }
    eapply Permutation_in; [apply sort_perm | exact Hs].
Qed.

Lemma ceil_div_pos (a : Z) (pb : positive) :
  ceil_div a (Z.pos pb) = (- ((- a) / Z.pos pb))%Z.
Proof.
  unfold ceil_div, Qceiling.
  change (inject_Z a / inject_Z (Z.pos pb)) with ((a * 1) # pb).
  unfold Qfloor, Qopp. cbn [Qnum Qden].
  now rewrite Z.mul_1_r.
Qed.

(** [ceil_div a b] is the ceiling of the quotient: the least [n] with
    [a <= b * n]. *)
Lemma ceil_div_bounds (a b : Z) :
  (0 < b)%Z ->
  (b * (ceil_div a b - 1) < a <= b * ceil_div a b)%Z.
Proof.
  intros Hb. destruct b as [|pb|pb]; try lia.
  rewrite ceil_div_pos.
  pose proof (Z.div_mod (- a) (Z.pos pb) ltac:(lia)) as Hdm.
  pose proof (Z.mod_pos_bound (- a) (Z.pos pb) ltac:(lia)) as Hmod.
  nia.
Qed.

(** The request of page [p] with [l] items a page. *)
Definition pageRequest (p l : Z) : ListQuery := {| page := Some p; limit := Some l |}.

(** The response of [getAllDocuments] when a preview cannot be built. *)
Definition listFailed (now : Z) : Response DocumentList :=
  respond 500 (formatResponse now false (lit "Failed to retrieve documents") None None).

(** The documents of the requested page, as the store returns them. *)
Definition requestedPage (query : ListQuery) (docs : list Document) : Try (list Document) :=
  let page := int_or (page query) 1 in
  let limit := int_or (limit query) 10 in
  findPage createdAt ((page - 1) * limit) limit docs.

(** C2 (as amended): the list operation answers with its 500 failure
    whenever the requested page (after sorting, skip and limit) holds a
    document whose extractedText is absent; when every document of the
    requested page has a text, as on a page past the end, it answers 200. *)
Theorem list_fails_when_page_holds_textless_document
        (now : Z) (query : ListQuery) (docs found : list Document)
        (Hpage : requestedPage query docs = Return found) :
  ((exists d, In d found /\ extractedText d = None) ->
   getAllDocuments now query docs = listFailed now) /\
  (Forall (fun d => extractedText d <> None) found ->
   status (getAllDocuments now query docs) = 200%Z).
Proof.
  unfold requestedPage in Hpage. unfold getAllDocuments. rewrite Hpage. split.
  - intros Hmissing. destruct (summarize_throws _ Hmissing) as (e & He).
    now rewrite He.
  - intros Hall. destruct (summarize_returns Hall) as (ys & Hys).
    now rewrite Hys.
Qed.

Lemma list_fails_when_page_holds_textless_document_witness :
  requestedPage {| page := None; limit := None |} storeAfterUpload = Return storeAfterUpload /\
  getAllDocuments 2000 {| page := None; limit := None |} storeAfterUpload = listFailed 2000.
Proof.
  split; [reflexivity|].
  apply (@list_fails_when_page_holds_textless_document
           2000 {| page := None; limit := None |} storeAfterUpload storeAfterUpload eq_refl).
  exists (hd blankDocument storeAfterUpload).
  split; [now left | reflexivity].
Defined.

(** C2, the counterexample: the store holds one document created by the
    pipeline, without extractedText, and the request for page 2 is
    answered 200 with an empty list. *)
Lemma list_succeeds_past_the_end :
  (exists d, In d storeAfterUpload /\ extractedText d = None) /\
  status (getAllDocuments 2000 (pageRequest 2 10) storeAfterUpload) = 200%Z /\
  option_map documents (data (body (getAllDocuments 2000 (pageRequest 2 10) storeAfterUpload)))
  = Some [].
Proof.
  split; [|split; reflexivity].
  exists (hd blankDocument storeAfterUpload).
  split; [now left | reflexivity].
Qed.

Lemma int_or_positive (z d : Z) : (1 <= z)%Z -> int_or (Some z) d = z.
Proof.
  intros H. unfold int_or. destruct (Z.eqb_spec z 0); [lia | reflexivity].
Qed.

Lemma findPage_returns {A : Type} (key : A -> Z) (p l : Z) (items : list A) :
  (1 <= p)%Z -> (1 <= l)%Z ->
  exists found, findPage key ((p - 1) * l) l items = Return found.
Proof.
  intros Hp Hl. unfold findPage.
  destruct (Z.ltb_spec ((p - 1) * l) 0) as [Hneg|_]; [nia|].
  eexists. reflexivity.
Qed.

(** Two documents with a text, to run the list operation on. *)
Definition textDocument (id : jsstring) (created : Z) : Document :=
  {| _id := id; documentId := id; originalImagePath := lit "uploads/a.png";
     extractedText := Some (lit "Cell wall"); userPrompt := lit "explain cells";
     analysis := {| summary := Some (lit "Cells"); explanation := None;
                    keyPoints := []; concepts := [] |};
     quizQuestions := []; youtubeVideos := [];
     createdAt := created; updatedAt := created |}.

Definition twoDocuments : list Document :=
  [textDocument (lit "65f1c0ffee65f1c0ffee0011") 10;
   textDocument (lit "65f1c0ffee65f1c0ffee0012") 20].

(** C9: for page p >= 1 and limit l >= 1, the documents list, whenever it
    answers with a payload (which it does when every stored document has
    a text), and the chats list, always, report
    hasNext = (p < ceil(total / l)) and hasPrev = (p > 1) and return at
    most l items; ceil(total / l) is the least n with total <= l * n. *)
Theorem pagination_invariant
        (now p l : Z) (docs : list Document) (stored : list ChatHistory)
        (Hp : (1 <= p)%Z) (Hl : (1 <= l)%Z) :
  (forall payload,
      data (body (getAllDocuments now (pageRequest p l) docs)) = Some payload ->
      hasNext (pagination payload) = (p <? ceil_div (Z.of_nat (length docs)) l)%Z /\
      hasPrev (pagination payload) = (1 <? p)%Z /\
      (Z.of_nat (length (documents payload)) <= l)%Z) /\
  (Forall (fun d => extractedText d <> None) docs ->
   exists payload,
     data (body (getAllDocuments now (pageRequest p l) docs)) = Some payload) /\
  (exists payload,
      data (body (Chats.getAllChats now (pageRequest p l) docs stored)) = Some payload /\
      hasNext (Chats.pagination payload) = (p <? ceil_div (Z.of_nat (length stored)) l)%Z /\
      hasPrev (Chats.pagination payload) = (1 <? p)%Z /\
      (Z.of_nat (length (Chats.chats payload)) <= l)%Z) /\
  (forall total, (l * (ceil_div total l - 1) < total <= l * ceil_div total l)%Z).
Proof.
  unfold getAllDocuments, Chats.getAllChats, pageRequest.
  cbn [page limit].
  rewrite !int_or_positive by assumption.
  destruct (findPage_returns createdAt docs Hp Hl) as (found & Hfound).
  destruct (findPage_returns chat_updatedAt stored Hp Hl) as (foundChats & HfoundChats).
  rewrite Hfound, HfoundChats.
  destruct (findPage_bound _ _ _ _ Hfound) as (Hlen & Hsub).
  destruct (findPage_bound _ _ _ _ HfoundChats) as (HlenChats & _).
  split; [|split; [|split]].
  - intros payload. destruct (mapTry summarize found) as [summaries|e] eqn:Hmap;
      cbn; [|discriminate].
    intros [= <-]. cbn. repeat split.
    rewrite (mapTry_length _ _ Hmap). lia.
  - intros Hall.
    assert (Hfoundall : Forall (fun d => extractedText d <> None) found).
    { rewrite Forall_forall in *. intros d Hd. apply Hall. now apply Hsub. }
    destruct (summarize_returns Hfoundall) as (ys & Hys). rewrite Hys.
    eexists. reflexivity.
  - eexists. split; [reflexivity|]. cbn. repeat split.
    rewrite length_map. lia.
  - intros total. apply ceil_div_bounds. lia.
Qed.

Lemma pagination_invariant_witness :
  (1 <= 1)%Z /\ (1 <= 1)%Z /\
  exists payload,
    data (body (getAllDocuments 0 (pageRequest 1 1) twoDocuments)) = Some payload /\
    map ds_id (documents payload) = [lit "65f1c0ffee65f1c0ffee0012"] /\
    totalPages (pagination payload) = 2%Z /\
    hasNext (pagination payload) = true /\
    hasPrev (pagination payload) = false /\
    (Z.of_nat (length (documents payload)) <= 1)%Z.
Proof.
  split; [lia|]. split; [lia|].
  eexists. split; [reflexivity|].
  split; [reflexivity|]. split; [reflexivity|].
  assert (H1 : (1 <= 1)%Z) by lia.
  destruct (pagination_invariant 0 twoDocuments [] H1 H1) as (Hdocs & _).
  destruct (Hdocs _ eq_refl) as (Hnext & Hprev & Hlen).
  split; [exact Hnext|]. split; [exact Hprev | exact Hlen].
Defined.

(** ** Quiz regeneration *)

(** Every field but [quizQuestions] and [updatedAt] is the same. *)
Definition same_except_quiz (old new : Document) : Prop :=
  _id new = _id old /\
  documentId new = documentId old /\
  originalImagePath new = originalImagePath old /\
  extractedText new = extractedText old /\
  userPrompt new = userPrompt old /\
  analysis new = analysis old /\
  youtubeVideos new = youtubeVideos old /\
  createdAt new = createdAt old.

Lemma same_except_quiz_refl (d : Document) : same_except_quiz d d.
Proof. repeat split. Qed.

Lemma Forall2_map_right {A B : Type} (P : A -> B -> Prop) (f : A -> B) (l : list A) :
  (forall x, In x l -> P x (f x)) -> Forall2 P l (map f l).
Proof.
  induction l as [|x l IH]; intros H; simpl; constructor.
  - apply H. now left.
  - apply IH. intros y Hy. apply H. now right.
Qed.

Lemma same_id_same_document (docs : list Document) (x y : Document) :
  NoDup (map _id docs) -> In x docs -> In y docs -> _id x = _id y -> x = y.
Proof.
  induction docs as [|d docs IH]; simpl; intros Hnd Hx Hy Hid; [destruct Hx|].
  inversion Hnd as [|? ? Hnotin Hnd']; subst.
  destruct Hx as [->|Hx], Hy as [->|Hy]; trivial.
  - exfalso. apply Hnotin. rewrite Hid. now apply in_map.
  - exfalso. apply Hnotin. rewrite <- Hid. now apply in_map.
  - now apply IH.
Qed.

(** C10: for an existing document (in a store whose identifiers are
    unique), quiz regeneration runs the quiz generation on the stored
    extractedText and userPrompt and leaves every other document, and every
    field of the document other than quizQuestions and updatedAt, as it
    was; when it answers 200, quizQuestions holds the new questions and
    updatedAt the time of the call; otherwise the store is unchanged. *)
Theorem regenerate_overwrites_only_quiz
        (rt : Builtins) (orm : Mongoose) (svc : Services) (now : Z)
        (id : jsstring) (docs : list Document) (document : Document)
        (Hid : is_empty id = false)
        (Hunique : NoDup (map _id docs))
        (Hfind : findById orm docs id = Return (Some document)) :
  let result := regenerateQuestions rt orm svc now id docs in
  let generated :=
    Gemini.generateQuizQuestions (JSON_parse rt) (gemini svc)
                                 (extractedText document) (userPrompt document) in
  Forall2 (fun old new => same_except_quiz old new /\ (_id old <> id -> new = old))
          docs (snd result) /\
  (status (fst result) = 200%Z ->
   exists newQuestions,
     castQuestions orm (Gemini.questions generated) = Resolved newQuestions /\
     data (body (fst result)) = Some {| qd_quizQuestions := newQuestions |} /\
     Forall2 (fun old new =>
                _id old = id ->
                quizQuestions new = newQuestions /\ updatedAt new = now)
             docs (snd result)) /\
  (status (fst result) <> 200%Z -> snd result = docs).
Proof.
  assert (Hdoc : In document docs /\ _id document = id).
  { unfold findById in Hfind. destruct (isObjectId orm id); [|discriminate].
    injection Hfind as Hfind. apply find_some in Hfind as [Hin Heq].
    split; [exact Hin | now apply streq_eq]. }
  destruct Hdoc as [Hin Hsame].
  unfold regenerateQuestions. rewrite Hid, Hfind.
  destruct (castQuestions orm _) as [|newQuestions] eqn:Hcast; cbn.
  - split; [|split].
    + apply Forall2_flip, Forall2_flip.
      rewrite <- (map_id docs) at 2. apply Forall2_map_right.
      intros x _. split; [apply same_except_quiz_refl | reflexivity].
    + discriminate.
    + reflexivity.
  - split; [|split].
    + apply Forall2_map_right. intros x Hx. cbn.
      destruct (streq (_id x) (_id document)) eqn:E.
      * apply streq_eq in E.
        assert (x = document) by (eapply same_id_same_document; eassumption).
        subst x. split; [repeat split | congruence].
      * split; [apply same_except_quiz_refl | reflexivity].
    + intros _. exists newQuestions. split; [reflexivity|]. split; [reflexivity|].
      apply Forall2_map_right. intros x Hx Hxid. cbn.
      assert (E : streq (_id x) (_id document) = true)
        by (apply streq_eq; congruence).
      rewrite E. split; reflexivity.
    + intros H. now contradiction H.
Qed.

Lemma regenerate_overwrites_only_quiz_witness :
  let result :=
    regenerateQuestions exampleRuntime exampleMongoose exampleServices 5000
                        exampleId storeAfterUpload in
  status (fst result) = 200%Z /\
  map (fun d => (extractedText d, updatedAt d, createdAt d)) (snd result)
  = [(None, 5000%Z, 1000%Z)] /\
  Forall2 (fun old new => same_except_quiz old new /\ (_id old <> exampleId -> new = old))
          storeAfterUpload (snd result).
Proof.
  split; [reflexivity|]. split; [reflexivity|].
  refine (proj1 (@regenerate_overwrites_only_quiz
                   exampleRuntime exampleMongoose exampleServices 5000
                   exampleId storeAfterUpload (hd blankDocument storeAfterUpload)
                   eq_refl _ eq_refl)).
  vm_compute. repeat constructor. intros [].
Defined.

End DocumentsFacts.

(* ================================================================== *)
(** * Facts about the chat export *)
(* ================================================================== *)

Module ExportFacts.

Import Http Store Pdf Exporting JSFacts.

(** A stored document and its chat. *)
Definition studyId : jsstring := lit "65f1c0ffee65f1c0ffee0042".

Definition studyDoc : Document :=
  {| _id := studyId;
     documentId := lit "65f1c0ffee65f1c0ffee0043";
     originalImagePath := lit "uploads/osmosis.png";
     extractedText := None;
     userPrompt := lit "explain osmosis";
     analysis := {| summary := Some (lit "Water crosses membranes.");
                    explanation := None;
                    keyPoints := [lit "Water moves"];
                    concepts := [] |};
     quizQuestions :=
       [ {| q_type := lit "mcq";
            question := lit "What moves in osmosis?";
            options := [lit "Water"; lit "Salt"];
            correctAnswer := Some (lit "Water");
            q_explanation := None |} ];
     youtubeVideos := [];
     createdAt := 1000;
     updatedAt := 1000 |}.

Definition studyChat : ChatHistory :=
  {| chat_id := lit "65f1c0ffee65f1c0ffee0044";
     chat_documentId := studyId;
     messages :=
       [ {| Gemini.role := lit "user";
            Gemini.content := lit "Is osmosis active transport?";
            Gemini.timestamp := DateAt 2000 |};
         {| Gemini.role := lit "assistant";
            Gemini.content := lit "No, it is passive.";
            Gemini.timestamp := DateAt 2001 |} ];
     chat_createdAt := 2000;
     chat_updatedAt := 2001 |}.

(** No text written to the PDF holds the content of a message. *)
Definition transcript_absent (chat : ChatHistory) (ops : list Op) : bool :=
  forallb
    (fun m =>
       forallb
         (fun op =>
            match op with
            | Text s _ => negb (includesb s (Gemini.content m))
            | _ => true
            end)
         ops)
    (messages chat).

(** The [switch] of [generatePDF] has no case for the type the chat export
    passes: the chat export is the complete export of the document, and
    the chat history is not read. *)
Lemma chat_export_is_complete_export (document : Document) (chat : option ChatHistory) :
  generatePDF {| document := document; chatHistory := chat; exportType := lit "chat" |}
  = addHeader (lit "Study Material") ++ addContinuousContent document (lit "complete").
Proof. reflexivity. Qed.

(** The part of C3 that holds: without a chat history, or with an
    empty one, the chat export answers 404. *)
Lemma chat_export_not_found
      (orm : Mongoose) (now : Z) (docs : list Document) (chats : list ChatHistory)
      (id : jsstring) (document : Document) :
  is_empty id = false ->
  findById orm docs id = Return (Some document) ->
  (findChat orm chats id = Return None \/
   exists chat, findChat orm chats id = Return (Some chat) /\ messages chat = []) ->
  exportChatHistory orm now docs chats id
  = failure now 404 (lit "No chat history found for this document").
Proof.
  intros Hid Hdoc Hchat. unfold exportChatHistory. rewrite Hid, Hdoc.
  destruct Hchat as [-> | (chat & -> & ->)]; reflexivity.
Qed.

(** C3, the failing input: a document with a chat of two messages.  The
    chat export sends a PDF named chat-history-..., whose content is the
    complete export under the header "Study Material"; no text of it holds
    a message. *)
Theorem chat_export_renders_no_transcript :
  exportChatHistory DocumentsFacts.exampleMongoose 1730000000000
                    [studyDoc] [studyChat] studyId
  = SentPdf (lit "chat-history-65f1c0ffee65f1c0ffee0042-1730000000000.pdf")
      [FontSize 24; Font (lit "Helvetica-Bold"); Text (lit "Study Material") AlignCenter;
       MoveDown 2;
       FontSize 12; Font (lit "Helvetica");
       FontSize 14; Font (lit "Helvetica-Bold"); Text (lit "Summary:") NotContinued;
       FontSize 12; Font (lit "Helvetica");
       Text (lit "Water crosses membranes.") NoOptions; MoveDown 1;
       FontSize 14; Font (lit "Helvetica-Bold"); Text (lit "Key Points:") NotContinued;
       FontSize 12; Font (lit "Helvetica");
       Text ([BULLET] ++ lit " Water moves") (Indent 20); MoveDown 1;
       FontSize 14; Font (lit "Helvetica-Bold"); Text (lit "Quiz Questions:") NotContinued;
       MoveDown (5 # 10);
       FontSize 13; Font (lit "Helvetica-Bold");
       Text (lit "1. What moves in osmosis?") NoOptions;
       FontSize 12; Font (lit "Helvetica");
       Text (lit "   A. Water " ++ [CHECK_MARK]) NoOptions;
       Text (lit "   B. Salt") NoOptions;
       Font (lit "Helvetica"); MoveDown (8 # 10)] /\
  transcript_absent studyChat
    (generatePDF {| document := studyDoc; chatHistory := Some studyChat;
                    exportType := lit "chat" |}) = true.
Proof. split; vm_compute; reflexivity. Qed.

End ExportFacts.

(* ================================================================== *)
(** * More facts about the OCR adapter *)
(* ================================================================== *)

Module VisionMore.

Import Vision JSFacts VisionFacts.

Lemma replace_runs_none (p : N -> bool) (r : N) (s : jsstring) :
  (forall c, In c s -> p c = false) -> replace_runs p r s = s.
Proof.
  induction s as [|c t IH]; intros H; [reflexivity|].
  rewrite replace_runs_skip by (apply H; now left).
  f_equal. apply IH. intros x Hx. apply H. now right.
Qed.

Lemma replace_runs_fixed (p : N -> bool) (r : N) (s : jsstring) :
  adjfreeb p s = true ->
  (forall c, In c s -> p c = true -> c = r) ->
  replace_runs p r s = s.
Proof.
  induction s as [|c t IH]; intros Hadj Hr; [reflexivity|].
  assert (IHt : replace_runs p r t = t).
  { apply IH.
    - simpl in Hadj. now apply andb_true_iff in Hadj as [_ Hadj].
    - intros x Hx. apply Hr. now right. }
  destruct (p c) eqn:Ec.
  - assert (c = r) by (apply Hr; [now left | exact Ec]). subst c.
    destruct t as [|c' t']; [now apply replace_runs_last|].
    simpl in Hadj. rewrite Ec in Hadj. simpl in Hadj.
    apply andb_true_iff in Hadj as [Hc' _]. apply negb_true_iff in Hc'.
    rewrite replace_runs_close by assumption.
    rewrite replace_runs_skip in IHt by assumption. now rewrite IHt.
  - rewrite replace_runs_skip by assumption. now rewrite IHt.
Qed.

Lemma dropWhile_fixed (p : N -> bool) (s : jsstring) :
  (forall c t, s = c :: t -> p c = false) -> dropWhile p s = s.
Proof.
  destruct s as [|c t]; intros H; [reflexivity|].
  simpl. now rewrite (H c t eq_refl).
Qed.

Lemma trim_fixed (s : jsstring) : trimmed s -> trim s = s.
Proof.
  intros [Hhead Hlast]. unfold trim, trimStart, trimEnd.
  rewrite (dropWhile_fixed _ Hhead).
  rewrite dropWhile_fixed; [apply rev_involutive|].
  intros c t Hrev. apply (Hlast (rev t) c).
  rewrite <- (rev_involutive s), Hrev. reflexivity.
Qed.

(** Every white-space unit left by [processExtractedText] is a space. *)
Lemma processExtractedText_spaces (raw : jsstring) (c : N) :
  In c (processExtractedText raw) -> is_space c = true -> c = SPACE.
Proof.
  unfold processExtractedText. destruct (is_empty raw); [intros []|].
  intros Hin Hc.
  destruct (trim_infix (replace_runs is_space SPACE (replace_runs is_LF LF raw)))
    as (pre & post & Hinfix).
  eapply infix_In in Hin; [|exact Hinfix].
  eapply replace_runs_class; eassumption.
Qed.

(** X1: cleaning an OCR text twice is cleaning it once. *)
Theorem processExtractedText_idempotent (raw : jsstring) :
  processExtractedText (processExtractedText raw) = processExtractedText raw.
Proof.
  pose proof (processExtractedText_normalized raw) as (HnoLF & _ & Hadj & Htrim & _).
  pose proof (processExtractedText_spaces raw) as Hspaces.
  set (t := processExtractedText raw) in *.
  unfold processExtractedText at 1.
  destruct (is_empty t) eqn:Et; [now destruct t|].
  rewrite (@replace_runs_none is_LF LF t).
  - rewrite (@replace_runs_fixed is_space SPACE t).
    + now apply trim_fixed.
    + now apply adjfreeb_complete.
    + exact Hspaces.
  - intros c Hc. unfold is_LF. apply N.eqb_neq. intros ->. now apply HnoLF.
Qed.

Lemma or_default_nonzero (x d : Q) :
  Qeq_bool d 0 = false -> Qeq_bool (or_default x d) 0 = false.
Proof.
  intros Hd. unfold or_default. destruct (Qeq_bool x 0) eqn:E; assumption.
Qed.

(** X2: degradation is signalled by the confidence: each operation of the
    adapter returns confidence 0 exactly when it returns the placeholder
    of [fallbackTextExtraction]. *)
Theorem confidence_zero_iff_placeholder (svc : Service) (imagePath : jsstring) :
  (Qeq_bool (confidence (extractTextFromImage svc imagePath)) 0 = true <->
   extractTextFromImage svc imagePath = fallbackTextExtraction imagePath) /\
  (Qeq_bool (confidence (detectDocumentStructure svc imagePath)) 0 = true <->
   detectDocumentStructure svc imagePath = fallbackTextExtraction imagePath).
Proof.
  assert (Hplain :
    Qeq_bool (confidence (extractTextFromImage svc imagePath)) 0 = true <->
    extractTextFromImage svc imagePath = fallbackTextExtraction imagePath).
  { split; [|intros ->; reflexivity].
    unfold extractTextFromImage. destruct svc as [client|]; [|reflexivity].
    destruct (textDetection client imagePath) as [|[[|d0 rest]|]]; try reflexivity.
    cbn [confidence]. rewrite or_default_nonzero by reflexivity. discriminate. }
  split; [exact Hplain|].
  split; [|intros ->; reflexivity].
  unfold detectDocumentStructure. destruct svc as [client|]; [|reflexivity].
  destruct (documentTextDetection client imagePath) as [|[fta|]];
    try (apply Hplain).
  cbn [confidence]. destruct (is_empty (fta_text fta)); discriminate.
Qed.

End VisionMore.

(* ================================================================== *)
(** * More facts about the video-search adapter *)
(* ================================================================== *)

Module YouTubeMore.

Import YouTube JSFacts YouTubeFacts VisionMore.

(** ** Durations *)

(** A non-empty run of decimal digits. *)
Definition digits (d : jsstring) : Prop :=
  d <> [] /\ Forall (fun c => is_digit c = true) d.

(** One group of an ISO 8601 duration: digits and their unit letter, or
    nothing. *)
Definition group (d : option jsstring) (unit : N) : jsstring :=
  match d with Some x => x ++ [unit] | None => [] end.

(** What [parseDuration] writes for a group. *)
Definition shown (d : option jsstring) (suffix : jsstring) : jsstring :=
  match d with Some x => x ++ suffix | None => [] end.

Definition well_formed (d : option jsstring) : Prop :=
  match d with Some x => digits x | None => True end.

Lemma span_digits_run (d rest : jsstring) :
  Forall (fun c => is_digit c = true) d ->
  (forall c t, rest = c :: t -> is_digit c = false) ->
  span_digits (d ++ rest) = (d, rest).
Proof.
  intros Hd Hrest. induction Hd as [|c d Hc _ IH].
  - destruct rest as [|c t]; [reflexivity|].
    cbn [app span_digits]. now rewrite (Hrest c t eq_refl).
  - cbn [app span_digits]. cbv beta in Hc. now rewrite Hc, IH.
Qed.

Lemma duration_group_hit (unit : N) (d rest : jsstring) :
  digits d -> is_digit unit = false ->
  duration_group unit (d ++ unit :: rest) = (d, rest).
Proof.
  intros [Hne Hd] Hunit. unfold duration_group.
  rewrite span_digits_run; trivial.
  - destruct d; [congruence|]. now rewrite N.eqb_refl.
  - now intros c t [= <- _].
Qed.

Lemma span_digits_spec (s d r : jsstring) :
  span_digits s = (d, r) ->
  s = d ++ r /\
  Forall (fun c => is_digit c = true) d /\
  (forall c t, r = c :: t -> is_digit c = false).
Proof.
  revert d r. induction s as [|x s IH]; intros d r Hspan.
  - cbn [span_digits] in Hspan. injection Hspan as <- <-.
    repeat split; [constructor | discriminate].
  - cbn [span_digits] in Hspan. destruct (is_digit x) eqn:Ex.
    + destruct (span_digits s) as [d' r'] eqn:Hs.
      injection Hspan as <- <-.
      destruct (IH d' r' eq_refl) as (-> & Hall & Hr).
      repeat split; [now constructor | exact Hr].
    + injection Hspan as <- <-.
      repeat split; [constructor|]. now intros c t [= <- _].
Qed.

Lemma duration_group_miss (unit : N) (s : jsstring) :
  (forall d rest, digits d -> s <> d ++ unit :: rest) ->
  duration_group unit s = ([], s).
Proof.
  intros Hmiss. unfold duration_group.
  destruct (span_digits s) as [d r] eqn:Hspan.
  destruct d as [|c0 d]; [reflexivity|].
  destruct r as [|c r']; [reflexivity|].
  destruct (N.eqb_spec c unit) as [->|]; [|reflexivity].
  exfalso. apply span_digits_spec in Hspan as (Hs & Hall & _).
  apply (Hmiss (c0 :: d) r'); [|exact Hs].
  split; [discriminate | exact Hall].
Qed.

Lemma digit_not_space (c : N) : is_digit c = true -> is_space c = false.
Proof.
  unfold is_digit, is_space. intros H.
  apply andb_true_iff in H as [H1 H2].
  apply N.leb_le in H1. apply N.leb_le in H2.
  repeat match goal with
         | |- context [(?a <=? ?b)%N] => destruct (N.leb_spec a b)
         | |- context [(?a =? ?b)%N] => destruct (N.eqb_spec a b)
         end; try reflexivity; lia.
Qed.

(** X3: whatever the duration string, [parseDuration] returns a text that
    is not empty and has no white space at either end. *)
Theorem parseDuration_shown (duration : jsstring) :
  parseDuration duration <> [] /\ trimmed (parseDuration duration).
Proof.
  assert (Hunknown : lit "Unknown" <> [] /\ trimmed (lit "Unknown")).
  { split; [discriminate|]. split.
    - intros c t [= <- _]. reflexivity.
    - intros t c H. apply (f_equal (@rev N)) in H.
      rewrite rev_app_distr in H. simpl in H. injection H as <- _. reflexivity. }
  unfold parseDuration.
  destruct (is_empty duration); [exact Hunknown|].
  destruct (after_PT duration) as [s0|]; [|exact Hunknown].
  destruct (duration_group 72 s0) as [hours s1].
  destruct (duration_group 77 s1) as [minutes s2].
  destruct (duration_group 83 s2) as [seconds s3].
  cbv zeta.
  match goal with |- context [is_empty (trim ?r)] => set (result := r) end.
  destruct (is_empty (trim result)) eqn:E; [exact Hunknown|].
  split; [|apply trim_trimmed].
  intros H. rewrite H in E. discriminate.
Qed.

Lemma not_group (u u' : N) (x r : jsstring) :
  digits x -> is_digit u' = false -> is_digit u = false -> u' <> u ->
  forall d rest, digits d -> x ++ u' :: r <> d ++ u :: rest.
Proof.
  intros [_ Hx] Hu' Hu Hne d rest [_ Hd] Heq.
  apply (f_equal span_digits) in Heq.
  rewrite !span_digits_run in Heq; trivial.
  - injection Heq as _ Hc _. congruence.
  - now intros c t [= <- _].
  - now intros c t [= <- _].
Qed.

Lemma not_group_nil (u : N) : forall d rest, digits d -> [] <> d ++ u :: rest.
Proof. intros d rest _ H. destruct d; discriminate. Qed.

Lemma trim_nonempty (s : jsstring) (c : N) :
  In c s -> is_space c = false -> is_empty (trim s) = false.
Proof.
  intros Hin Hc. pose proof (trim_keeps s c Hin Hc) as H.
  destruct (trim s); [destruct H | reflexivity].
Qed.

Lemma digits_head (d : jsstring) :
  digits d -> exists c t, d = c :: t /\ is_space c = false.
Proof.
  intros [Hne Hall]. destruct d as [|c t]; [congruence|].
  exists c, t. split; [reflexivity|].
  apply digit_not_space. now inversion Hall.
Qed.

Lemma digits_nonempty (d : jsstring) : digits d -> is_empty d = false.
Proof. intros [Hne _]. now destruct d. Qed.

(** Rewriting with the two lemmas on groups, once the string is written
    as digits, unit, rest. *)
Ltac read_group :=
  first
    [ rewrite duration_group_hit by (assumption || reflexivity)
    | rewrite duration_group_miss
        by (first [ apply not_group_nil
                  | apply not_group; (assumption || reflexivity || discriminate) ]) ].

(** X4: an ISO 8601 duration with hours, minutes and seconds, each
    optional, is shown as the digits of each part that is there, followed
    by h, m and s and separated by one space; a duration with no part is
    shown as Unknown. *)
Theorem parseDuration_iso8601 (h m s : option jsstring)
        (Hh : well_formed h) (Hm : well_formed m) (Hs : well_formed s) :
  parseDuration (lit "PT" ++ group h 72 ++ group m 77 ++ group s 83) =
  match h, m, s with
  | None, None, None => lit "Unknown"
  | _, _, _ => trim (shown h (lit "h ") ++ shown m (lit "m ") ++ shown s (lit "s"))
  end.
Proof.
  unfold parseDuration.
  change (lit "PT" ++ group h 72 ++ group m 77 ++ group s 83)
    with (80%N :: 84%N :: (group h 72 ++ group m 77 ++ group s 83)).
  cbn [is_empty after_PT N.eqb Pos.eqb andb].
  destruct h as [h|], m as [m|], s as [s|];
    cbn [well_formed group shown app] in *;
    rewrite <- ?app_assoc; cbn [app]; rewrite ?app_nil_r;
    repeat read_group; cbv zeta;
    repeat match goal with
           | H : digits ?d |- context [is_empty ?d] => rewrite (digits_nonempty H)
           end;
    cbn [is_empty app]; rewrite <- ?app_assoc; cbn [app];
    try reflexivity;
    match goal with
    | H : digits ?d |- context [is_empty (trim (?d ++ ?r))] =>
        let c := fresh "c" in let t := fresh "t" in
        let Hd := fresh in let Hc := fresh in
        destruct (digits_head H) as (c & t & Hd & Hc);
        rewrite (@trim_nonempty (d ++ r) c);
        [reflexivity | rewrite Hd; now left | exact Hc]
    end.
Qed.

Lemma parseDuration_iso8601_witness :
  well_formed (Some (lit "1")) /\ well_formed None /\ well_formed (Some (lit "30")) /\
  parseDuration (lit "PT1H30S") = lit "1h 30s".
Proof.
  assert (H1 : well_formed (Some (lit "1"))).
  { split; [discriminate | repeat constructor]. }
  assert (H30 : well_formed (Some (lit "30"))).
  { split; [discriminate | repeat constructor]. }
  split; [exact H1|]. split; [exact I|]. split; [exact H30|].
  exact (@parseDuration_iso8601 (Some (lit "1")) None (Some (lit "30")) H1 I H30).
Defined.

(** ** What the searches return *)







(** ** Ties *)

Section Stable.

Variable A : Type.
Variable cmp : A -> A -> number.
Variable P : A -> bool.

(** [cmp] never puts one element of the class [P] strictly behind
    another. *)
Hypothesis class_tied :
  forall x y, P x = true -> P y = true -> positive_result (cmp x y) = false.



End Stable.





(** ** The score *)

(** X8: for a video with a view count that is a non-negative integer, the
    relevance score lies between 0 and 250. *)
Theorem educational_score_bounds
        (toLowerCase : jsstring -> jsstring) (v : Video) (n : Z)
        (Hviews : viewCount v = Num (inject_Z n)) (Hn : (0 <= n)%Z) :
  exists s, calculateEducationalScore toLowerCase v = Num s /\ 0 <= s /\ s <= 250.
Proof.
  destruct (score_closed_form toLowerCase v Hviews) as (s & Hs & Heq).
  exists s. split; [exact Hs|]. rewrite Heq. unfold relevance.
  assert (Hbase : 0 <= Qmin (inject_Z n / 10000) 100 /\
                  Qmin (inject_Z n / 10000) 100 <= 100).
  { split; [|apply Q.le_min_r].
    apply Q.min_glb; [|discriminate].
    unfold Qdiv, Qmult, Qinv, Qle, inject_Z. simpl. lia. }
  assert (Hmatched : 0 <= inject_Z (Z.of_nat (matchedTitleKeywords toLowerCase v)) /\
                     inject_Z (Z.of_nat (matchedTitleKeywords toLowerCase v)) <= 6).
  { unfold matchedTitleKeywords.
    pose proof (filter_length_le
                  (fun keyword => includesb (toLowerCase (title v)) keyword)
                  educationalKeywords) as Hlen.
    change (length educationalKeywords) with 6%nat in Hlen.
    split.
    - change 0 with (inject_Z 0). rewrite <- Zle_Qle. lia.
    - change 6 with (inject_Z 6). rewrite <- Zle_Qle. lia. }
  destruct (academicChannel toLowerCase v); lra.
Qed.

Lemma educational_score_bounds_witness :
  exists v s,
    viewCount v = Num (inject_Z 5000000) /\
    calculateEducationalScore ascii_lower v = Num s /\ 0 <= s /\ s <= 250.
Proof.
  exists (withStats [views (lit "v9") 5000000]
                    (hit (lit "v9") (lit "Learn volcanoes: a tutorial"))).
  assert (H0 : (0 <= 5000000)%Z) by lia.
  destruct (@educational_score_bounds ascii_lower
              (withStats [views (lit "v9") 5000000]
                         (hit (lit "v9") (lit "Learn volcanoes: a tutorial")))
              5000000 eq_refl H0) as (s & Hs & Hlo & Hhi).
  exists s. repeat split; assumption.
Defined.

End YouTubeMore.

(* ================================================================== *)
(** * More facts about the AI-analysis adapter *)
(* ================================================================== *)

Module GeminiMore.

Import Gemini JSFacts.

(** ** The analysis *)

Lemma or_else_truthy (x : option json) (d : json) :
  truthy d = true -> truthy (or_else x d) = true.
Proof.
  intros Hd. unfold or_else. destruct x as [v|]; [|exact Hd].
  destruct (truthy v) eqn:E; assumption.
Qed.

Lemma text_or_truthy (x : option jsstring) (d : jsstring) :
  d <> [] -> truthy (text_or x d) = true.
Proof.
  intros Hd. unfold text_or.
  destruct x as [[|c s]|]; try reflexivity; now destruct d.
Qed.

(** X9: whatever the provider does, the analysis carries a summary and an
    explanation that are truthy (for a string: not empty), so neither is
    missing from what the pipeline stores. *)
Theorem analysis_has_summary_and_explanation
        (JSON_parse : jsstring -> option json) (canonicalize : N -> N)
        (svc : Service) (extractedText userPrompt : jsstring) :
  let result := analyzeContent JSON_parse canonicalize svc extractedText userPrompt in
  truthy (summary (analysis result)) = true /\
  truthy (explanation (analysis result)) = true.
Proof.
  assert (Hfallback :
    truthy (summary (analysis (fallbackAnalysis extractedText userPrompt))) = true /\
    truthy (explanation (analysis (fallbackAnalysis extractedText userPrompt))) = true).
  { split; reflexivity. }
  unfold analyzeContent. destruct svc as [model|]; [|exact Hfallback].
  destruct (generateContent model _) as [|text]; [exact Hfallback|].
  unfold parseAnalysisResponse.
  destruct (parseAnalysisJson JSON_parse text) as [a|] eqn:Hjson.
  - unfold parseAnalysisJson, bind in Hjson.
    destruct (json_span _); [|discriminate].
    destruct (JSON_parse _) as [parsed|]; [|discriminate].
    destruct (get parsed (lit "summary")); [discriminate|].
    destruct (get parsed (lit "explanation")); [discriminate|].
    destruct (get parsed (lit "keyPoints")); [discriminate|].
    destruct (get parsed (lit "concepts")); [discriminate|].
    destruct (get parsed (lit "searchKeywords")); [discriminate|].
    injection Hjson as <-. cbn [analysis summary explanation].
    split; now apply or_else_truthy.
  - cbn [analysis summary explanation]. split; apply text_or_truthy.
    + discriminate.
    + intros H. apply app_eq_nil in H as [_ H]. discriminate.
Qed.

(** ** The questions *)

(** A question with a type, a text, an answer and an explanation. *)
Definition complete (q : Question) : bool :=
  truthy (q_type q) && truthy (question q) && truthy (correctAnswer q)
  && truthy (q_explanation q).

Lemma cleanQuestion_complete (v : json) (q : Question) :
  cleanQuestion v = Resolved (Some q) -> complete q = true.
Proof.
  unfold cleanQuestion.
  destruct (get v (lit "question")) as [|vq]; [discriminate|].
  destruct (get v (lit "correctAnswer")) as [|va]; [discriminate|].
  destruct (get v (lit "type")) as [|vt]; [discriminate|].
  destruct (get v (lit "options")) as [|vo]; [discriminate|].
  destruct (get v (lit "explanation")) as [|ve]; [discriminate|].
  destruct vq as [vq|]; [|discriminate].
  destruct va as [va|]; [|discriminate].
  destruct vt as [vt|]; [|discriminate].
  destruct (truthy vq && truthy va && truthy vt) eqn:E; [|discriminate].
  intros [= <-]. unfold complete. cbn.
  apply andb_true_iff in E as [E Ht]. apply andb_true_iff in E as [Hq Ha].
  rewrite Hq, Ha, Ht. cbn. now apply or_else_truthy.
Qed.

Lemma cleanQuestions_complete (l : list json) (qs : list Question) :
  cleanQuestions l = Some qs -> forallb complete qs = true.
Proof.
  revert qs. induction l as [|v l IH]; intros qs; cbn [cleanQuestions].
  - now intros [= <-].
  - destruct (cleanQuestion v) as [|kept] eqn:Hv; [discriminate|].
    unfold bind. destruct (cleanQuestions l) as [rest|]; [|discriminate].
    intros [= <-]. specialize (IH rest eq_refl).
    destruct kept as [q|]; [|exact IH].
    cbn. now rewrite (cleanQuestion_complete _ Hv), IH.
Qed.

(** X10: every question the quiz generation returns has a truthy type,
    question, correct answer and explanation, whatever the provider
    answers, as long as the user prompt is not empty (the fallback quiz
    uses the prompt as an answer). *)
Theorem quiz_questions_are_complete
        (JSON_parse : jsstring -> option json) (svc : Service)
        (extractedText : option jsstring) (userPrompt : jsstring)
        (Hprompt : userPrompt <> []) :
  forallb complete
          (questions (generateQuizQuestions JSON_parse svc extractedText userPrompt))
  = true.
Proof.
  assert (Hfallback :
    forallb complete (questions (fallbackQuizGeneration extractedText userPrompt)) = true).
  { destruct userPrompt; [congruence | reflexivity]. }
  unfold generateQuizQuestions. destruct svc as [model|]; [|exact Hfallback].
  destruct (generateContent model _) as [|text]; [exact Hfallback|].
  unfold parseQuizResponse.
  destruct (parseQuizJson JSON_parse text) as [qs|] eqn:Hjson; [|reflexivity].
  cbn [questions]. unfold parseQuizJson, bind in Hjson.
  destruct (json_span _); [|discriminate].
  destruct (JSON_parse _) as [parsed|]; [|discriminate].
  destruct (get parsed (lit "questions")) as [|[[]|]]; try discriminate;
    try (now injection Hjson as <-).
  now apply cleanQuestions_complete in Hjson.
Qed.

(** A provider whose questions are a question without an answer, a
    number, and a good question. *)
Definition quiz_model : Model :=
  {| generateContent := fun _ => Resolved (litq "{`questions`: []}") |}.

Definition quiz_parse (s : jsstring) : option json :=
  Some (JObj [(lit "questions",
               JArr [JObj [(lit "question", JStr (lit "Why?")); (lit "type", JStr (lit "mcq"))];
                     JNum 3;
                     JObj [(lit "question", JStr (lit "What is a cell?"));
                           (lit "type", JStr (lit "flashcard"));
                           (lit "correctAnswer", JStr (lit "A unit of life"))]])]).

Lemma quiz_questions_are_complete_witness :
  lit "explain cells" <> [] /\
  map question (questions (generateQuizQuestions quiz_parse (Some quiz_model)
                                                 None (lit "explain cells")))
  = [JStr (lit "What is a cell?")] /\
  forallb complete
    (questions (generateQuizQuestions quiz_parse (Some quiz_model)
                                      None (lit "explain cells"))) = true.
Proof.
  assert (H : lit "explain cells" <> []) by discriminate.
  split; [exact H|]. split; [reflexivity|].
  exact (@quiz_questions_are_complete quiz_parse (Some quiz_model) None
           (lit "explain cells") H).
Defined.

(** ** The chat prompt *)

Lemma lastN_length {A : Type} (n : nat) (l : list A) :
  length (lastN n l) = Nat.min n (length l).
Proof. unfold lastN. rewrite length_skipn. lia. Qed.

Lemma lastN_idempotent {A : Type} (n : nat) (l : list A) :
  lastN n (lastN n l) = lastN n l.
Proof.
  unfold lastN at 1. rewrite lastN_length.
  replace (Nat.min n (length l) - n)%nat with 0%nat by lia. reflexivity.
Qed.

Lemma lastN_suffix {A : Type} (n : nat) (l : list A) :
  exists older, l = older ++ lastN n l.
Proof.
  exists (firstn (length l - n) l). unfold lastN. now rewrite firstn_skipn.
Qed.

(** X11: the chat prompt reads the five most recent messages only: two
    histories with the same last five messages (and both empty or both
    not) give the same prompt; in particular a history and its last five
    messages do. *)
Theorem chat_prompt_reads_last_five
        (toUpperCase : jsstring -> jsstring)
        (question documentContent : jsstring) (chatHistory : list Message) :
  buildChatPrompt toUpperCase question documentContent chatHistory
  = buildChatPrompt toUpperCase question documentContent (lastN 5 chatHistory) /\
  (length (lastN 5 chatHistory) <= 5)%nat /\
  exists older, chatHistory = older ++ lastN 5 chatHistory.
Proof.
  split; [|split; [rewrite lastN_length; lia | apply lastN_suffix]].
  unfold buildChatPrompt. rewrite lastN_idempotent.
  destruct chatHistory as [|m h]; [reflexivity|].
  destruct (lastN 5 (m :: h)) as [|m' h'] eqn:E; [|reflexivity].
  apply (f_equal (@length Message)) in E. rewrite lastN_length in E.
  simpl in E. lia.
Qed.

(** ** The JSON candidate *)




End GeminiMore.

(* ================================================================== *)
(** * More about the document controller *)
(* ================================================================== *)

Module DocumentsMore.

Import Http Store Documents JSFacts DocumentsFacts.

(** ** Looking documents up *)

Lemma find_fresh (id : jsstring) (docs : list Document) (d : Document) :
  Forall (fun x => _id x <> id) docs -> _id d = id ->
  find (fun x => streq (_id x) id) (docs ++ [d]) = Some d.
Proof.
  intros Hfresh Hd. induction Hfresh as [|x docs Hx _ IH]; simpl.
  - now rewrite Hd, streq_refl.
  - destruct (streq (_id x) id) eqn:E; [|exact IH].
    apply streq_eq in E. contradiction.
Qed.

Lemma find_unique (id : jsstring) (docs : list Document) (d : Document) :
  NoDup (map _id docs) -> In d docs -> _id d = id ->
  find (fun x => streq (_id x) id) docs = Some d.
Proof.
  intros Hnodup Hin Hd. induction docs as [|x docs IH]; [destruct Hin|].
  simpl in *. inversion Hnodup as [|? ? Hx Hrest]; subst.
  destruct Hin as [->|Hin].
  - now rewrite streq_refl.
  - destruct (streq (_id x) (_id d)) eqn:E; [|now apply IH].
    apply streq_eq in E. exfalso. apply Hx. rewrite E. now apply in_map.
Qed.

Lemma find_deleted (id : jsstring) (docs : list Document) :
  find (fun x => streq (_id x) id)
       (filter (fun x => negb (streq (_id x) id)) docs) = None.
Proof.
  induction docs as [|x docs IH]; [reflexivity|]. simpl.
  destruct (streq (_id x) id) eqn:E; simpl; [exact IH|].
  now rewrite E.
Qed.

Lemma filter_absent (id : jsstring) (docs : list Document) :
  ~ In id (map _id docs) ->
  filter (fun x => negb (streq (_id x) id)) docs = docs.
Proof.
  induction docs as [|x docs IH]; [reflexivity|]. simpl. intros Hnot.
  destruct (streq (_id x) id) eqn:E; simpl.
  - apply streq_eq in E. exfalso. apply Hnot. now left.
  - f_equal. apply IH. intros H. apply Hnot. now right.
Qed.

Lemma deleteById_filter (id : jsstring) (docs : list Document) :
  NoDup (map _id docs) ->
  deleteById id docs = filter (fun x => negb (streq (_id x) id)) docs.
Proof.
  induction docs as [|x docs IH]; [reflexivity|]. simpl. intros Hnodup.
  inversion Hnodup as [|? ? Hx Hrest]; subst.
  destruct (streq (_id x) id) eqn:E; simpl.
  - apply streq_eq in E. subst id. symmetry. now apply filter_absent.
  - f_equal. now apply IH.
Qed.

Lemma unlinked_gone (files : list jsstring) (path : jsstring) :
  existsSync (unlinked files path) path = false.
Proof.
  unfold existsSync, unlinked.
  induction files as [|f files IH]; [reflexivity|]. simpl.
  destruct (streq path f) eqn:E; simpl; [exact IH|]. now rewrite E.
Qed.

(** ** The payload of an upload *)

Lemma upload_payload rt orm svc now freshId freshDocumentId req docs up :
  data (body (fst (uploadAndAnalyze rt orm svc now freshId freshDocumentId req docs)))
  = Some up ->
  exists d userPrompt,
    snd (uploadAndAnalyze rt orm svc now freshId freshDocumentId req docs) = docs ++ [d] /\
    prompt req = Some userPrompt /\
    _id d = freshId /\ extractedText d = None /\ Store.userPrompt d = userPrompt /\
    createdAt d = now /\ updatedAt d = now /\
    up = {| up_documentId := _id d;
            up_analysis := analysis d;
            up_quizQuestions := quizQuestions d;
            up_youtubeVideos := youtubeVideos d;
            up_createdAt := createdAt d |}.
Proof.
  unfold uploadAndAnalyze.
  destruct (file_path req) as [imagePath|]; [|discriminate].
  destruct (prompt req) as [[|c userPrompt]|]; try discriminate.
  destruct (negb (Vision.success _)); [discriminate|].
  destruct (str_or _ _) as [ocrText|]; [|discriminate].
  destruct (negb (Gemini.analysis_success _)); [discriminate|].
  destruct (YouTube.getEducationalVideos _ _ _ _ _ _ _ _) as [|youtubeResult];
    [discriminate|].
  destruct (createDocument _ _ _ _ _) as [d|e] eqn:Hsave; [|discriminate].
  cbn. intros [= <-]. exists d, (c :: userPrompt).
  assert (Hdates : createdAt d = now /\ updatedAt d = now).
  { revert Hsave. unfold createDocument.
    destruct (_ || _); [discriminate|].
    destruct (castAnalysis orm _); [discriminate|].
    destruct (castQuestions orm _); [discriminate|].
    destruct (castVideos orm _); [discriminate|].
    intros [= <-]. now split. }
  apply createDocument_fields in Hsave.
  destruct Hsave as (Htext & Hid & _ & Hprompt). tauto.
Qed.

Lemma upload_stores_nothing_without_payload
      rt orm svc now freshId freshDocumentId req docs :
  data (body (fst (uploadAndAnalyze rt orm svc now freshId freshDocumentId req docs)))
  = None ->
  status (fst (uploadAndAnalyze rt orm svc now freshId freshDocumentId req docs)) = 200%Z ->
  False.
Proof.
  unfold uploadAndAnalyze.
  destruct (file_path req) as [imagePath|]; [|discriminate].
  destruct (prompt req) as [[|c userPrompt]|]; try discriminate.
  destruct (negb (Vision.success _)); [discriminate|].
  destruct (str_or _ _) as [ocrText|]; [|discriminate].
  destruct (negb (Gemini.analysis_success _)); [discriminate|].
  destruct (YouTube.getEducationalVideos _ _ _ _ _ _ _ _) as [|youtubeResult];
    [discriminate|].
  destruct (createDocument _ _ _ _ _) as [d|e]; discriminate.
Qed.

Lemma upload_stored rt orm svc now freshId freshDocumentId req docs :
  status (fst (uploadAndAnalyze rt orm svc now freshId freshDocumentId req docs)) = 200%Z ->
  exists d,
    snd (uploadAndAnalyze rt orm svc now freshId freshDocumentId req docs) = docs ++ [d] /\
    _id d = freshId /\ extractedText d = None.
Proof.
  intros Hstatus.
  destruct (data (body (fst (uploadAndAnalyze rt orm svc now freshId freshDocumentId
                                              req docs)))) as [up|] eqn:Hup.
  - destruct (upload_payload _ _ _ _ _ _ _ _ Hup) as (d & _ & Hstore & _ & Hid & Htext & _).
    now exists d.
  - exfalso.
    destruct (upload_stores_nothing_without_payload rt orm svc now freshId
                freshDocumentId req docs Hup Hstatus).
Qed.

(** X13: a document that was uploaded can be read back: when the upload
    answers with a payload and the identifier given to the new document
    is a well-formed one that no stored document has, reading the
    document by that identifier answers 200 with the analysis, the
    questions, the videos and the creation time of the upload's payload,
    and the prompt of the request. *)
Theorem upload_then_get
        (rt : Builtins) (orm : Mongoose) (svc : Services) (now later : Z)
        (freshId freshDocumentId : jsstring) (req : UploadRequest)
        (docs : list Document) (up : UploadData) :
  freshId <> [] -> isObjectId orm freshId = true ->
  Forall (fun d => _id d <> freshId) docs ->
  data (body (fst (uploadAndAnalyze rt orm svc now freshId freshDocumentId req docs)))
  = Some up ->
  exists detail,
    getDocumentById orm later (up_documentId up)
      (snd (uploadAndAnalyze rt orm svc now freshId freshDocumentId req docs))
    = respond 200 (formatResponse later true (lit "Document retrieved successfully")
                                  (Some detail) None) /\
    dt_id detail = freshId /\
    Some (dt_userPrompt detail) = prompt req /\
    dt_analysis detail = up_analysis up /\
    dt_quizQuestions detail = up_quizQuestions up /\
    dt_youtubeVideos detail = up_youtubeVideos up /\
    dt_createdAt detail = up_createdAt up /\
    dt_updatedAt detail = now.
Proof.
  intros Hnonempty Hvalid Hfresh Hup.
  destruct (upload_payload _ _ _ _ _ _ _ _ Hup)
    as (d & userPrompt & Hstore & Hprompt & Hid & _ & Huser & Hcreated & Hupdated & ->).
  rewrite Hstore. cbn [up_documentId up_analysis up_quizQuestions up_youtubeVideos
                       up_createdAt].
  unfold getDocumentById, findById. rewrite Hid.
  destruct freshId as [|c freshId]; [contradiction|]. cbn [is_empty].
  rewrite Hvalid, (find_fresh _ Hfresh Hid).
  eexists. split; [reflexivity|]. cbn.
  rewrite Hprompt, Huser. tauto.
Qed.

Lemma upload_then_get_witness :
  exists detail,
    data (body (getDocumentById exampleMongoose 2000 exampleId storeAfterUpload))
    = Some detail /\
    dt_userPrompt detail = lit "explain cells" /\
    summary (dt_analysis detail)
    = Some (lit "This document contains approximately 2 words. Cell wall.") /\
    dt_createdAt detail = 1000%Z.
Proof.
  assert (Hnonempty : exampleId <> []) by discriminate.
  assert (Hvalid : isObjectId exampleMongoose exampleId = true) by reflexivity.
  destruct (@upload_then_get exampleRuntime exampleMongoose exampleServices 1000 2000
              exampleId (lit "65f1c0ffee65f1c0ffee0002") exampleUpload [] _
              Hnonempty Hvalid (Forall_nil _) eq_refl)
    as (detail & Hget & _ & Huser & Hanalysis & _ & _ & Hcreated & _).
  exists detail. split; [|split; [|split]].
  - exact (f_equal (fun r => data (body r)) Hget).
  - now injection Huser.
  - rewrite Hanalysis. vm_compute. reflexivity.
  - rewrite Hcreated. reflexivity.
Defined.

(** ** Requests that are turned away *)

(** X14: the upload answers 400 exactly when the request has no file or
    no (or an empty) prompt; a missing file is reported first; and a
    request that is turned away stores nothing and carries no payload. *)
Theorem upload_rejects_incomplete_requests
        (rt : Builtins) (orm : Mongoose) (svc : Services) (now : Z)
        (freshId freshDocumentId : jsstring) (req : UploadRequest) (docs : list Document) :
  let result := uploadAndAnalyze rt orm svc now freshId freshDocumentId req docs in
  (status (fst result) = 400%Z <->
   file_path req = None \/ prompt req = None \/ prompt req = Some []) /\
  (file_path req = None ->
   message (body (fst result)) = lit "No image file provided") /\
  (status (fst result) = 400%Z ->
   snd result = docs /\ data (body (fst result)) = None /\
   success (body (fst result)) = false).
Proof.
  unfold uploadAndAnalyze.
  destruct (file_path req) as [imagePath|].
  2:{ cbn. repeat split; auto. }
  destruct (prompt req) as [[|c userPrompt]|].
  1,3: cbn; repeat split; auto; discriminate.
  assert (Hno : ~ (Some imagePath = None \/
                   Some (c :: userPrompt) = None \/ Some (c :: userPrompt) = Some []))
    by (intros [H|[H|H]]; discriminate).
  destruct (negb (Vision.success _)).
  { cbn. repeat split; try discriminate; tauto. }
  destruct (str_or _ _) as [ocrText|].
  2:{ cbn. repeat split; try discriminate; tauto. }
  destruct (negb (Gemini.analysis_success _)).
  { cbn. repeat split; try discriminate; tauto. }
  destruct (YouTube.getEducationalVideos _ _ _ _ _ _ _ _) as [|youtubeResult].
  { cbn. repeat split; try discriminate; tauto. }
  destruct (createDocument _ _ _ _ _) as [d|e];
    cbn; repeat split; try discriminate; tauto.
Qed.

(** X15: an identifier that is not a well-formed ObjectId is answered
    with 400 by the handlers that read, delete, export or chat about a
    document, and they change nothing; quiz regeneration answers the
    same request with 500. *)
Theorem malformed_id_statuses
        (rt : Builtins) (orm : Mongoose) (svc : Services) (now : Z)
        (unlinkable : jsstring -> bool) (id : jsstring)
        (docs : list Document) (chats : list ChatHistory) (files : list jsstring) :
  id <> [] -> isObjectId orm id = false ->
  status (getDocumentById orm now id docs) = 400%Z /\
  deleteDocument orm now unlinkable id docs files
  = (respond 400 (formatResponse now false (lit "Invalid document ID format") None None),
     docs, files) /\
  status (Chats.getChatHistory orm now id docs chats) = 400%Z /\
  Exporting.exportDocument orm now docs id None
  = Exporting.failure now 400 (lit "Invalid document ID format") /\
  regenerateQuestions rt orm svc now id docs
  = (respond 500 (formatResponse now false (lit "Failed to regenerate questions")
                                 None None), docs).
Proof.
  intros Hid Hbad.
  unfold getDocumentById, deleteDocument, Chats.getChatHistory, Exporting.exportDocument,
    regenerateQuestions, findById.
  destruct id as [|c id]; [contradiction|]. cbn [is_empty]. rewrite Hbad.
  repeat split.
Qed.

Lemma malformed_id_statuses_witness :
  status (getDocumentById exampleMongoose 0 (lit "17") twoDocuments) = 400%Z /\
  status (fst (regenerateQuestions exampleRuntime exampleMongoose exampleServices 0
                                   (lit "17") twoDocuments)) = 500%Z.
Proof.
  assert (Hid : lit "17" <> []) by discriminate.
  assert (Hbad : isObjectId exampleMongoose (lit "17") = false) by reflexivity.
  destruct (@malformed_id_statuses exampleRuntime exampleMongoose exampleServices 0
              (fun _ => true) (lit "17") twoDocuments [] [] Hid Hbad)
    as (Hget & _ & _ & _ & Hregenerate).
  split; [exact Hget|]. now rewrite Hregenerate.
Defined.

(** ** Deleting a document *)

(** X16: deleting a stored document (identifiers being unique) removes
    exactly that document and keeps the others in their order, so that
    reading it afterwards answers 404.  The answer is 200, or 500 when
    the image file exists and cannot be removed: the document is gone
    from the store in both cases.  After a 200 the image file is gone,
    and no other file is. *)
Theorem delete_removes_document
        (orm : Mongoose) (now : Z) (unlinkable : jsstring -> bool) (id : jsstring)
        (docs : list Document) (files : list jsstring) (d : Document) :
  id <> [] -> isObjectId orm id = true ->
  NoDup (map _id docs) -> In d docs -> _id d = id ->
  let result := deleteDocument orm now unlinkable id docs files in
  let response := fst (fst result) in
  snd (fst result) = filter (fun x => negb (streq (_id x) id)) docs /\
  status (getDocumentById orm now id (snd (fst result))) = 404%Z /\
  (status response = 200%Z \/ status response = 500%Z) /\
  (status response = 500%Z <->
   existsSync files (originalImagePath d) = true /\
   unlinkable (originalImagePath d) = false) /\
  (status response = 200%Z ->
   existsSync (snd result) (originalImagePath d) = false /\
   forall path, path <> originalImagePath d ->
                existsSync (snd result) path = existsSync files path).
Proof.
  intros Hid Hvalid Hnodup Hin Hd.
  assert (Hget : forall docs',
             docs' = filter (fun x => negb (streq (_id x) id)) docs ->
             status (getDocumentById orm now id docs') = 404%Z).
  { intros docs' ->. unfold getDocumentById, findById.
    destruct id as [|c id]; [contradiction|]. cbn [is_empty].
    now rewrite Hvalid, find_deleted. }
  assert (Hkept : forall path, path <> originalImagePath d ->
            existsSync (unlinked files (originalImagePath d)) path
            = existsSync files path).
  { intros path Hpath. unfold existsSync, unlinked.
    induction files as [|f files IH]; [reflexivity|]. simpl.
    destruct (streq (originalImagePath d) f) eqn:E; simpl.
    - apply streq_eq in E. subst f.
      destruct (streq path (originalImagePath d)) eqn:E'; [|exact IH].
      apply streq_eq in E'. contradiction.
    - now rewrite IH. }
  assert (Hne : is_empty id = false) by (destruct id; [contradiction | reflexivity]).
  unfold deleteDocument, findById.
  rewrite Hne, Hvalid, (@find_unique id docs d Hnodup Hin Hd).
  rewrite (@deleteById_filter id docs Hnodup).
  destruct (existsSync files (originalImagePath d)) eqn:Eexists.
  - destruct (unlinkable (originalImagePath d)) eqn:Eunlink; cbn.
    + split; [reflexivity|]. split; [now apply Hget|]. split; [now left|].
      split; [split; [discriminate | intros [_ H]; discriminate]|].
      intros _. split; [apply unlinked_gone | exact Hkept].
    + split; [reflexivity|]. split; [now apply Hget|]. split; [now right|].
      split; [tauto | discriminate].
  - cbn. split; [reflexivity|]. split; [now apply Hget|]. split; [now left|].
    split; [split; [discriminate | intros [H _]; discriminate]|].
    intros _. split; [exact Eexists | reflexivity].
Qed.

Lemma delete_removes_document_witness :
  map _id (snd (fst (deleteDocument exampleMongoose 0 (fun _ => false)
                       (lit "65f1c0ffee65f1c0ffee0011") twoDocuments
                       [lit "uploads/a.png"])))
  = [lit "65f1c0ffee65f1c0ffee0012"] /\
  status (fst (fst (deleteDocument exampleMongoose 0 (fun _ => false)
                       (lit "65f1c0ffee65f1c0ffee0011") twoDocuments
                       [lit "uploads/a.png"]))) = 500%Z.
Proof.
  assert (Hid : lit "65f1c0ffee65f1c0ffee0011" <> []) by discriminate.
  assert (Hvalid : isObjectId exampleMongoose (lit "65f1c0ffee65f1c0ffee0011") = true)
    by reflexivity.
  assert (Hnodup : NoDup (map _id twoDocuments)).
  { repeat constructor; simpl; intuition discriminate. }
  assert (Hin : In (textDocument (lit "65f1c0ffee65f1c0ffee0011") 10) twoDocuments)
    by now left.
  destruct (@delete_removes_document exampleMongoose 0 (fun _ => false)
              (lit "65f1c0ffee65f1c0ffee0011") twoDocuments [lit "uploads/a.png"]
              _ Hid Hvalid Hnodup Hin eq_refl)
    as (Hstore & _ & _ & Hfailed & _).
  split.
  - rewrite Hstore. reflexivity.
  - apply Hfailed. split; reflexivity.
Defined.

(** ** The order and the pages of a list *)

Lemma skipn_StronglySorted {A : Type} (Q : A -> A -> Prop) (n : nat) (l : list A) :
  StronglySorted Q l -> StronglySorted Q (skipn n l).
Proof.
  revert l. induction n as [|n IH]; intros l H; [exact H|].
  destruct l as [|x l]; [constructor|].
  inversion H; subst. now apply IH.
Qed.

Lemma sorted_keys {A : Type} (key : A -> Z) (l : list A) :
  StronglySorted (fun a b => num_ge (Num (inject_Z (key a))) (Num (inject_Z (key b)))) l ->
  StronglySorted (fun a b => (b <= a)%Z) (map key l).
Proof.
  induction 1 as [|x l _ IH Hall]; simpl; constructor; [exact IH|].
  rewrite Forall_forall in *. intros z Hz.
  apply in_map_iff in Hz as (y & <- & Hy).
  rewrite Zle_Qle. exact (Hall y Hy).
Qed.

Lemma findPage_sorted {A : Type} (key : A -> Z) (skip limit : Z) (l found : list A) :
  findPage key skip limit l = Return found ->
  StronglySorted (fun a b => (b <= a)%Z) (map key found).
Proof.
  unfold findPage. destruct (skip <? 0)%Z; [discriminate|].
  intros [= <-]. apply sorted_keys.
  apply firstn_StronglySorted, skipn_StronglySorted.
  apply (@sort_descending _ (fun d => Num (inject_Z (key d)))).
  apply Forall_forall. intros; discriminate.
Qed.

Lemma summarize_keeps_dates (l : list Document) (summaries : list DocumentSummary) :
  mapTry summarize l = Return summaries ->
  map ds_createdAt summaries = map createdAt l.
Proof.
  revert summaries. induction l as [|d l IH]; simpl; intros summaries.
  - now intros [= <-].
  - unfold summarize at 1. destruct (extractedText d); [|discriminate].
    destruct (mapTry summarize l) as [ys|]; [|discriminate].
    intros [= <-]. simpl. f_equal. now apply IH.
Qed.

(** X17: both lists are newest first: in every payload of the documents
    list the creation times, and in every payload of the chats list the
    times of the last update, are in descending order. *)
Theorem lists_are_newest_first
        (now : Z) (query : ListQuery) (docs : list Document) (stored : list ChatHistory) :
  (forall payload,
      data (body (getAllDocuments now query docs)) = Some payload ->
      StronglySorted (fun a b => (b <= a)%Z) (map ds_createdAt (documents payload))) /\
  (forall payload,
      data (body (Chats.getAllChats now query docs stored)) = Some payload ->
      StronglySorted (fun a b => (b <= a)%Z)
                     (map Chats.lastUpdated (Chats.chats payload))).
Proof.
  unfold getAllDocuments, Chats.getAllChats. split; intros payload.
  - destruct (findPage createdAt _ _ docs) as [found|] eqn:Hfound; [|discriminate].
    destruct (mapTry summarize found) as [summaries|] eqn:Hmap; [|discriminate].
    cbn. intros [= <-]. cbn [documents].
    rewrite (summarize_keeps_dates _ Hmap).
    exact (findPage_sorted _ _ _ _ Hfound).
  - destruct (findPage chat_updatedAt _ _ stored) as [found|] eqn:Hfound; [|discriminate].
    cbn. intros [= <-]. cbn [Chats.chats].
    rewrite map_map. cbn [Chats.summarizeChat Chats.lastUpdated].
    exact (findPage_sorted _ _ _ _ Hfound).
Qed.

Lemma lists_are_newest_first_witness :
  exists payload,
    data (body (getAllDocuments 0 (pageRequest 1 10) twoDocuments)) = Some payload /\
    map ds_createdAt (documents payload) = [20%Z; 10%Z] /\
    StronglySorted (fun a b => (b <= a)%Z) (map ds_createdAt (documents payload)).
Proof.
  eexists. split; [reflexivity|]. split; [reflexivity|].
  destruct (lists_are_newest_first 0 (pageRequest 1 10) twoDocuments []) as (Hdocs & _).
  exact (Hdocs _ eq_refl).
Defined.

Lemma next_page {A : Type} (key : A -> Z) (p l : Z) (items : list A) :
  (1 <= p)%Z -> (1 <= l)%Z ->
  exists found,
    findPage key (p * l) l items = Return found /\
    ((p <? ceil_div (Z.of_nat (length items)) l)%Z = true <-> found <> []).
Proof.
  intros Hp Hl. unfold findPage.
  destruct (Z.ltb_spec (p * l) 0) as [Hneg|_]; [nia|].
  eexists. split; [reflexivity|].
  set (sorted := sort _ items).
  assert (Hlen : length sorted = length items).
  { apply Permutation_length, sort_perm. }
  pose proof (@ceil_div_bounds (Z.of_nat (length items)) l ltac:(lia)) as Hceil.
  rewrite Z.ltb_lt.
  assert (Hnonempty : forall found : list A, found <> [] <-> (0 < length found)%nat).
  { intros [|x found]; simpl; split; try lia; congruence. }
  rewrite Hnonempty, length_firstn, length_skipn, Hlen.
  split; intros H.
  - assert (p * l < Z.of_nat (length items))%Z by nia. lia.
  - assert (p * l < Z.of_nat (length items))%Z by lia. nia.
Qed.

(** X18: for page p >= 1 and limit l >= 1, hasNext tells whether the next
    page has an item: the chats list of page p reports hasNext exactly
    when the chats list of page p + 1 is not empty, and a payload of the
    documents list reports it exactly when the store holds a document
    for page p + 1. *)
Theorem hasNext_iff_next_page
        (now p l : Z) (docs : list Document) (stored : list ChatHistory) :
  (1 <= p)%Z -> (1 <= l)%Z ->
  (exists payload next,
      data (body (Chats.getAllChats now (pageRequest p l) docs stored)) = Some payload /\
      data (body (Chats.getAllChats now (pageRequest (p + 1) l) docs stored)) = Some next /\
      (hasNext (Chats.pagination payload) = true <-> Chats.chats next <> [])) /\
  (forall payload,
      data (body (getAllDocuments now (pageRequest p l) docs)) = Some payload ->
      exists found,
        findPage createdAt (p * l) l docs = Return found /\
        (hasNext (pagination payload) = true <-> found <> [])).
Proof.
  intros Hp Hl.
  unfold Chats.getAllChats, getAllDocuments, pageRequest.
  cbn [page limit].
  rewrite !int_or_positive by lia.
  replace ((p + 1 - 1) * l)%Z with (p * l)%Z by lia.
  destruct (findPage_returns chat_updatedAt stored Hp Hl) as (foundChats & HfoundChats).
  destruct (next_page chat_updatedAt stored Hp Hl) as (nextChats & HnextChats & Hchats).
  destruct (next_page createdAt docs Hp Hl) as (nextDocs & HnextDocs & Hdocs).
  rewrite HfoundChats, HnextChats, HnextDocs. split.
  - eexists. eexists. split; [reflexivity|]. split; [reflexivity|].
    cbn. rewrite Hchats.
    destruct nextChats; simpl; split; congruence.
  - intros payload.
    destruct (findPage createdAt ((p - 1) * l) l docs) as [found|]; [|discriminate].
    destruct (mapTry summarize found) as [summaries|]; [|discriminate].
    cbn. intros [= <-]. exists nextDocs. split; [reflexivity|]. exact Hdocs.
Qed.

Lemma hasNext_iff_next_page_witness :
  exists payload next,
    data (body (getAllDocuments 0 (pageRequest 1 1) twoDocuments)) = Some payload /\
    findPage createdAt (1 * 1) 1 twoDocuments = Return next /\
    hasNext (pagination payload) = true /\ map _id next = [lit "65f1c0ffee65f1c0ffee0011"].
Proof.
  assert (H1 : (1 <= 1)%Z) by lia.
  destruct (@hasNext_iff_next_page 0 1 1 twoDocuments [] H1 H1) as (_ & Hdocs).
  destruct (Hdocs _ eq_refl) as (found & Hfound & Hnext).
  eexists. exists found. split; [reflexivity|]. split; [exact Hfound|].
  assert (Hpage : found = [textDocument (lit "65f1c0ffee65f1c0ffee0011") 10]).
  { vm_compute in Hfound. now injection Hfound. }
  split.
  - apply Hnext. rewrite Hpage. discriminate.
  - rewrite Hpage. reflexivity.
Defined.

End DocumentsMore.

(* ================================================================== *)
(** * More about the chat controller *)
(* ================================================================== *)

Module ChatsMore.

Import Http Store Documents Chats JSFacts DocumentsFacts.

(** The messages of the chat history a lookup found. *)
Definition history (found : option ChatHistory) : list Gemini.Message :=
  match found with
  | Some chat => messages chat
  | None => []
  end.

Definition userTurn (now : Z) (text : jsstring) : Gemini.Message :=
  {| Gemini.role := lit "user"; Gemini.content := text; Gemini.timestamp := DateAt now |}.

Definition assistantTurn (now : Z) (text : jsstring) : Gemini.Message :=
  {| Gemini.role := lit "assistant"; Gemini.content := text;
     Gemini.timestamp := DateAt now |}.

(** ** Saving a chat history and finding it again *)

Section Saving.

Variable documentId : jsstring.
Variable saved : ChatHistory.
Hypothesis saved_document : chat_documentId saved = documentId.

Let about (c : ChatHistory) : bool := streq (chat_documentId c) documentId.
Let put (c : ChatHistory) : ChatHistory :=
  if streq (chat_id c) (chat_id saved) then saved else c.

Lemma about_saved : about saved = true.
Proof. unfold about. rewrite saved_document. apply streq_refl. Qed.

Lemma find_replaced (stored : list ChatHistory) (c : ChatHistory) :
  find about stored = Some c -> chat_id c = chat_id saved ->
  find about (map put stored) = Some saved.
Proof.
  intros Hfind Hid. induction stored as [|x stored IH]; [discriminate|].
  cbn [find map] in *. change (put x) with (if streq (chat_id x) (chat_id saved) then saved else x).
  destruct (streq (chat_id x) (chat_id saved)) eqn:E.
  - now rewrite about_saved.
  - destruct (about x) eqn:Ex; [|now apply IH].
    injection Hfind as ->. rewrite Hid, streq_refl in E. discriminate.
Qed.

Lemma find_overwritten (stored : list ChatHistory) :
  find about stored = None ->
  existsb (fun c => streq (chat_id c) (chat_id saved)) stored = true ->
  find about (map put stored) = Some saved.
Proof.
  induction stored as [|x stored IH]; [discriminate|].
  cbn [find map existsb]. change (put x) with (if streq (chat_id x) (chat_id saved) then saved else x).
  destruct (about x) eqn:Ex; [discriminate|].
  destruct (streq (chat_id x) (chat_id saved)) eqn:E; cbn [orb].
  - intros _ _. now rewrite about_saved.
  - intros Hfind Hexists. rewrite Ex. now apply IH.
Qed.

Lemma find_added (stored : list ChatHistory) :
  find about stored = None -> find about (stored ++ [saved]) = Some saved.
Proof.
  induction stored as [|x stored IH]; cbn [app find].
  - intros _. now rewrite about_saved.
  - destruct (about x); [discriminate | exact IH].
Qed.

(** A chat history that was saved is the one a lookup by its document
    finds, when it is a new one or the one that was found before. *)
Lemma find_saveChat (stored : list ChatHistory) :
  match find about stored with
  | Some c => chat_id c = chat_id saved
  | None => True
  end ->
  find about (saveChat stored saved) = Some saved.
Proof.
  unfold saveChat. destruct (find about stored) as [c|] eqn:Hfind; intros Hid.
  - assert (Hexists : existsb (fun x => streq (chat_id x) (chat_id saved)) stored = true).
    { apply existsb_exists. exists c. split.
      - now apply find_some in Hfind.
      - rewrite Hid. apply streq_refl. }
    rewrite Hexists. now apply find_replaced with c.
  - destruct (existsb _ stored) eqn:Hexists.
    + now apply find_overwritten.
    + now apply find_added.
Qed.

End Saving.

(** A branch of a handler that answers with an error status and leaves
    the chats as they were. *)
Ltac unchanged := left; cbn; repeat split; discriminate.

(** X19: a message either is turned away, with a status other than 200,
    no payload and the chats as they were, or it is answered with 200:
    then the chat history of the document, looked up again, holds the
    messages it held before followed by exactly two more, the message of
    the user and the reply of the assistant that the payload carries, and
    the payload counts two messages more than before. *)
Theorem send_appends_exchange
        (rt : Builtins) (orm : Mongoose) (svc : Services) (now : Z)
        (freshChatId : jsstring) (req : SendRequest)
        (docs : list Document) (stored : list ChatHistory) :
  let result := sendMessage rt orm svc now freshChatId req docs stored in
  (status (fst result) <> 200%Z /\ snd result = stored /\
   data (body (fst result)) = None) \/
  (exists documentId text before payload after,
      sr_documentId req = Some documentId /\ sr_message req = Some text /\
      findChat orm stored documentId = Return before /\
      status (fst result) = 200%Z /\
      data (body (fst result)) = Some payload /\
      findChat orm (snd result) documentId = Return (Some after) /\
      messages after
      = history before ++ [userTurn now text; assistantTurn now (aiResponse payload)] /\
      sd_messageCount payload = (Z.of_nat (length (history before)) + 2)%Z /\
      userMessage payload = text /\
      sd_chatId payload = chat_id after /\
      aiResponse payload <> []).
Proof.
  unfold sendMessage.
  destruct (sr_documentId req) as [[|c id]|]; try unchanged.
  set (documentId := c :: id).
  destruct (sr_message req) as [text|]; [|unchanged].
  destruct (is_empty (trim text)); [unchanged|].
  destruct (findById orm docs documentId) as [[document|]|e];
    [|unchanged|destruct e; unchanged].
  destruct (findChat orm stored documentId) as [before|e] eqn:Hbefore;
    [|destruct e; unchanged].
  destruct (negb (Gemini.answer_success _)); [unchanged|].
  remember (Gemini.answer _) as reply eqn:Hreply. clear Hreply.
  destruct (is_empty reply) eqn:Hanswer; [unchanged|].
  right. exists documentId, text, before.
  eexists. eexists.
  split; [reflexivity|]. split; [reflexivity|]. split; [exact Hbefore|].
  split; [reflexivity|]. split; [reflexivity|].
  cbn [fst snd respond formatResponse body data aiResponse userMessage sd_chatId
       sd_messageCount].
  unfold findChat in *.
  destruct (isObjectId orm documentId); [|discriminate].
  injection Hbefore as Hbefore.
  split.
  - f_equal. apply find_saveChat.
    + cbn. rewrite <- Hbefore.
      destruct (find _ stored) as [chat|] eqn:Hfind; [|reflexivity].
      apply find_some in Hfind. destruct Hfind as [_ Hfind].
      now apply streq_eq in Hfind.
    + rewrite <- Hbefore. now destruct (find _ stored).
  - cbn. split; [|split; [|split; [reflexivity|]]].
    + now destruct before.
    + rewrite length_app. simpl. destruct before; simpl; lia.
    + split; [reflexivity|].
      intros Hempty. rewrite Hempty in Hanswer. discriminate.
Qed.

(** ** What the assistant is shown of the conversation *)

Lemma lastN_lastN {A : Type} (m n : nat) (l : list A) :
  (m <= n)%nat -> Gemini.lastN m (Gemini.lastN n l) = Gemini.lastN m l.
Proof.
  intros Hmn. unfold Gemini.lastN.
  rewrite length_skipn, skipn_skipn. f_equal. lia.
Qed.

Lemma lastN_nil {A : Type} (n : nat) (l : list A) :
  (0 < n)%nat -> Gemini.lastN n l = [] -> l = [].
Proof.
  intros Hn H. apply (f_equal (@length A)) in H.
  unfold Gemini.lastN in H. rewrite length_skipn in H.
  destruct l; [reflexivity | cbn [length] in H; lia].
Qed.

Lemma prompt_of_last_five (toUpperCase : jsstring -> jsstring)
      (question content : jsstring) (h1 h2 : list Gemini.Message) :
  Gemini.lastN 5 h1 = Gemini.lastN 5 h2 ->
  Gemini.buildChatPrompt toUpperCase question content h1
  = Gemini.buildChatPrompt toUpperCase question content h2.
Proof.
  intros H. unfold Gemini.buildChatPrompt. rewrite <- H.
  destruct h1 as [|m1 h1], h2 as [|m2 h2]; try reflexivity.
  - symmetry in H. apply lastN_nil in H; [discriminate | lia].
  - apply lastN_nil in H; [discriminate | lia].
Qed.

Lemma answer_of_last_five (toUpperCase : jsstring -> jsstring) (svc : Gemini.Service)
      (question content : jsstring) (h1 h2 : list Gemini.Message) :
  Gemini.lastN 5 h1 = Gemini.lastN 5 h2 ->
  Gemini.answerQuestion toUpperCase svc question content (Gemini.lastN 10 h1)
  = Gemini.answerQuestion toUpperCase svc question content (Gemini.lastN 10 h2).
Proof.
  intros H. unfold Gemini.answerQuestion.
  destruct svc as [model|]; [|reflexivity].
  rewrite (@prompt_of_last_five toUpperCase question content
             (Gemini.lastN 10 h1) (Gemini.lastN 10 h2)); [reflexivity|].
  rewrite !lastN_lastN by lia. exact H.
Qed.

(** X20: the controller hands the ten most recent messages to the
    assistant, of which the prompt reads five: the status and the reply
    to a message are the same for two stores in which the conversations
    about the document agree on their last five messages. *)
Theorem send_reads_last_five
        (rt : Builtins) (orm : Mongoose) (svc : Services) (now : Z)
        (freshChatId : jsstring) (req : SendRequest) (docs : list Document)
        (stored1 stored2 : list ChatHistory) (documentId : jsstring) :
  sr_documentId req = Some documentId ->
  Gemini.lastN 5 (history (find (fun c => streq (chat_documentId c) documentId) stored1))
  = Gemini.lastN 5 (history (find (fun c => streq (chat_documentId c) documentId) stored2)) ->
  let r1 := fst (sendMessage rt orm svc now freshChatId req docs stored1) in
  let r2 := fst (sendMessage rt orm svc now freshChatId req docs stored2) in
  status r1 = status r2 /\
  option_map aiResponse (data (body r1)) = option_map aiResponse (data (body r2)).
Proof.
  intros Hreq Hlast. unfold sendMessage. rewrite Hreq.
  destruct documentId as [|c id]; [now split|].
  destruct (sr_message req) as [text|]; [|now split].
  destruct (is_empty (trim text)); [now split|].
  destruct (findById orm docs (c :: id)) as [[document|]|e]; [|now split|now split].
  unfold findChat. destruct (isObjectId orm (c :: id)); [|now split].
  set (fresh := {| chat_id := freshChatId; chat_documentId := c :: id; messages := [];
                   chat_createdAt := now; chat_updatedAt := now |}).
  assert (Hmessages : forall found,
             messages (match found with Some chat => chat | None => fresh end)
             = history found) by (now intros [chat|]).
  rewrite !Hmessages.
  rewrite (@answer_of_last_five (toUpperCase rt) (gemini svc) text
             (documentContent document) _ _ Hlast).
  destruct (negb (Gemini.answer_success _)); [now split|].
  remember (Gemini.answer _) as reply eqn:Hreply. clear Hreply.
  destruct (is_empty reply); now split.
Qed.

Definition conversation (id : jsstring) (turns : list jsstring) : list ChatHistory :=
  [ {| chat_id := lit "75f1c0ffee65f1c0ffee0001";
       chat_documentId := id;
       messages := map (userTurn 5) turns;
       chat_createdAt := 5; chat_updatedAt := 5 |} ].

(** A provider that repeats the prompt it is given. *)
Definition echoServices : Services :=
  {| vision := None;
     gemini := Some {| Gemini.generateContent := fun prompt => Resolved prompt |};
     youtube := YouTubeFacts.volcano_api |}.

Definition question_about (id text : jsstring) : SendRequest :=
  {| sr_documentId := Some id; sr_message := Some text |}.

Lemma send_reads_last_five_witness :
  option_map aiResponse
    (data (body (fst (sendMessage exampleRuntime exampleMongoose echoServices 9
                        (lit "75f1c0ffee65f1c0ffee0002")
                        (question_about (lit "65f1c0ffee65f1c0ffee0011") (lit "why"))
                        twoDocuments
                        (conversation (lit "65f1c0ffee65f1c0ffee0011")
                           [lit "a"; lit "b"; lit "c"; lit "d"; lit "e"; lit "f"])))))
  = option_map aiResponse
    (data (body (fst (sendMessage exampleRuntime exampleMongoose echoServices 9
                        (lit "75f1c0ffee65f1c0ffee0002")
                        (question_about (lit "65f1c0ffee65f1c0ffee0011") (lit "why"))
                        twoDocuments
                        (conversation (lit "65f1c0ffee65f1c0ffee0011")
                           [lit "b"; lit "c"; lit "d"; lit "e"; lit "f"]))))).
Proof.
  apply (@send_reads_last_five exampleRuntime exampleMongoose echoServices 9
           (lit "75f1c0ffee65f1c0ffee0002")
           (question_about (lit "65f1c0ffee65f1c0ffee0011") (lit "why"))
           twoDocuments _ _ (lit "65f1c0ffee65f1c0ffee0011")).
  - reflexivity.
  - vm_compute. reflexivity.
Defined.

(** ** Replies that are not stored *)

(** X21: a message is never answered with the response
    "Failed to generate response": the assistant reports success whatever
    the provider does. *)
Theorem send_never_reports_generation_failure
        (rt : Builtins) (orm : Mongoose) (svc : Services) (now : Z)
        (freshChatId : jsstring) (req : SendRequest)
        (docs : list Document) (stored : list ChatHistory) :
  message (body (fst (sendMessage rt orm svc now freshChatId req docs stored)))
  <> lit "Failed to generate response".
Proof.
  unfold sendMessage.
  destruct (sr_documentId req) as [[|c id]|]; try discriminate.
  destruct (sr_message req) as [text|]; [|discriminate].
  destruct (is_empty (trim text)); [discriminate|].
  destruct (findById orm docs (c :: id)) as [[document|]|e];
    [|discriminate|destruct e; discriminate].
  destruct (findChat orm stored (c :: id)) as [before|e]; [|destruct e; discriminate].
  rewrite GeminiFacts.answerQuestion_success. cbn [negb].
  destruct (is_empty (Gemini.answer _)); discriminate.
Qed.

(** X22: when the provider replies with nothing but white space to a
    well-formed message about a stored document, the reply is empty
    after trimming, saving the conversation fails on the required
    content, and the message is answered with 500 and the validation
    error; the chats stay as they were. *)
Theorem send_blank_reply_is_not_stored
        (rt : Builtins) (orm : Mongoose) (svc : Services) (now : Z)
        (freshChatId : jsstring) (req : SendRequest)
        (docs : list Document) (stored : list ChatHistory)
        (documentId text : jsstring) (document : Document) (model : Gemini.Model) :
  sr_documentId req = Some documentId -> documentId <> [] ->
  sr_message req = Some text -> is_empty (trim text) = false ->
  findById orm docs documentId = Return (Some document) ->
  gemini svc = Some model ->
  (forall prompt, exists reply,
      Gemini.generateContent model prompt = Resolved reply /\
      Forall (fun c => is_space c = true) reply) ->
  sendMessage rt orm svc now freshChatId req docs stored
  = (respond 500 (formatResponse now false (lit "Failed to send message") None
                                 (Some ValidationError)), stored).
Proof.
  intros Hid Hnonempty Htext Hblank Hdoc Hmodel Hreply.
  assert (Htrim : forall reply, Forall (fun c => is_space c = true) reply ->
                                trim reply = []).
  { intros reply Hall. unfold trim, trimStart, trimEnd.
    assert (Hdrop : forall s, Forall (fun c => is_space c = true) s ->
                              dropWhile is_space s = []).
    { induction 1 as [|c s Hc _ IH]; [reflexivity|]. simpl. now rewrite Hc. }
    now rewrite (Hdrop reply Hall). }
  unfold sendMessage. rewrite Hid, Htext, Hblank.
  destruct documentId as [|c id]; [contradiction|].
  rewrite Hdoc.
  assert (Hvalid : isObjectId orm (c :: id) = true).
  { unfold findById in Hdoc. now destruct (isObjectId orm (c :: id)). }
  unfold findChat. rewrite Hvalid.
  unfold Gemini.answerQuestion. rewrite Hmodel.
  destruct (Hreply (Gemini.buildChatPrompt (toUpperCase rt) text
                      (documentContent document)
                      (Gemini.lastN 10
                         (messages
                            match find (fun c0 => streq (chat_documentId c0) (c :: id))
                                       stored with
                            | Some c0 => c0
                            | None =>
                                {| chat_id := freshChatId;
                                   chat_documentId := c :: id;
                                   messages := [];
                                   chat_createdAt := now;
                                   chat_updatedAt := now |}
                            end))))
    as (reply & Hgenerated & Hspaces).
  rewrite Hgenerated. cbn [Gemini.answer_success Gemini.answer negb].
  rewrite (Htrim reply Hspaces). reflexivity.
Qed.

(** A provider that replies with two spaces. *)
Definition blankServices : Services :=
  {| vision := None;
     gemini := Some {| Gemini.generateContent := fun _ => Resolved (lit "  ") |};
     youtube := YouTubeFacts.volcano_api |}.

Lemma send_blank_reply_is_not_stored_witness :
  status (fst (sendMessage exampleRuntime exampleMongoose blankServices 9
                 (lit "75f1c0ffee65f1c0ffee0002")
                 (question_about (lit "65f1c0ffee65f1c0ffee0011") (lit "why"))
                 twoDocuments [])) = 500%Z /\
  snd (sendMessage exampleRuntime exampleMongoose blankServices 9
         (lit "75f1c0ffee65f1c0ffee0002")
         (question_about (lit "65f1c0ffee65f1c0ffee0011") (lit "why"))
         twoDocuments []) = [].
Proof.
  assert (Hnonempty : lit "65f1c0ffee65f1c0ffee0011" <> []) by discriminate.
  assert (Hblank : is_empty (trim (lit "why")) = false) by reflexivity.
  assert (Hreply : forall prompt : jsstring, exists reply,
             Gemini.generateContent
               {| Gemini.generateContent := fun _ => Resolved (lit "  ") |} prompt
             = Resolved reply /\
             Forall (fun c => is_space c = true) reply).
  { intros prompt. exists (lit "  "). split; [reflexivity|].
    repeat constructor. }
  rewrite (@send_blank_reply_is_not_stored exampleRuntime exampleMongoose blankServices 9
             (lit "75f1c0ffee65f1c0ffee0002")
             (question_about (lit "65f1c0ffee65f1c0ffee0011") (lit "why"))
             twoDocuments [] (lit "65f1c0ffee65f1c0ffee0011") (lit "why")
             (textDocument (lit "65f1c0ffee65f1c0ffee0011") 10) _
             eq_refl Hnonempty eq_refl Hblank eq_refl eq_refl Hreply).
  split; reflexivity.
Defined.

(** ** Clearing a conversation *)

(** X23: clearing either is turned away, with a status other than 200
    and the chats as they were, or answers 200: then the history read
    next has no message and counts none; and when the document had no
    conversation, clearing changes nothing. *)
Theorem clear_then_history_is_empty
        (orm : Mongoose) (now later : Z) (documentId : jsstring)
        (docs : list Document) (stored : list ChatHistory) :
  let result := clearChatHistory orm now documentId docs stored in
  (status (fst result) <> 200%Z /\ snd result = stored) \/
  (status (fst result) = 200%Z /\
   (findChat orm stored documentId = Return None -> snd result = stored) /\
   exists payload,
     status (getChatHistory orm later documentId docs (snd result)) = 200%Z /\
     data (body (getChatHistory orm later documentId docs (snd result))) = Some payload /\
     hd_messages payload = [] /\ totalMessages payload = 0%Z).
Proof.
  unfold clearChatHistory, getChatHistory.
  destruct (is_empty documentId); [left; split; [discriminate | reflexivity]|].
  destruct (findById orm docs documentId) as [[document|]|e].
  2: left; split; [discriminate | reflexivity].
  2: destruct e; left; split; (discriminate || reflexivity).
  unfold findChat. destruct (isObjectId orm documentId).
  2: left; split; [discriminate | reflexivity].
  right. split; [reflexivity|].
  destruct (find _ stored) as [chat|] eqn:Hfind; cbn [fst snd].
  - split; [discriminate|].
    rewrite find_saveChat.
    + eexists. split; [reflexivity|]. split; [reflexivity|]. split; reflexivity.
    + cbn. apply find_some in Hfind. destruct Hfind as [_ Hfind].
      now apply streq_eq in Hfind.
    + rewrite Hfind. reflexivity.
  - split; [reflexivity|]. rewrite Hfind.
    eexists. split; [reflexivity|]. split; [reflexivity|]. split; reflexivity.
Qed.

(** ** The context of a document *)

Lemma dropWhile_snoc (p : N -> bool) (s : jsstring) (x : N) :
  dropWhile p (s ++ [x])
  = match dropWhile p s with
    | [] => if p x then [] else [x]
    | r => r ++ [x]
    end.
Proof.
  induction s as [|c s IH]; simpl; [reflexivity|].
  destruct (p c); [exact IH | reflexivity].
Qed.

Lemma trimEnd_cons (x : N) (s : jsstring) :
  trimEnd (x :: s)
  = match trimEnd s with
    | [] => if is_space x then [] else [x]
    | r => x :: r
    end.
Proof.
  unfold trimEnd. cbn [rev]. rewrite dropWhile_snoc.
  destruct (dropWhile is_space (rev s)) as [|c r]; cbn [rev].
  - destruct (is_space x); reflexivity.
  - rewrite rev_app_distr. cbn [rev app].
    destruct (rev r ++ [c]) eqn:E; [|reflexivity].
    now apply app_eq_nil in E.
Qed.

(** Trimming at the end keeps a prefix that ends in something other
    than white space. *)
Lemma trimEnd_keeps_prefix (pre : jsstring) (z : N) (s : jsstring) :
  is_space z = false ->
  exists rest, trimEnd (pre ++ z :: s) = pre ++ z :: rest.
Proof.
  intros Hz. induction pre as [|x pre (rest & IH)]; cbn [app]; rewrite trimEnd_cons.
  - rewrite Hz. destruct (trimEnd s) as [|c r]; eexists; reflexivity.
  - rewrite IH. destruct (pre ++ z :: rest) eqn:E.
    + now apply app_eq_nil in E.
    + rewrite <- E. now exists rest.
Qed.

(** The context of a chat about a document without extractedText begins
    with the word undefined where the text should be. *)
Lemma documentContent_undefined (d : Document) :
  extractedText d = None ->
  exists rest, documentContent d = lit "Original Text: undefined" ++ rest.
Proof.
  intros Htext. unfold documentContent. rewrite Htext. cbn [tpl].
  set (tail := [LF; LF] ++ lit "Analysis Summary: " ++ _).
  change ([LF] ++ lit "Original Text: " ++ lit "undefined" ++ tail)
    with (LF :: 79%N :: (lit "riginal Text: undefine" ++ 100%N :: tail)).
  unfold trim, trimStart. cbn [dropWhile].
  change (is_space LF) with true. change (is_space 79) with false. cbv iota.
  change (LF :: 79%N :: lit "riginal Text: undefine" ++ 100%N :: tail)
    with (LF :: (lit "Original Text: undefine" ++ 100%N :: tail)).
  destruct (@trimEnd_keeps_prefix (lit "Original Text: undefine") 100%N tail eq_refl)
    as (rest & Hrest).
  exists rest.
  change (79%N :: lit "riginal Text: undefine" ++ 100%N :: tail)
    with (lit "Original Text: undefine" ++ 100%N :: tail).
  rewrite Hrest.
  change (lit "Original Text: undefined" ++ rest)
    with (lit "Original Text: undefine" ++ 100%N :: rest).
  reflexivity.
Qed.

(** X24: the context of a document the upload pipeline created cannot be
    read: when an upload answers 200 and the identifier given to the new
    document is a well-formed one that no stored document has, the
    context handler answers 500 for it; and a chat about that document
    is given a context that begins with "Original Text: undefined". *)
Theorem context_fails_for_uploaded_documents
        (rt : Builtins) (orm : Mongoose) (svc : Services) (now later : Z)
        (freshId freshDocumentId : jsstring) (req : UploadRequest)
        (docs : list Document) :
  freshId <> [] -> isObjectId orm freshId = true ->
  Forall (fun d => _id d <> freshId) docs ->
  status (fst (uploadAndAnalyze rt orm svc now freshId freshDocumentId req docs)) = 200%Z ->
  let store := snd (uploadAndAnalyze rt orm svc now freshId freshDocumentId req docs) in
  getDocumentContext orm later freshId store
  = respond 500 (formatResponse later false (lit "Failed to retrieve document context")
                                None None) /\
  exists d rest,
    findById orm store freshId = Return (Some d) /\
    documentContent d = lit "Original Text: undefined" ++ rest.
Proof.
  intros Hnonempty Hvalid Hfresh Hstatus.
  destruct (DocumentsMore.upload_stored _ _ _ _ _ _ _ _ Hstatus)
    as (d & Hstore & Hid & Htext).
  cbv zeta. rewrite Hstore.
  assert (Hfind : findById orm (docs ++ [d]) freshId = Return (Some d)).
  { unfold findById. now rewrite Hvalid, (DocumentsMore.find_fresh _ Hfresh Hid). }
  unfold getDocumentContext.
  destruct freshId as [|c id] eqn:E; [contradiction|]. cbn [is_empty].
  rewrite Hfind, Htext. split; [reflexivity|].
  destruct (documentContent_undefined d Htext) as (rest & Hrest).
  now exists d, rest.
Qed.

Lemma context_fails_for_uploaded_documents_witness :
  status (getDocumentContext exampleMongoose 2000 exampleId storeAfterUpload) = 500%Z.
Proof.
  assert (Hnonempty : exampleId <> []) by discriminate.
  assert (Hvalid : isObjectId exampleMongoose exampleId = true) by reflexivity.
  assert (Hstatus : status (fst (uploadAndAnalyze exampleRuntime exampleMongoose
                                   exampleServices 1000 exampleId
                                   (lit "65f1c0ffee65f1c0ffee0002") exampleUpload []))
                    = 200%Z) by (vm_compute; reflexivity).
  destruct (@context_fails_for_uploaded_documents exampleRuntime exampleMongoose
              exampleServices 1000 2000 exampleId (lit "65f1c0ffee65f1c0ffee0002")
              exampleUpload [] Hnonempty Hvalid (Forall_nil _) Hstatus)
    as (Hcontext & _).
  unfold storeAfterUpload. now rewrite Hcontext.
Defined.

End ChatsMore.

(* ================================================================== *)
(** * More about the export controller *)
(* ================================================================== *)

Module ExportMore.

Import Http Store Pdf Exporting JSFacts DocumentsFacts.

(** ** The quiz export and the export options *)

(** X25: the quiz export sends a PDF exactly when the export options of
    the same document report the quiz as available. *)
Theorem quiz_export_iff_available
        (orm : Mongoose) (now : Z) (docs : list Document) (chats : list ChatHistory)
        (documentId : jsstring) :
  (exists name ops, exportQuiz orm now docs documentId = SentPdf name ops) <->
  (exists options,
      data (body (getExportOptions orm now docs chats documentId)) = Some options /\
      available (quiz options) = true).
Proof.
  unfold exportQuiz, getExportOptions, findById, findChat.
  destruct (is_empty documentId).
  { split; [intros (name & ops & H) | intros (o & H & _)]; discriminate. }
  destruct (isObjectId orm documentId).
  2:{ split; [intros (name & ops & H) | intros (o & H & _)]; discriminate. }
  destruct (find _ docs) as [document|].
  2:{ split; [intros (name & ops & H) | intros (o & H & _)]; discriminate. }
  destruct (quizQuestions document) as [|q questions] eqn:Hquiz.
  - split; [intros (name & ops & H); discriminate|].
    intros (o & H & Ha). cbn in H. injection H as <-.
    cbn in Ha. discriminate.
  - split; intros _.
    + eexists. split; reflexivity.
    + eexists. eexists. reflexivity.
Qed.

(** ** What the summary and the notes render *)

(** The body of a summary: the text, the summary, the key points and the
    concepts, each when present. *)
Definition summaryContent (text summary : option jsstring)
           (keyPoints concepts : list jsstring) : list Op :=
  [FontSize 12; helvetica]
  ++ (if present text then [Text (tpl text) NoOptions; MoveDown (15 # 10)] else [])
  ++ (if present summary then
        [FontSize 14; helveticaBold; Text (lit "Summary:") NotContinued;
         FontSize 12; helvetica; Text (tpl summary) NoOptions; MoveDown 1]
      else [])
  ++ bulletList (lit "Key Points:") keyPoints
  ++ bulletList (lit "Concepts:") concepts.

Lemma summary_content (d : Document) :
  addContinuousContent d (lit "summary")
  = summaryContent (extractedText d) (summary (analysis d))
                   (keyPoints (analysis d)) (concepts (analysis d)).
Proof.
  unfold addContinuousContent, summaryContent.
  change (streq (lit "summary") (lit "complete")) with false.
  change (streq (lit "summary") (lit "summary")) with true.
  change (streq (lit "summary") (lit "quiz")) with false.
  cbn [orb andb]. rewrite andb_false_r.
  now rewrite !app_nil_r.
Qed.

(** X26: the summary and the notes of a stored document are the same
    PDF but for the title and the file name, and they render nothing
    but the text, the summary, the key points and the concepts: two
    documents that agree on these four get the same content, whatever
    their questions, videos, explanation and prompt. *)
Theorem summary_and_notes_share_content
        (orm : Mongoose) (now : Z) (docs1 docs2 : list Document)
        (id : jsstring) (d1 d2 : Document) :
  id <> [] ->
  findById orm docs1 id = Return (Some d1) ->
  findById orm docs2 id = Return (Some d2) ->
  extractedText d1 = extractedText d2 ->
  summary (analysis d1) = summary (analysis d2) ->
  keyPoints (analysis d1) = keyPoints (analysis d2) ->
  concepts (analysis d1) = concepts (analysis d2) ->
  exists content,
    exportSummary orm now docs1 id
    = SentPdf (pdfName (lit "summary-") id now)
              (addHeader (lit "Study Summary") ++ content) /\
    exportNotes orm now docs1 id
    = SentPdf (pdfName (lit "notes-") id now)
              (addHeader (lit "Study Notes") ++ content) /\
    exportSummary orm now docs2 id
    = SentPdf (pdfName (lit "summary-") id now)
              (addHeader (lit "Study Summary") ++ content) /\
    exportNotes orm now docs2 id
    = SentPdf (pdfName (lit "notes-") id now)
              (addHeader (lit "Study Notes") ++ content).
Proof.
  intros Hid Hd1 Hd2 Htext Hsummary Hpoints Hconcepts.
  assert (Hne : is_empty id = false) by (destruct id; [contradiction | reflexivity]).
  exists (summaryContent (extractedText d1) (summary (analysis d1))
                         (keyPoints (analysis d1)) (concepts (analysis d1))).
  unfold exportSummary, exportNotes. rewrite Hne, Hd1, Hd2.
  change (generatePDF {| document := ?d; chatHistory := None;
                         exportType := lit "summary" |})
    with (addHeader (lit "Study Summary") ++ addContinuousContent d (lit "summary")).
  change (generatePDF {| document := ?d; chatHistory := None;
                         exportType := lit "notes" |})
    with (addHeader (lit "Study Notes") ++ addContinuousContent d (lit "summary")).
  rewrite !summary_content.
  rewrite <- Htext, <- Hsummary, <- Hpoints, <- Hconcepts.
  repeat split.
Qed.

(** A document with the identifier, the text and the summary of the
    first of [twoDocuments], and with a question, an explanation and a
    prompt of its own. *)
Definition quizzedDocument : Document :=
  {| _id := lit "65f1c0ffee65f1c0ffee0011";
     documentId := lit "65f1c0ffee65f1c0ffee0011";
     originalImagePath := lit "uploads/b.png";
     extractedText := Some (lit "Cell wall");
     userPrompt := lit "quiz me";
     analysis := {| summary := Some (lit "Cells");
                    explanation := Some (lit "Cells have walls.");
                    keyPoints := []; concepts := [] |};
     quizQuestions :=
       [ {| q_type := lit "short_answer";
            question := lit "What surrounds a plant cell?";
            options := [];
            correctAnswer := Some (lit "A cell wall");
            q_explanation := None |} ];
     youtubeVideos := [];
     createdAt := 30; updatedAt := 30 |}.

Lemma summary_and_notes_share_content_witness :
  exportSummary exampleMongoose 0 twoDocuments (lit "65f1c0ffee65f1c0ffee0011")
  = exportSummary exampleMongoose 0 [quizzedDocument] (lit "65f1c0ffee65f1c0ffee0011") /\
  exportNotes exampleMongoose 0 twoDocuments (lit "65f1c0ffee65f1c0ffee0011")
  = exportNotes exampleMongoose 0 [quizzedDocument] (lit "65f1c0ffee65f1c0ffee0011").
Proof.
  assert (Hid : lit "65f1c0ffee65f1c0ffee0011" <> []) by discriminate.
  destruct (@summary_and_notes_share_content exampleMongoose 0 twoDocuments
              [quizzedDocument] (lit "65f1c0ffee65f1c0ffee0011")
              (textDocument (lit "65f1c0ffee65f1c0ffee0011") 10) quizzedDocument
              Hid eq_refl eq_refl eq_refl eq_refl eq_refl eq_refl)
    as (content & Hs1 & Hn1 & Hs2 & Hn2).
  split.
  - now rewrite Hs1, Hs2.
  - now rewrite Hn1, Hn2.
Defined.

(** ** The type of the general export *)

Lemma streq_neq (a b : jsstring) : a <> b -> streq a b = false.
Proof.
  intros H. destruct (streq a b) eqn:E; [|reflexivity].
  apply streq_eq in E. contradiction.
Qed.

(** X27: the general export of a stored document always sends a PDF.
    With the type summary or notes it is the PDF of the summary or the
    notes export.  With the type quiz it is the PDF of the quiz export
    when the document has questions; when it has none, the general
    export sends a PDF with the title alone where the quiz export
    answers 404.  A missing or empty type, and every type other than
    summary, quiz and notes, gives the complete material. *)
Theorem export_type_selects_rendering
        (orm : Mongoose) (now : Z) (docs : list Document)
        (id : jsstring) (type : option jsstring) (d : Document) :
  id <> [] -> findById orm docs id = Return (Some d) ->
  exists ops,
    exportDocument orm now docs id type
    = SentPdf (pdfName (lit "study-material-") id now) ops /\
    (type = Some (lit "summary") ->
     exportSummary orm now docs id = SentPdf (pdfName (lit "summary-") id now) ops) /\
    (type = Some (lit "notes") ->
     exportNotes orm now docs id = SentPdf (pdfName (lit "notes-") id now) ops) /\
    (type = Some (lit "quiz") ->
     match quizQuestions d with
     | _ :: _ => exportQuiz orm now docs id = SentPdf (pdfName (lit "quiz-") id now) ops
     | [] =>
         ops = addHeader (lit "Quiz Questions") ++ [FontSize 12; helvetica] /\
         exportQuiz orm now docs id
         = failure now 404 (lit "No quiz questions found for this document")
     end) /\
    (type <> Some (lit "summary") -> type <> Some (lit "notes") ->
     type <> Some (lit "quiz") ->
     ops = addHeader (lit "Study Material") ++ addContinuousContent d (lit "complete")).
Proof.
  intros Hid Hd.
  assert (Hne : is_empty id = false) by (destruct id; [contradiction | reflexivity]).
  unfold exportDocument, exportSummary, exportNotes, exportQuiz.
  rewrite Hne, Hd. eexists. split; [reflexivity|].
  split; [|split; [|split]].
  - intros ->. reflexivity.
  - intros ->. reflexivity.
  - intros ->. destruct (quizQuestions d) as [|q questions] eqn:Hquiz.
    + split; [|reflexivity].
      change (generatePDF {| document := d; chatHistory := None;
                             exportType := lit "quiz" |})
        with (addHeader (lit "Quiz Questions") ++ addContinuousContent d (lit "quiz")).
      apply (f_equal (app (addHeader (lit "Quiz Questions")))).
      cbn [document]. unfold addContinuousContent. rewrite Hquiz.
      change (streq (lit "quiz") (lit "complete")) with false.
      change (streq (lit "quiz") (lit "summary")) with false.
      change (streq (lit "quiz") (lit "quiz")) with true.
      reflexivity.
    + reflexivity.
  - intros Hsummary Hnotes Hquiz.
    destruct type as [[|c t]|]; try reflexivity.
    unfold generatePDF. cbn [exportType].
    destruct (streq (c :: t) (lit "complete")); [reflexivity|].
    rewrite (@streq_neq (c :: t) (lit "summary")) by congruence.
    rewrite (@streq_neq (c :: t) (lit "quiz")) by congruence.
    rewrite (@streq_neq (c :: t) (lit "notes")) by congruence.
    reflexivity.
Qed.

Lemma export_type_selects_rendering_witness :
  exists ops,
    exportDocument exampleMongoose 0 twoDocuments (lit "65f1c0ffee65f1c0ffee0011")
                   (Some (lit "quiz"))
    = SentPdf (lit "study-material-65f1c0ffee65f1c0ffee0011-0.pdf") ops /\
    ops = addHeader (lit "Quiz Questions") ++ [FontSize 12; helvetica] /\
    exportQuiz exampleMongoose 0 twoDocuments (lit "65f1c0ffee65f1c0ffee0011")
    = failure 0 404 (lit "No quiz questions found for this document").
Proof.
  assert (Hid : lit "65f1c0ffee65f1c0ffee0011" <> []) by discriminate.
  destruct (@export_type_selects_rendering exampleMongoose 0 twoDocuments
              (lit "65f1c0ffee65f1c0ffee0011") (Some (lit "quiz"))
              (textDocument (lit "65f1c0ffee65f1c0ffee0011") 10) Hid eq_refl)
    as (ops & Hsent & _ & _ & Hquiz & _).
  destruct (Hquiz eq_refl) as (Hops & H404).
  exists ops. split; [|split; assumption].
  rewrite Hsent. reflexivity.
Defined.

End ExportMore.

(* ================================================================== *)
(** * The envelope of the JSON handlers *)
(* ================================================================== *)

Module ApiMore.

Import Http Store Documents Chats Exporting JSFacts.

(** A response whose status, success flag, payload and error agree. *)
Definition consistent {D : Type} (r : Response D) : Prop :=
  (success (body r) = true <-> status r = 200%Z) /\
  (data (body r) <> None -> status r = 200%Z) /\
  (error (body r) <> None -> status r = 500%Z) /\
  (status r = 200%Z \/ status r = 400%Z \/ status r = 404%Z \/ status r = 500%Z).

Ltac settle :=
  cbn; unfold consistent; cbn;
  repeat split; intros; try discriminate; try reflexivity; try congruence; tauto.

(** X28: every handler that answers with JSON sends success = true
    exactly with the status 200, a payload only with 200, the message of
    a caught error only with 500, and no status other than 200, 400, 404
    and 500. *)
Theorem responses_are_consistent
        (rt : Builtins) (orm : Mongoose) (svc : Services) (now : Z)
        (docs : list Document) (stored : list ChatHistory) (id : jsstring) :
  (forall freshId freshDocumentId req,
      consistent (fst (uploadAndAnalyze rt orm svc now freshId freshDocumentId req docs))) /\
  (forall query, consistent (getAllDocuments now query docs)) /\
  consistent (getDocumentById orm now id docs) /\
  (forall unlinkable files,
      consistent (fst (fst (deleteDocument orm now unlinkable id docs files)))) /\
  consistent (fst (regenerateQuestions rt orm svc now id docs)) /\
  (forall freshChatId req,
      consistent (fst (sendMessage rt orm svc now freshChatId req docs stored))) /\
  consistent (getChatHistory orm now id docs stored) /\
  consistent (fst (clearChatHistory orm now id docs stored)) /\
  consistent (getDocumentContext orm now id docs) /\
  (forall query, consistent (getAllChats now query docs stored)) /\
  consistent (getExportOptions orm now docs stored id).
Proof.
  repeat match goal with |- _ /\ _ => split end.
  - intros freshId freshDocumentId req. unfold uploadAndAnalyze.
    destruct (file_path req) as [imagePath|]; [|settle].
    destruct (prompt req) as [[|c userPrompt]|]; try settle.
    destruct (negb (Vision.success _)); [settle|].
    destruct (str_or _ _) as [ocrText|]; [|settle].
    destruct (negb (Gemini.analysis_success _)); [settle|].
    destruct (YouTube.getEducationalVideos _ _ _ _ _ _ _ _) as [|youtubeResult];
      [settle|].
    destruct (createDocument _ _ _ _ _) as [d|e]; settle.
  - intros query. unfold getAllDocuments.
    destruct (findPage createdAt _ _ docs) as [found|]; [|settle].
    destruct (mapTry summarize found) as [summaries|]; settle.
  - unfold getDocumentById.
    destruct (is_empty id); [settle|].
    destruct (findById orm docs id) as [[document|]|e]; [settle|settle|].
    destruct e; settle.
  - intros unlinkable files. unfold deleteDocument.
    destruct (is_empty id); [settle|].
    destruct (findById orm docs id) as [[document|]|e]; [|settle|destruct e; settle].
    destruct (existsSync files _); [|settle].
    destruct (unlinkable _); settle.
  - unfold regenerateQuestions.
    destruct (is_empty id); [settle|].
    destruct (findById orm docs id) as [[document|]|e]; [|settle|settle].
    destruct (castQuestions orm _); settle.
  - intros freshChatId req. unfold sendMessage.
    destruct (sr_documentId req) as [[|c documentId]|]; try settle.
    destruct (sr_message req) as [text|]; [|settle].
    destruct (is_empty (trim text)); [settle|].
    destruct (findById orm docs (c :: documentId)) as [[document|]|e];
      [|settle|destruct e; settle].
    destruct (findChat orm stored (c :: documentId)) as [before|e];
      [|destruct e; settle].
    destruct (negb (Gemini.answer_success _)); [settle|].
    remember (Gemini.answer _) as reply eqn:Hreply. clear Hreply.
    destruct (is_empty reply); settle.
  - unfold getChatHistory.
    destruct (is_empty id); [settle|].
    destruct (findById orm docs id) as [[document|]|e]; [|settle|destruct e; settle].
    destruct (findChat orm stored id) as [[chat|]|e]; [settle|settle|destruct e; settle].
  - unfold clearChatHistory.
    destruct (is_empty id); [settle|].
    destruct (findById orm docs id) as [[document|]|e]; [|settle|destruct e; settle].
    destruct (findChat orm stored id) as [found|e]; [settle|destruct e; settle].
  - unfold getDocumentContext.
    destruct (is_empty id); [settle|].
    destruct (findById orm docs id) as [[document|]|e]; [|settle|destruct e; settle].
    destruct (extractedText document); settle.
  - intros query. unfold getAllChats.
    destruct (findPage chat_updatedAt _ _ stored) as [found|]; settle.
  - unfold getExportOptions.
    destruct (is_empty id); [settle|].
    destruct (findById orm docs id) as [[document|]|e]; [|settle|destruct e; settle].
    destruct (findChat orm stored id) as [found|e]; [settle|destruct e; settle].
Qed.

End ApiMore.
